(** * Work-calendar-aware status duration engine (backend/main.py)

    A shallow embedding of the pure core of [backend/main.py]: the
    timestamp normaliser [parse_iso_to_msk], the work calendar
    [add_working_time_segment], the status timeline accumulator
    [calculate_in_progress_time_for_period], the row aggregation of
    [process_data] and the per-assignee block of [save_to_excel_multi];
    further down, [clamp_to_workday_window] and the endpoints
    [get_workspaces] and [get_workitems] over an abstract HTTP client.

    Conventions.
    - A [datetime] is a timezone-aware Python datetime: its naive
      wall-clock fields, counted in microseconds since 1970-01-01T00:00:00,
      and the UTC offset of the tzinfo object attached to it.  pytz attaches
      fixed-offset tzinfo objects, so the offset is a field of the value.
    - A [timedelta] is a number of microseconds.
    - Python floats are represented by the exact rational they approximate;
      [round(_, 1)] is kept abstract.
    - Python's year range (1..9999, OverflowError outside) is not modelled:
      day numbers range over [Z]. *)

From Stdlib Require Import ZArith QArith Bool List String Ascii Lia.
From Stdlib Require Import Sorting.Permutation Sorting.Sorted.
Import ListNotations.

Open Scope Z_scope.

(** ** Time units *)

Definition timedelta := Z.

Definition US_PER_SECOND : Z := 1000000.
Definition US_PER_MINUTE : Z := 60 * US_PER_SECOND.
Definition US_PER_HOUR : Z := 60 * US_PER_MINUTE.
Definition US_PER_DAY : Z := 24 * US_PER_HOUR.

Definition seconds (n : Z) : timedelta := n * US_PER_SECOND.
Definition minutes (n : Z) : timedelta := n * US_PER_MINUTE.
Definition hours (n : Z) : timedelta := n * US_PER_HOUR.
Definition days (n : Z) : timedelta := n * US_PER_DAY.

(** ** Aware datetimes *)

Record datetime : Type := mkDatetime {
  naive : Z;       (* wall-clock fields, microseconds since 1970-01-01T00:00:00 *)
  utcoffset : Z    (* offset of the attached tzinfo, microseconds east of UTC *)
}.

(** The absolute instant (microseconds since the Unix epoch).  Comparison and
    subtraction of aware datetimes go through it. *)
Definition instant (dt : datetime) : Z := naive dt - utcoffset dt.

Definition dt_ltb (a b : datetime) : bool := instant a <? instant b.
Definition dt_leb (a b : datetime) : bool := instant a <=? instant b.

(** [a - b] *)
Definition dt_sub (a b : datetime) : timedelta := instant a - instant b.

(** Python's two-argument [max] and [min]: the first argument wins ties. *)
Definition dt_max (a b : datetime) : datetime := if dt_ltb a b then b else a.
Definition dt_min (a b : datetime) : datetime := if dt_ltb b a then b else a.

(** [dt.date()], as a day number (days since 1970-01-01). *)
Definition date (dt : datetime) : Z := naive dt / US_PER_DAY.

(** Wall-clock time within the day. *)
Definition time_of_day (dt : datetime) : Z := naive dt mod US_PER_DAY.

(** [date.weekday()]: Monday is 0, Sunday is 6; 1970-01-01 was a Thursday. *)
Definition weekday_of_day (d : Z) : Z := (d + 3) mod 7.
Definition weekday (dt : datetime) : Z := weekday_of_day (date dt).

(** [dt.replace(hour=h, minute=m, second=s, microsecond=0)]: same date, same
    tzinfo. *)
Definition replace_time (dt : datetime) (h m s : Z) : datetime :=
  {| naive := days (date dt) + hours h + minutes m + seconds s;
     utcoffset := utcoffset dt |}.

(** [dt + timedelta(days=n)]: wall-clock arithmetic, tzinfo kept. *)
Definition add_days (dt : datetime) (n : Z) : datetime :=
  {| naive := naive dt + days n; utcoffset := utcoffset dt |}.

(** Day number of a proleptic Gregorian calendar date (what
    [strptime(_, "%Y-%m-%d")] denotes), used to write dates in examples. *)
Definition days_from_civil (y m d : Z) : Z :=
  let y' := if m <=? 2 then y - 1 else y in
  let era := y' / 400 in
  let yoe := y' - era * 400 in
  let mp := (m + 9) mod 12 in
  let doy := (153 * mp + 2) / 5 + d - 1 in
  let doe := yoe * 365 + yoe / 4 - yoe / 100 + doy in
  era * 146097 + doe - 719468.

(** ** Settings *)

Definition WORK_START_HOUR : Z := 8.
Definition WORK_END_HOUR : Z := 17.

(** [MOSCOW_TZ = pytz.timezone("Europe/Moscow")].  The zone rules are those of
    the tz database, with offsets rounded to the minute as pytz does. *)
Module MOSCOW_TZ.

(** Offset of the tzinfo object [MOSCOW_TZ] itself, the zone's first entry
    (local mean time, +02:30).  This is what [replace(tzinfo=MOSCOW_TZ)]
    attaches. *)
Definition lmt_utcoffset : Z := seconds 9000.

(** UTC transition instants (seconds) and the offset (seconds) in force
    from each on. *)
Definition transitions : list (Z * Z) :=
 [(-1688265017, 9060); (-1656819079, 12660); (-1641353479, 9060);
  (-1627965079, 16260); (-1618716679, 12660); (-1596429079, 16260);
  (-1593820800, 14400); (-1589860800, 10800); (-1542427200, 14400);
  (-1539493200, 18000); (-1525323600, 14400); (-1522728000, 10800);
  (-1491188400, 7200); (-1247536800, 10800); (354920400, 14400);
  (370728000, 10800); (386456400, 14400); (402264000, 10800);
  (417992400, 14400); (433800000, 10800); (449614800, 14400);
  (465346800, 10800); (481071600, 14400); (496796400, 10800);
  (512521200, 14400); (528246000, 10800); (543970800, 14400);
  (559695600, 10800); (575420400, 14400); (591145200, 10800);
  (606870000, 14400); (622594800, 10800); (638319600, 14400);
  (654649200, 10800); (670374000, 10800); (686102400, 7200);
  (695779200, 10800); (701823600, 14400); (717548400, 10800);
  (733273200, 14400); (748998000, 10800); (764722800, 14400);
  (780447600, 10800); (796172400, 14400); (811897200, 10800);
  (828226800, 14400); (846370800, 10800); (859676400, 14400);
  (877820400, 10800); (891126000, 14400); (909270000, 10800);
  (922575600, 14400); (941324400, 10800); (954025200, 14400);
  (972774000, 10800); (985474800, 14400); (1004223600, 10800);
  (1017529200, 14400); (1035673200, 10800); (1048978800, 14400);
  (1067122800, 10800); (1080428400, 14400); (1099177200, 10800);
  (1111878000, 14400); (1130626800, 10800); (1143327600, 14400);
  (1162076400, 10800); (1174777200, 14400); (1193526000, 10800);
  (1206831600, 14400); (1224975600, 10800); (1238281200, 14400);
  (1256425200, 10800); (1269730800, 14400); (1288479600, 10800);
  (1301180400, 14400); (1414274400, 10800)].

(** The offset of the last transition at or before [utc], starting from
    [cur]. *)
Fixpoint lookup (table : list (Z * Z)) (cur : Z) (utc : Z) : Z :=
  match table with
  | [] => cur
  | (t, off) :: rest =>
      if seconds t <=? utc then lookup rest (seconds off) utc else cur
  end.

(** Offset in force at the UTC instant [utc] (microseconds). *)
Definition utcoffset_at (utc : Z) : Z := lookup transitions lmt_utcoffset utc.

(** [naive_dt.replace(tzinfo=MOSCOW_TZ)] *)
Definition attach (naive_us : Z) : datetime :=
  {| naive := naive_us; utcoffset := lmt_utcoffset |}.

(** [aware_dt.astimezone(MOSCOW_TZ)], from the instant of [aware_dt]. *)
Definition fromutc (utc : Z) : datetime :=
  {| naive := utc + utcoffset_at utc; utcoffset := utcoffset_at utc |}.

End MOSCOW_TZ.

(** [parse_iso_to_msk]: the argument is the instant denoted by the ISO
    string (the result of [datetime.fromisoformat]). *)
Definition parse_iso_to_msk (utc : Z) : datetime := MOSCOW_TZ.fromutc utc.

(** ** Work calendar *)

(** [is_working_day]: Saturday is 5, Sunday is 6. *)
Definition is_working_day (d : datetime) : bool :=
  negb ((weekday d =? 5) || (weekday d =? 6)).

(** [(cur + timedelta(days=1)).replace(hour=WORK_START_HOUR, minute=0, ...)] *)
Definition next_day_start (cur : datetime) : datetime :=
  replace_time (add_days cur 1) WORK_START_HOUR 0 0.

(** One iteration of the day loop of [add_working_time_segment]. *)
Definition day_loop_body (end_dt cur : datetime) (total : timedelta)
  : datetime * timedelta :=
  if negb (is_working_day cur) then (next_day_start cur, total)
  else
    let day_start := replace_time cur WORK_START_HOUR 0 0 in
    let day_end := replace_time cur WORK_END_HOUR 0 0 in
    let seg_start := dt_max cur day_start in
    let seg_end := dt_min end_dt day_end in
    let total' :=
      if dt_ltb seg_start seg_end then total + dt_sub seg_end seg_start
      else total in
    (next_day_start cur, total').

(** [while cur.date() <= end_dt.date(): ...], with an iteration budget;
    [None] when the budget runs out before the loop condition fails. *)
Fixpoint day_loop (fuel : nat) (end_dt cur : datetime) (total : timedelta)
  : option timedelta :=
  if date cur <=? date end_dt then
    match fuel with
    | O => None
    | S fuel' =>
        let '(cur', total') := day_loop_body end_dt cur total in
        day_loop fuel' end_dt cur' total'
    end
  else Some total.

(** Number of calendar days from [start_dt]'s date to [end_dt]'s, inclusive. *)
Definition days_spanned (start_dt end_dt : datetime) : nat :=
  Z.to_nat (date end_dt - date start_dt + 1).

Definition add_working_time_segment (start_dt end_dt : datetime) : timedelta :=
  if dt_leb end_dt start_dt then 0
  else
    match day_loop (days_spanned start_dt end_dt) end_dt start_dt 0 with
    | Some total => total
    | None => 0
    end.

(** ** Strings *)

(** [str.lower()] on ASCII letters; other bytes are left as they are. *)
Definition lower_ascii (c : ascii) : ascii :=
  let n := nat_of_ascii c in
  if ((65 <=? n) && (n <=? 90))%nat then ascii_of_nat (n + 32) else c.

Fixpoint lower (s : string) : string :=
  match s with
  | EmptyString => EmptyString
  | String c s' => String (lower_ascii c) (lower s')
  end.

(** ** Stable sort

    [list.sort(key=...)] and [sorted(..., key=...)] are stable and compare
    keys with [<] only.  The result of a stable sort is determined by the
    input, so insertion from the right stands for it: an element goes in front
    of the first element whose key is not smaller than its own. *)
Section StableSort.

Context {A : Type} (ltb : A -> A -> bool).

Fixpoint insert_stable (x : A) (l : list A) : list A :=
  match l with
  | [] => [x]
  | y :: l' => if ltb y x then y :: insert_stable x l' else x :: y :: l'
  end.

Fixpoint stable_sort (l : list A) : list A :=
  match l with
  | [] => []
  | x :: l' => insert_stable x (stable_sort l')
  end.

End StableSort.

(** ** Status timeline accumulator *)

(** The [date] field of a raw history record. *)
Inductive raw_date : Type :=
| NoDate                 (* absent, [None] or empty: [not e.get("date")] *)
| BadDate                (* a string [fromisoformat] rejects (ValueError) *)
| IsoDate (utc : Z).     (* a string denoting the instant [utc] *)

(** A raw history record.  [h_statusName] is
    [e["data"]["newValue"]["statusName"]]; [None] when any level is missing
    or null. *)
Record history_entry : Type := mkEntry {
  h_date : raw_date;
  h_statusName : option string
}.

Definition event : Type := datetime * string.

(** Body of the loop that builds [events]: [None] for [continue] (also on the
    exception path). *)
Definition event_of_entry (e : history_entry) : option event :=
  let new_status :=
    lower (match h_statusName e with Some s => s | None => EmptyString end) in
  match h_date e with
  | NoDate => None
  | BadDate => None
  | IsoDate utc =>
      if String.eqb new_status EmptyString then None
      else Some (parse_iso_to_msk utc, new_status)
  end.

Fixpoint build_events (history : list history_entry) : list event :=
  match history with
  | [] => []
  | e :: rest =>
      match event_of_entry e with
      | Some ev => ev :: build_events rest
      | None => build_events rest
      end
  end.

(** [x[0] < y[0]] on events. *)
Definition event_ltb (x y : event) : bool := dt_ltb (fst x) (fst y).

(** [events.sort(key=lambda x: x[0])] *)
Definition sort_events (events : list event) : list event :=
  stable_sort event_ltb events.

(** The first loop: state in effect at [period_start]. *)
Fixpoint initial_state (events : list event) (period_start : datetime)
    (target_status : string) (in_target_status : bool) : bool :=
  match events with
  | [] => in_target_status
  | (dt, status) :: rest =>
      if dt_leb dt period_start
      then initial_state rest period_start target_status
             (String.eqb status target_status)
      else in_target_status
  end.

Record walk_state : Type := mkWalk {
  in_target_status : bool;
  last_ts : datetime;
  total_td : timedelta
}.

(** Outcome of a loop iteration: go on, or [break]. *)
Inductive flow : Type :=
| Next (st : walk_state)
| Break (st : walk_state).

Section Walk.

Variables (period_start period_end : datetime) (target_status : string).

(** Body of the second loop. *)
Definition walk_body (st : walk_state) (ev : event) : flow :=
  let '(dt, status) := ev in
  if dt_leb dt period_start then Next st
  else if dt_ltb period_end dt then
    Break (if in_target_status st
           then mkWalk (in_target_status st) (last_ts st)
                  (total_td st + add_working_time_segment (last_ts st) period_end)
           else st)
  else
    Next (mkWalk (String.eqb status target_status) dt
            (if in_target_status st
             then total_td st + add_working_time_segment (last_ts st) dt
             else total_td st)).

(** The [for] loop over [events]. *)
Fixpoint walk_events (events : list event) (st : walk_state) : flow :=
  match events with
  | [] => Next st
  | ev :: rest =>
      match walk_body st ev with
      | Next st' => walk_events rest st'
      | Break st' => Break st'
      end
  end.

(** The [else] clause of the loop, run when it ended without [break]. *)
Definition walk_else (st : walk_state) : timedelta :=
  if dt_ltb (last_ts st) period_end && in_target_status st
  then total_td st + add_working_time_segment (last_ts st) period_end
  else total_td st.

Definition walk (events : list event) (st : walk_state) : timedelta :=
  match walk_events events st with
  | Next st' => walk_else st'
  | Break st' => total_td st'
  end.

End Walk.

(** [strptime(s, "%Y-%m-%d").replace(tzinfo=MOSCOW_TZ, hour=0, minute=0,
    second=0, microsecond=0)], for the day number of the date [s]. *)
Definition period_start_of (day : Z) : datetime :=
  replace_time (MOSCOW_TZ.attach (days day)) 0 0 0.

(** [... .replace(tzinfo=MOSCOW_TZ, hour=23, minute=59, second=59,
    microsecond=0)] *)
Definition period_end_of (day : Z) : datetime :=
  replace_time (MOSCOW_TZ.attach (days day)) 23 59 59.

(** [total_td.total_seconds() / 60] *)
Definition timedelta_minutes (td : timedelta) : Q := Qred (td # 60000000).

(** Total working time in the target status inside the period, as a
    timedelta (the value of [total_td] at the end of the function). *)
Definition in_progress_timedelta (history : list history_entry)
    (period_start_day period_end_day : Z) (status_name : string) : timedelta :=
  let target_status := lower status_name in
  let period_start := period_start_of period_start_day in
  let period_end := period_end_of period_end_day in
  match build_events history with
  | [] => 0
  | ev :: evs =>
      let events := sort_events (ev :: evs) in
      let in_target := initial_state events period_start target_status false in
      walk period_start period_end target_status events
        (mkWalk in_target period_start 0)
  end.

Definition calculate_in_progress_time_for_period (history : list history_entry)
    (period_start_day period_end_day : Z) (status_name : string) : Q :=
  timedelta_minutes
    (in_progress_timedelta history period_start_day period_end_day status_name).

(** ** Report rows *)

(** A report row [[key, task_name, hours]]. *)
Definition task : Type := string * string * Q.

Definition task_key (t : task) : string := fst (fst t).
Definition task_name (t : task) : string := snd (fst t).
Definition task_hours (t : task) : Q := snd t.

(** [x > 0] on numbers. *)
Definition Qpositive (x : Q) : bool := negb (Qle_bool x 0%Q).

(** Python dicts keep insertion order: association lists, one entry per key. *)
Section Dict.

Context {K V : Type} (eqb : K -> K -> bool).

Fixpoint dict_get (d : list (K * V)) (k : K) : option V :=
  match d with
  | [] => None
  | (k', v) :: rest => if eqb k k' then Some v else dict_get rest k
  end.

(** [d[k] = v]: an existing key keeps its position. *)
Fixpoint dict_set (d : list (K * V)) (k : K) (v : V) : list (K * V) :=
  match d with
  | [] => [(k, v)]
  | (k', v') :: rest =>
      if eqb k k' then (k', v) :: rest else (k', v') :: dict_set rest k v
  end.

End Dict.

(** [defaultdict(list)] keyed by assignee display name. *)
Definition group : Type := list (string * list task).

(** [g[name].append(row)]: a missing key is created with an empty list
    first. *)
Definition group_append (g : group) (name : string) (row : task) : group :=
  match dict_get String.eqb g name with
  | Some rows => dict_set String.eqb g name (rows ++ [row])
  | None => dict_set String.eqb g name [row]
  end.

(** The rows of an assignee, [[]] when there are none. *)
Definition group_rows (g : group) (name : string) : list task :=
  match dict_get String.eqb g name with
  | Some rows => rows
  | None => []
  end.

(** A period, as the day numbers of its [start] and [end] dates. *)
Record Period : Type := mkPeriod { p_start : Z; p_end : Z }.

Definition period_key : Type := Z * Z.

Definition period_key_eqb (a b : period_key) : bool :=
  (fst a =? fst b) && (snd a =? snd b).

(** [grouped_by_period] *)
Definition report_group : Type := list (period_key * group).

(** ** Report builder: [save_to_excel_multi] *)

Inductive cell : Type :=
| CellStr (s : string)
| CellNum (q : Q)
| CellInt (n : nat).

(** Calls on the worksheet, in order. *)
Inductive sheet_op : Type :=
| write (row col : nat) (v : cell)
| merge_range (first_row first_col last_row last_col : nat) (v : cell).

(** [task[2] if task[2] >= 1 else 1] *)
Definition display_hours (t : task) : Q :=
  if Qle_bool 1%Q (task_hours t) then task_hours t else 1%Q.

(** [sum(xs)] *)
Definition sum_hours (xs : list Q) : Q := fold_left Qplus xs 0%Q.

(** [sorted(tasks, key=lambda x: x[0])] *)
Definition sort_tasks (tasks : list task) : list task :=
  stable_sort (fun x y => String.ltb (task_key x) (task_key y)) tasks.

(** [[t for t in tasks if t[2] > 0]] *)
Definition kept_tasks (tasks : list task) : list task :=
  filter (fun t => Qpositive (task_hours t)) tasks.

(** The [for i, task in enumerate(tasks)] loop: three cells per row. *)
Fixpoint write_tasks (row : nat) (tasks : list task) (display_hours_list : list Q)
  : list sheet_op * nat :=
  match tasks, display_hours_list with
  | t :: tasks', h :: hs =>
      let '(ops, row') := write_tasks (S row) tasks' hs in
      (write row 1 (CellStr (task_key t))
         :: write row 2 (CellStr (task_name t))
         :: write row 3 (CellNum h) :: ops, row')
  | _, _ => ([], row)
  end.

Section ReportBuilder.

(** [round(x, 1)] on floats. *)
Variable round1 : Q -> Q.

(** Body of the loop over [grouped_data.items()]: the cells of one
    assignee, from row [row] on, and the next free row. *)
Definition assignee_block (row : nat) (display_name : string)
    (tasks : list task) : list sheet_op * nat :=
  let tasks := kept_tasks tasks in
  match tasks with
  | [] => ([], row)
  | _ :: _ =>
      let tasks := sort_tasks tasks in
      let display_hours_list := map display_hours tasks in
      let total_hours := sum_hours display_hours_list in
      let total_days := round1 (total_hours / 8)%Q in
      let tasks_count := List.length tasks in
      let last_row := (row + List.length tasks - 1)%nat in
      let head :=
        if (1 <? List.length tasks)%nat then
          [merge_range row 0 last_row 0 (CellStr display_name);
           merge_range row 4 last_row 4 (CellNum total_days);
           merge_range row 5 last_row 5 (CellInt tasks_count)]
        else
          [write row 0 (CellStr display_name);
           write row 4 (CellNum total_days);
           write row 5 (CellInt tasks_count)] in
      let '(ops, row') := write_tasks row tasks display_hours_list in
      (head ++ ops, row')
  end.

Fixpoint sheet_blocks (row : nat) (grouped_data : group) : list sheet_op :=
  match grouped_data with
  | [] => []
  | (display_name, tasks) :: rest =>
      let '(ops, row') := assignee_block row display_name tasks in
      ops ++ sheet_blocks row' rest
  end.

Definition headers : list string :=
  ["Display Name"; "Task Key"; "Task Name"; "In Progress Hours"; "Days";
   "Tasks Count"]%string.

Fixpoint write_headers (col : nat) (hs : list string) : list sheet_op :=
  match hs with
  | [] => []
  | h :: hs' => write 0 col (CellStr h) :: write_headers (S col) hs'
  end.

(** One worksheet per period, identified by the period. *)
Definition save_to_excel_multi (grouped_by_period : report_group)
  : list (period_key * list sheet_op) :=
  map (fun '(key, grouped_data) =>
         (key, write_headers 0 headers ++ sheet_blocks 1 grouped_data))
      grouped_by_period.

(** ** Aggregator: [process_data] *)

Record item : Type := mkItem {
  i_key : option string;
  i_workspaceId : option string;
  i_workitemId : option string;
  i_assignee_displayName : option string;
  i_name : option string
}.

(** [not x] for an optional string. *)
Definition falsy (x : option string) : bool :=
  match x with
  | None => true
  | Some s => String.eqb s EmptyString
  end.

Definition get_default (x : option string) (d : string) : string :=
  match x with Some s => s | None => d end.

(** The history service: the records of an item, each with its [type], or
    [None] when the request fails. *)
Variable fetch_history : item -> option (list (string * history_entry)).

Definition filtered_history (history_data : list (string * history_entry))
  : list history_entry :=
  map snd (filter (fun e => String.eqb (fst e) "StatusUpdated") history_data).

(** [grouped_by_period[(start, end)][display_name].append(row)] *)
Definition add_row (grouped : report_group) (key : period_key)
    (display_name : string) (row : task) : report_group :=
  match dict_get period_key_eqb grouped key with
  | Some g => dict_set period_key_eqb grouped key (group_append g display_name row)
  | None => grouped
  end.

(** [hours = round(mins / 60, 1)] *)
Definition hours_of (history : list history_entry) (period : Period)
    (status_to_search : string) : Q :=
  round1 (calculate_in_progress_time_for_period history
            (p_start period) (p_end period) status_to_search / 60)%Q.

(** Body of [for period in request.periods]. *)
Definition process_period (history : list history_entry)
    (key name display_name status_to_search : string)
    (grouped : report_group) (period : Period) : report_group :=
  let hours := hours_of history period status_to_search in
  if Qpositive hours
  then add_row grouped (p_start period, p_end period) display_name
         (key, name, hours)
  else grouped.

(** Body of [for item in request.items]. *)
Definition process_item (periods : list Period) (status_name : option string)
    (grouped : report_group) (it : item) : report_group :=
  if falsy (i_key it) || falsy (i_workspaceId it) || falsy (i_workitemId it)
  then grouped
  else
    match fetch_history it with
    | None => grouped
    | Some history_data =>
        let history := filtered_history history_data in
        let display_name :=
          get_default (i_assignee_displayName it) "Не указано" in
        let name := get_default (i_name it) "Не указано" in
        let status_to_search :=
          if falsy status_name then "in progress"%string
          else get_default status_name "in progress" in
        fold_left
          (process_period history (get_default (i_key it) EmptyString)
             name display_name status_to_search)
          periods grouped
    end.

(** [{(p.start, p.end): defaultdict(list) for p in request.periods}] *)
Definition init_groups (periods : list Period) : report_group :=
  fold_left (fun d p => dict_set period_key_eqb d (p_start p, p_end p) [])
    periods [].

(** The grouped rows handed to [save_to_excel_multi]. *)
Definition process_data (items : list item) (periods : list Period)
    (status_name : option string) : report_group :=
  fold_left (process_item periods status_name) items (init_groups periods).

End ReportBuilder.

(** ** Notions the properties are stated with *)

Definition event_instant (ev : event) : Z := instant (fst ev).

(** Ascending by timestamp. *)
Definition event_le (x y : event) : Prop := event_instant x <= event_instant y.

(** The most recent event at or before [period_start]: the one with the
    greatest timestamp among those at or before it and, among events with
    that same timestamp, the one latest in the list. *)
Fixpoint most_recent_at_or_before (events : list event) (period_start : datetime)
  : option event :=
  match events with
  | [] => None
  | ev :: rest =>
      match most_recent_at_or_before rest period_start with
      | Some later =>
          if dt_leb (fst ev) period_start && dt_ltb (fst later) (fst ev)
          then Some ev else Some later
      | None => if dt_leb (fst ev) period_start then Some ev else None
      end
  end.

(** The events with timestamp [t], in the order of the list. *)
Definition events_at (t : Z) (events : list event) : list event :=
  filter (fun ev => event_instant ev =? t) events.

(** The minimum-display rule as the report states it: under one hour shows
    as one hour. *)
Definition min_display (h : Q) : Q :=
  if Qlt_le_dec h 1 then 1%Q else h.

(** Working time of the calendar day [day] counted for a cursor standing at
    wall-clock time [x] of that day in a zone of offset [off], up to
    [end_dt]. *)
Definition day_overlap (end_dt : datetime) (day x off : Z) : timedelta :=
  if (weekday_of_day day =? 5) || (weekday_of_day day =? 6) then 0
  else Z.max 0
         (Z.min (instant end_dt) (days day + hours WORK_END_HOUR - off)
          - Z.max (days day + x - off) (days day + hours WORK_START_HOUR - off)).

(** The rows reported for a period and an assignee. *)
Definition rows_of (grouped : report_group) (key : period_key) (name : string)
  : list task :=
  match dict_get period_key_eqb grouped key with
  | Some g => group_rows g name
  | None => []
  end.

(** Rounding to one decimal on exact rationals, ties to even: a rounding
    function to run the report with. *)
Definition round_tenths (q : Q) : Q :=
  let n := Qnum q * 10 in
  let d := Zpos (Qden q) in
  let fl := n / d in
  let r := 2 * (n mod d) in
  let k := if r <? d then fl
           else if d <? r then fl + 1
           else if Z.even fl then fl else fl + 1 in
  Qred (k # 10).

(** ** Further code: the unused clamp, notions for the properties below,
    and the endpoints of the tracker *)

(** [clamp_to_workday_window] *)
Definition clamp_to_workday_window (dt : datetime) : datetime :=
  let day_start := replace_time dt WORK_START_HOUR 0 0 in
  let day_end := replace_time dt WORK_END_HOUR 0 0 in
  if dt_ltb dt day_start then day_start
  else if dt_ltb day_end dt then day_end
  else dt.

(** What one iteration of the day loop adds for the cursor [cur]. *)
Definition cursor_overlap (end_dt cur : datetime) : timedelta :=
  if is_working_day cur
  then Z.max 0
         (Z.min (instant end_dt)
            (days (date cur) + hours WORK_END_HOUR - utcoffset cur)
          - Z.max (instant cur)
              (days (date cur) + hours WORK_START_HOUR - utcoffset cur))
  else 0.

(** The day overlaps of [n] consecutive calendar days from [day] on, summed:
    the cursor stands at wall-clock time [x] on the first day and at the
    window start on the following ones. *)
Fixpoint window_sum (n : nat) (end_dt : datetime) (day x off : Z) : timedelta :=
  match n with
  | O => 0
  | S n' =>
      day_overlap end_dt day x off
      + window_sum n' end_dt (day + 1) (hours WORK_START_HOUR) off
  end.

(** Number of working days among the [n] calendar days from [day] on. *)
Fixpoint working_days_count (day : Z) (n : nat) : Z :=
  match n with
  | O => 0
  | S n' =>
      (if (weekday_of_day day =? 5) || (weekday_of_day day =? 6) then 0 else 1)
      + working_days_count (day + 1) n'
  end.


(** The entry gives an event later than [period_end]. *)
Definition entry_after (period_end : datetime) (e : history_entry) : bool :=
  match event_of_entry e with
  | Some ev => dt_ltb period_end (fst ev)
  | None => false
  end.

(** The accumulator from the list of built events on. *)
Definition events_timedelta (events : list event)
    (period_start period_end : datetime) (target_status : string) : timedelta :=
  match events with
  | [] => 0
  | _ :: _ =>
      walk period_start period_end target_status (sort_events events)
        (mkWalk (initial_state (sort_events events) period_start target_status
                   false)
           period_start 0)
  end.

(** Rows and column touched by a worksheet call. *)
Definition op_first_row (op : sheet_op) : nat :=
  match op with
  | write row _ _ => row
  | merge_range first_row _ _ _ _ => first_row
  end.

Definition op_last_row (op : sheet_op) : nat :=
  match op with
  | write row _ _ => row
  | merge_range _ _ last_row _ _ => last_row
  end.

Definition is_merge (op : sheet_op) : bool :=
  match op with
  | write _ _ _ => false
  | merge_range _ _ _ _ _ => true
  end.

(** Ascending task keys. *)
Definition task_key_le (x y : task) : Prop :=
  String.leb (task_key x) (task_key y) = true.

(** Number of rows a sheet gives to the assignees of [g]. *)
Fixpoint kept_count (g : group) : nat :=
  match g with
  | [] => 0
  | (_, tasks) :: rest => List.length (kept_tasks tasks) + kept_count rest
  end.

(** The item is skipped by [process_data]: an identifier is missing, or its
    history could not be fetched. *)
Definition item_skipped
    (fetch_history : item -> option (list (string * history_entry)))
    (it : item) : Prop :=
  falsy (i_key it) = true \/ falsy (i_workspaceId it) = true
  \/ falsy (i_workitemId it) = true \/ fetch_history it = None.

(** The row [process_data] computes for an item and a period. *)
Definition item_row (round1 : Q -> Q)
    (history_data : list (string * history_entry)) (status_name : option string)
    (it : item) (p : Period) : task :=
  (get_default (i_key it) EmptyString,
   get_default (i_name it) "Не указано",
   hours_of round1 (filtered_history history_data) p
     (if falsy status_name then "in progress"%string
      else get_default status_name "in progress")).

(** Every assignee of every group has rows, all with positive hours. *)
Definition rows_all_positive (grouped : report_group) : Prop :=
  forall key g name rows,
    In (key, g) grouped -> In (name, rows) g ->
    rows <> [] /\ Forall (fun t => (0 < task_hours t)%Q) rows.

(** ** JSON values and the tracker endpoints *)

(** A parsed JSON document.  Numbers are exact rationals; objects keep one
    entry per key. *)
#[warnings="-register-all"]
Inductive json : Type :=
| JNull
| JBool (b : bool)
| JNum (q : Q)
| JStr (s : string)
| JList (items : list json)
| JDict (fields : list (string * json)).

(** [bool(v)] *)
Definition truthy (v : json) : bool :=
  match v with
  | JNull => false
  | JBool b => b
  | JNum q => negb (Qeq_bool q 0)
  | JStr s => negb (String.eqb s EmptyString)
  | JList items => match items with [] => false | _ :: _ => true end
  | JDict fields => match fields with [] => false | _ :: _ => true end
  end.

(** [a or b] *)
Definition py_or (a b : json) : json := if truthy a then a else b.

(** [d.get(k)]: [None] (JSON null) when the key is absent. *)
Definition jget (d : list (string * json)) (k : string) : json :=
  match dict_get String.eqb d k with
  | Some v => v
  | None => JNull
  end.

(** [d.get(k, default)] *)
Definition jget_or (d : list (string * json)) (k : string) (default : json)
  : json :=
  match dict_get String.eqb d k with
  | Some v => v
  | None => default
  end.

(** [k in d] *)
Definition has_key (d : list (string * json)) (k : string) : bool :=
  match dict_get String.eqb d k with
  | Some _ => true
  | None => false
  end.

(** What a [for x in v] loop that only looks at dict elements can see of
    [v]: the elements of a list.  Iterating a string or a dict yields
    strings, which such a loop skips; iterating anything else raises
    TypeError, which the endpoint's handler catches: in each of these cases
    nothing is collected. *)
Definition elements (v : json) : list json :=
  match v with
  | JList items => items
  | _ => []
  end.

(** [[data] if data else []] *)
Definition singleton_if_truthy (data : json) : list json :=
  if truthy data then [data] else [].

(** The first of [keys] present in the object selects the list; without
    any, the document itself is the only candidate. *)
Fixpoint select_by_keys (keys : list string) (d : list (string * json))
  : list json :=
  match keys with
  | [] => singleton_if_truthy (JDict d)
  | k :: rest =>
      if has_key d k then elements (jget d k) else select_by_keys rest d
  end.

Definition select_list (keys : list string) (data : json) : list json :=
  match data with
  | JList items => items
  | JDict d => select_by_keys keys d
  | _ => singleton_if_truthy data
  end.

(** The objects among the elements ([isinstance(x, dict)]). *)
Fixpoint dicts_of (l : list json) : list (list (string * json)) :=
  match l with
  | [] => []
  | JDict d :: rest => d :: dicts_of rest
  | _ :: rest => dicts_of rest
  end.

(** Outcome of [requests.get(url, cookies=...)]: a RequestException, or a
    response with its status code and, when the body parses, its JSON. *)
Inductive response : Type :=
| RequestFailed
| Response (status_code : Z) (body : option json).

Inductive api_result (A : Type) : Type :=
| ApiOk (value : A)
| HTTPException (status_code : Z).

Arguments ApiOk {A} value.
Arguments HTTPException {A} status_code.

Definition TEAMSTORM_BASE_URL : string := "https://storm.alabuga.space".

Record workspace : Type := mkWorkspace {
  ws_id : json;
  ws_name : json;
  ws_key : json
}.

Definition format_workspace (ws : list (string * json)) : workspace :=
  {| ws_id := py_or (jget ws "id") (py_or (jget ws "workspaceId") (jget ws "_id"));
     ws_name :=
       py_or (jget ws "name")
         (py_or (jget ws "title")
            (py_or (jget ws "displayName")
               (jget_or ws "workspaceName" (JStr "Без названия"))));
     ws_key := py_or (jget ws "key") (jget ws "workspaceKey") |}.

Record formatted_item : Type := mkFormatted {
  f_key : json;
  f_name : json;
  f_workspaceId : string;
  f_workitemId : json;
  f_assignee : json
}.

Definition format_item (workspace_id : string) (it : list (string * json))
  : formatted_item :=
  {| f_key := py_or (jget it "key") (py_or (jget it "id") (jget it "_id"));
     f_name :=
       py_or (jget it "name")
         (py_or (jget it "title")
            (py_or (jget it "displayName")
               (jget_or it "workItemName" (JStr "Без названия"))));
     f_workspaceId := workspace_id;
     f_workitemId :=
       py_or (jget it "id")
         (py_or (jget it "workitemId")
            (py_or (jget it "workItemId") (jget it "_id")));
     f_assignee := py_or (jget it "assignee") (JDict []) |}.

(** [formatted_item["key"] and formatted_item["workitemId"]] *)
Definition item_complete (f : formatted_item) : bool :=
  truthy (f_key f) && truthy (f_workitemId f).

Section Endpoints.

(** [requests.get(url, cookies={"session": session_cookie}, ...)] *)
Variable requests_get : string -> string -> response.

Variable session_cookie : string.

(** The [for endpoint in possible_endpoints] loop of [get_workspaces]:
    [Some] for [return], [None] when the loop runs out. *)
Fixpoint workspaces_loop (endpoints : list string) : option (list workspace) :=
  match endpoints with
  | [] => None
  | endpoint :: rest =>
      match requests_get (TEAMSTORM_BASE_URL ++ endpoint) session_cookie with
      | RequestFailed => workspaces_loop rest
      | Response status_code body =>
          if status_code =? 200 then
            match body with
            | None => workspaces_loop rest
            | Some data =>
                let workspaces :=
                  select_list ["workspaces"; "items"; "data"]%string data in
                let result := map format_workspace (dicts_of workspaces) in
                match result with
                | [] => workspaces_loop rest
                | _ :: _ => Some result
                end
            end
          else workspaces_loop rest
      end
  end.

Definition workspace_endpoints : list string :=
  ["/api/v1/workspaces"; "/api/workspaces"; "/api/v1/user/workspaces";
   "/rest/api/1.0/workspaces"; "/rest/api/workspaces"]%string.

(** [get_workspaces].  The 404 is raised inside the outer [try], whose
    [except Exception] turns every exception into a 500. *)
Definition get_workspaces : api_result (list workspace) :=
  match
    match workspaces_loop workspace_endpoints with
    | Some result => ApiOk result
    | None => HTTPException 404
    end
  with
  | ApiOk result => ApiOk result
  | HTTPException _ => HTTPException 500
  end.

Variable workspace_id : string.

(** The loop of [get_workitems], threading [all_items]: [inl] for [return],
    [inr] when the loop runs out. *)
Fixpoint workitems_loop (endpoints : list string)
    (all_items : list formatted_item)
  : list formatted_item + list formatted_item :=
  match endpoints with
  | [] => inr all_items
  | endpoint :: rest =>
      match requests_get (TEAMSTORM_BASE_URL ++ endpoint) session_cookie with
      | RequestFailed => workitems_loop rest all_items
      | Response status_code body =>
          if status_code =? 200 then
            match body with
            | None => workitems_loop rest all_items
            | Some data =>
                let items :=
                  select_list ["items"; "workItems"; "data"; "results"]%string
                    data in
                let all_items :=
                  all_items
                  ++ filter item_complete
                       (map (format_item workspace_id) (dicts_of items)) in
                match all_items with
                | [] => workitems_loop rest all_items
                | _ :: _ => inl all_items
                end
            end
          else workitems_loop rest all_items
      end
  end.

Definition workitem_endpoints : list string :=
  ["/api/v1/workspaces/" ++ workspace_id ++ "/workItems";
   "/api/workspaces/" ++ workspace_id ++ "/workItems";
   "/api/v1/workspaces/" ++ workspace_id ++ "/items";
   "/api/workspaces/" ++ workspace_id ++ "/items";
   "/rest/api/1.0/workspaces/" ++ workspace_id ++ "/workItems";
   "/rest/api/workspaces/" ++ workspace_id ++ "/workItems"]%string.

(** [get_workitems]: the items and their count.  The outer handler lets an
    HTTPException through. *)
Definition get_workitems : api_result (list formatted_item * nat) :=
  match workitems_loop workitem_endpoints [] with
  | inl all_items => ApiOk (all_items, List.length all_items)
  | inr all_items =>
      match all_items with
      | [] => HTTPException 404
      | _ :: _ => ApiOk (all_items, List.length all_items)
      end
  end.

(** What one endpoint yields by itself: nothing unless it answers 200 with
    JSON. *)
Definition workspaces_from (endpoint : string) : list workspace :=
  match requests_get (TEAMSTORM_BASE_URL ++ endpoint) session_cookie with
  | RequestFailed => []
  | Response status_code body =>
      if status_code =? 200 then
        match body with
        | None => []
        | Some data =>
            map format_workspace
              (dicts_of
                 (select_list ["workspaces"; "items"; "data"]%string data))
        end
      else []
  end.

Definition workitems_from (endpoint : string) : list formatted_item :=
  match requests_get (TEAMSTORM_BASE_URL ++ endpoint) session_cookie with
  | RequestFailed => []
  | Response status_code body =>
      if status_code =? 200 then
        match body with
        | None => []
        | Some data =>
            filter item_complete
              (map (format_item workspace_id)
                 (dicts_of
                    (select_list
                       ["items"; "workItems"; "data"; "results"]%string data)))
        end
      else []
  end.

End Endpoints.


(** * Properties *)

(** ** Calendar arithmetic *)

Ltac unfold_units :=
  unfold days, hours, minutes, seconds, US_PER_DAY, US_PER_HOUR,
    US_PER_MINUTE, US_PER_SECOND in *.

Lemma US_PER_DAY_value : US_PER_DAY = 86400000000.
Proof. reflexivity. Qed.

Lemma date_of_day_offset (k x off : Z) :
  0 <= x < US_PER_DAY -> date (mkDatetime (days k + x) off) = k.
Proof.
  intros Hx. unfold date, days; simpl.
  rewrite Z.add_comm, Z.div_add by (rewrite US_PER_DAY_value; lia).
  rewrite Z.div_small by exact Hx. reflexivity.
Qed.

Lemma time_of_day_offset (k x off : Z) :
  0 <= x < US_PER_DAY -> time_of_day (mkDatetime (days k + x) off) = x.
Proof.
  intros Hx. unfold time_of_day, days; simpl.
  rewrite Z.add_comm, Z.mod_add by (rewrite US_PER_DAY_value; lia).
  apply Z.mod_small; exact Hx.
Qed.

Lemma date_add_days (dt : datetime) (n : Z) : date (add_days dt n) = date dt + n.
Proof.
  unfold date, add_days, days; simpl.
  apply Z.div_add. rewrite US_PER_DAY_value; lia.
Qed.

Lemma replace_time_eq (dt : datetime) (h : Z) :
  replace_time dt h 0 0 = mkDatetime (days (date dt) + hours h) (utcoffset dt).
Proof. unfold replace_time. f_equal. unfold_units. lia. Qed.

Lemma next_day_start_eq (cur : datetime) :
  next_day_start cur =
  mkDatetime (days (date cur + 1) + hours WORK_START_HOUR) (utcoffset cur).
Proof.
  unfold next_day_start. rewrite replace_time_eq, date_add_days. reflexivity.
Qed.

Lemma work_start_in_day : 0 <= hours WORK_START_HOUR < US_PER_DAY.
Proof. unfold WORK_START_HOUR; unfold_units; lia. Qed.

Lemma date_next_day_start (cur : datetime) :
  date (next_day_start cur) = date cur + 1.
Proof.
  rewrite next_day_start_eq. apply date_of_day_offset, work_start_in_day.
Qed.

Lemma time_of_day_next_day_start (cur : datetime) :
  time_of_day (next_day_start cur) = hours WORK_START_HOUR.
Proof.
  rewrite next_day_start_eq. apply time_of_day_offset, work_start_in_day.
Qed.

(** Every path through the loop body moves the cursor to the next day's
    window start. *)
Lemma day_loop_body_cursor (end_dt cur : datetime) (total : timedelta) :
  fst (day_loop_body end_dt cur total) = next_day_start cur.
Proof.
  unfold day_loop_body. destruct (negb (is_working_day cur)); reflexivity.
Qed.

(** ** The day loop *)

Lemma day_loop_enough_fuel (fuel : nat) :
  forall (end_dt cur : datetime) (total : timedelta),
    (Z.to_nat (date end_dt - date cur + 1) <= fuel)%nat ->
    exists result, day_loop fuel end_dt cur total = Some result.
Proof.
  induction fuel as [|fuel IH]; intros end_dt cur total Hfuel; simpl.
  - destruct (Z.leb_spec (date cur) (date end_dt)) as [Hle|Hgt].
    + lia.
    + eexists; reflexivity.
  - destruct (Z.leb_spec (date cur) (date end_dt)) as [Hle|Hgt].
    + pose proof (day_loop_body_cursor end_dt cur total) as Hcur.
      destruct (day_loop_body end_dt cur total) as [cur' total'].
      simpl in Hcur. subst cur'.
      apply IH. rewrite date_next_day_start. lia.
    + eexists; reflexivity.
Qed.

Lemma day_loop_more_fuel (fuel : nat) :
  forall (extra : nat) (end_dt cur : datetime) (total result : timedelta),
    day_loop fuel end_dt cur total = Some result ->
    day_loop (fuel + extra) end_dt cur total = Some result.
Proof.
  induction fuel as [|fuel IH]; intros extra end_dt cur total result; simpl.
  - destruct (date cur <=? date end_dt) eqn:Hc; [discriminate|].
    intros H. destruct extra; simpl; rewrite Hc; exact H.
  - destruct (date cur <=? date end_dt) eqn:Hc; [|intros H; exact H].
    destruct (day_loop_body end_dt cur total) as [cur' total'].
    apply IH.
Qed.

Lemma add_working_time_segment_inverted (start_dt end_dt : datetime) :
  instant end_dt <= instant start_dt ->
  add_working_time_segment start_dt end_dt = 0.
Proof.
  intros H. unfold add_working_time_segment, dt_leb.
  destruct (Z.leb_spec (instant end_dt) (instant start_dt)); [reflexivity|lia].
Qed.

(** C10. The work-calendar overlap function terminates on every pair of
    instants: each iteration of the day loop moves the cursor to 08:00 of the
    next calendar day, so after [days_spanned] iterations (or with any larger
    budget) the loop has returned, and that result is the function's. *)
Theorem add_working_time_segment_terminates (start_dt end_dt : datetime) :
  (forall (cur : datetime) (total : timedelta),
      let cur' := fst (day_loop_body end_dt cur total) in
      date cur' = date cur + 1 /\ time_of_day cur' = hours WORK_START_HOUR)
  /\ exists result,
      (forall extra : nat,
          day_loop (days_spanned start_dt end_dt + extra) end_dt start_dt 0
          = Some result)
      /\ add_working_time_segment start_dt end_dt
         = if dt_leb end_dt start_dt then 0 else result.
Proof.
  split.
  - intros cur total cur'. subst cur'. rewrite day_loop_body_cursor.
    split; [apply date_next_day_start|apply time_of_day_next_day_start].
  - destruct (day_loop_enough_fuel (days_spanned start_dt end_dt)
                end_dt start_dt 0) as [result Hres].
    + unfold days_spanned. lia.
    + exists result. split.
      * intros extra. apply day_loop_more_fuel, Hres.
      * unfold add_working_time_segment. rewrite Hres. reflexivity.
Qed.

(** ** Stable sort *)

Lemma filter_none {A : Type} (f : A -> bool) (l : list A) :
  (forall x, In x l -> f x = false) -> filter f l = [].
Proof.
  induction l as [|y l IH]; intros H; [reflexivity|].
  simpl. rewrite (H y (or_introl eq_refl)). apply IH.
  intros x Hx. apply H. right; exact Hx.
Qed.

Section StableSortPerm.

Context {A : Type} (ltb : A -> A -> bool).

Lemma insert_stable_perm (x : A) (l : list A) :
  Permutation (x :: l) (insert_stable ltb x l).
Proof.
  induction l as [|y l IH]; simpl.
  - apply Permutation_refl.
  - destruct (ltb y x).
    + eapply perm_trans; [apply perm_swap|]. apply perm_skip, IH.
    + apply Permutation_refl.
Qed.

Lemma stable_sort_perm (l : list A) : Permutation l (stable_sort ltb l).
Proof.
  induction l as [|x l IH]; simpl.
  - apply perm_nil.
  - eapply perm_trans; [apply perm_skip, IH|]. apply insert_stable_perm.
Qed.

Lemma stable_sort_In (l : list A) (x : A) :
  In x (stable_sort ltb l) <-> In x l.
Proof.
  split; apply Permutation_in;
    [apply Permutation_sym|]; apply stable_sort_perm.
Qed.

Lemma stable_sort_length (l : list A) :
  List.length (stable_sort ltb l) = List.length l.
Proof. symmetry. apply Permutation_length, stable_sort_perm. Qed.

End StableSortPerm.

(** Sorting by an integer key. *)
Section StableSortFacts.

Context {A : Type} (key : A -> Z).

Let ltb (x y : A) : bool := key x <? key y.
Let le (x y : A) : Prop := key x <= key y.

Lemma insert_stable_sorted (x : A) (l : list A) :
  StronglySorted le l -> StronglySorted le (insert_stable ltb x l).
Proof.
  induction 1 as [|y l Hs IH Hall]; simpl.
  - constructor; constructor.
  - unfold ltb at 1. destruct (Z.ltb_spec (key y) (key x)) as [Hlt|Hge].
    + constructor; [exact IH|].
      rewrite Forall_forall in *. intros z Hz.
      apply (Permutation_in _ (Permutation_sym (insert_stable_perm ltb x l))) in Hz.
      destruct Hz as [<-|Hz]; [unfold le; lia|apply Hall, Hz].
    + constructor; [constructor; assumption|].
      constructor; [exact Hge|].
      rewrite Forall_forall in *. intros z Hz.
      specialize (Hall z Hz). unfold le in *. lia.
Qed.

Lemma stable_sort_sorted (l : list A) : StronglySorted le (stable_sort ltb l).
Proof.
  induction l as [|x l IH]; simpl.
  - constructor.
  - apply insert_stable_sorted, IH.
Qed.

(** Stability: the elements with a given key keep their relative order. *)
Lemma insert_stable_filter (t : Z) (x : A) (l : list A) :
  filter (fun y => key y =? t) (insert_stable ltb x l)
  = filter (fun y => key y =? t) (x :: l).
Proof.
  induction l as [|y l IH]; [reflexivity|].
  simpl insert_stable. unfold ltb at 1.
  destruct (Z.ltb_spec (key y) (key x)) as [Hlt|Hge]; [|reflexivity].
  simpl in *. rewrite IH.
  destruct (Z.eqb_spec (key x) t) as [Hx|Hx];
    destruct (Z.eqb_spec (key y) t) as [Hy|Hy]; try reflexivity; lia.
Qed.

Lemma stable_sort_filter (t : Z) (l : list A) :
  filter (fun y => key y =? t) (stable_sort ltb l)
  = filter (fun y => key y =? t) l.
Proof.
  induction l as [|x l IH]; [reflexivity|].
  simpl stable_sort. rewrite insert_stable_filter. simpl. rewrite IH.
  reflexivity.
Qed.

(** A sorted list is its part below [t], then its part at [t], then its
    part above [t]. *)
Lemma sorted_split_at (t : Z) (l : list A) :
  StronglySorted le l ->
  l = filter (fun y => key y <? t) l
      ++ filter (fun y => key y =? t) l
      ++ filter (fun y => t <? key y) l.
Proof.
  induction 1 as [|x l Hs IH Hall]; [reflexivity|].
  simpl.
  destruct (Z.ltb_spec (key x) t) as [Hlt|Hge].
  - destruct (Z.eqb_spec (key x) t); [lia|].
    destruct (Z.ltb_spec t (key x)); [lia|].
    simpl. f_equal. exact IH.
  - assert (Hnone : filter (fun y => key y <? t) l = []).
    { apply filter_none. intros z Hz.
      rewrite Forall_forall in Hall. specialize (Hall z Hz). unfold le in Hall.
      destruct (Z.ltb_spec (key z) t); [lia|reflexivity]. }
    destruct (Z.eqb_spec (key x) t) as [Heq|Hne].
    + destruct (Z.ltb_spec t (key x)); [lia|].
      rewrite Hnone in *. simpl in *. f_equal. exact IH.
    + destruct (Z.ltb_spec t (key x)); [|lia].
      assert (Hnone' : filter (fun y => key y =? t) l = []).
      { apply filter_none. intros z Hz.
        rewrite Forall_forall in Hall. specialize (Hall z Hz).
        unfold le in Hall.
        destruct (Z.eqb_spec (key z) t); [lia|reflexivity]. }
      rewrite Hnone, Hnone' in *. simpl in *. f_equal. exact IH.
Qed.

End StableSortFacts.

(** ** Sorting events *)

Ltac case_compare :=
  repeat match goal with
         | |- context [?a <=? ?b] => destruct (Z.leb_spec a b)
         | |- context [?a <? ?b] => destruct (Z.ltb_spec a b)
         | |- context [?a =? ?b] => destruct (Z.eqb_spec a b)
         end.

Lemma sort_events_In (events : list event) (ev : event) :
  In ev (sort_events events) <-> In ev events.
Proof. apply (stable_sort_In event_ltb). Qed.

Lemma sort_events_sorted (events : list event) :
  StronglySorted event_le (sort_events events).
Proof. apply (stable_sort_sorted event_instant). Qed.

Lemma sort_events_at (t : Z) (events : list event) :
  events_at t (sort_events events) = events_at t events.
Proof. apply (stable_sort_filter event_instant). Qed.

(** ** The most recent event at or before the period start *)

Lemma most_recent_cons (ev : event) (rest : list event) (ps : datetime) :
  most_recent_at_or_before (ev :: rest) ps =
  match most_recent_at_or_before rest ps with
  | Some later =>
      if dt_leb (fst ev) ps && dt_ltb (fst later) (fst ev)
      then Some ev else Some later
  | None => if dt_leb (fst ev) ps then Some ev else None
  end.
Proof. reflexivity. Qed.

Lemma most_recent_In (events : list event) (ps : datetime) (ev : event) :
  most_recent_at_or_before events ps = Some ev ->
  In ev events /\ event_instant ev <= instant ps.
Proof.
  revert ev. induction events as [|x rest IH]; intros ev; [discriminate|].
  rewrite most_recent_cons.
  destruct (most_recent_at_or_before rest ps) as [later|].
  - specialize (IH later eq_refl). unfold dt_leb, dt_ltb.
    destruct (Z.leb_spec (instant (fst x)) (instant ps));
      destruct (Z.ltb_spec (instant (fst later)) (instant (fst x)));
      simpl; intros [= <-]; try (split; [right; tauto|tauto]).
    split; [left; reflexivity|assumption].
  - unfold dt_leb. destruct (Z.leb_spec (instant (fst x)) (instant ps));
      [|discriminate].
    intros [= <-]. split; [left; reflexivity|assumption].
Qed.

Lemma most_recent_None (events : list event) (ps : datetime) :
  (forall ev, In ev events -> instant ps < event_instant ev) ->
  most_recent_at_or_before events ps = None.
Proof.
  induction events as [|x rest IH]; intros H; [reflexivity|].
  rewrite most_recent_cons, IH by (intros ev Hev; apply H; right; exact Hev).
  specialize (H x (or_introl eq_refl)). unfold dt_leb, event_instant in *.
  destruct (Z.leb_spec (instant (fst x)) (instant ps)); [lia|reflexivity].
Qed.

Lemma most_recent_None_inv (events : list event) (ps : datetime) :
  most_recent_at_or_before events ps = None ->
  forall ev, In ev events -> instant ps < event_instant ev.
Proof.
  induction events as [|x rest IH]; intros Hnone ev Hin; [destruct Hin|].
  rewrite most_recent_cons in Hnone.
  destruct (most_recent_at_or_before rest ps) as [later|].
  - destruct (dt_leb (fst x) ps && dt_ltb (fst later) (fst x)); discriminate.
  - unfold dt_leb in Hnone.
    destruct (Z.leb_spec (instant (fst x)) (instant ps)); [discriminate|].
    destruct Hin as [<-|Hin]; [assumption|apply IH; [reflexivity|exact Hin]].
Qed.

(** The most recent event is at least as late as every event at or before
    the period start. *)
Lemma most_recent_latest (events : list event) (ps : datetime) (ev : event) :
  most_recent_at_or_before events ps = Some ev ->
  forall other, In other events -> event_instant other <= instant ps ->
                event_instant other <= event_instant ev.
Proof.
  revert ev. induction events as [|x rest IH]; intros ev Hev other Hin Hle;
    [destruct Hin|].
  rewrite most_recent_cons in Hev.
  destruct (most_recent_at_or_before rest ps) as [later|] eqn:Hrest.
  - specialize (IH later eq_refl other).
    unfold dt_leb, dt_ltb, event_instant in *.
    destruct (Z.leb_spec (instant (fst x)) (instant ps));
      destruct (Z.ltb_spec (instant (fst later)) (instant (fst x)));
      simpl in Hev; injection Hev as <-;
      (destruct Hin as [<-|Hin]; [lia|specialize (IH Hin Hle); lia]).
  - unfold dt_leb in Hev.
    destruct (Z.leb_spec (instant (fst x)) (instant ps)); [|discriminate].
    injection Hev as <-. destruct Hin as [<-|Hin]; [lia|].
    pose proof (most_recent_None_inv rest ps Hrest other Hin). lia.
Qed.

Lemma most_recent_insert (x : event) (events : list event) (ps : datetime) :
  most_recent_at_or_before (insert_stable event_ltb x events) ps
  = most_recent_at_or_before (x :: events) ps.
Proof.
  induction events as [|y rest IH]; [reflexivity|].
  simpl insert_stable. unfold event_ltb at 1, dt_ltb.
  destruct (Z.ltb_spec (instant (fst y)) (instant (fst x))) as [Hlt|Hge];
    [|reflexivity].
  rewrite (most_recent_cons y), IH, (most_recent_cons x (y :: rest)),
    (most_recent_cons y rest), (most_recent_cons x rest).
  destruct (most_recent_at_or_before rest ps) as [m|];
    unfold dt_leb, dt_ltb; case_compare; simpl; case_compare; simpl;
    try reflexivity; try lia.
Qed.

(** Sorting does not change which event is the most recent one. *)
Lemma most_recent_sort (events : list event) (ps : datetime) :
  most_recent_at_or_before (sort_events events) ps
  = most_recent_at_or_before events ps.
Proof.
  induction events as [|x rest IH]; [reflexivity|].
  unfold sort_events in *. simpl stable_sort.
  rewrite most_recent_insert, !most_recent_cons, IH. reflexivity.
Qed.

(** ** The state at the period start *)

Lemma Sorted_event_le_strong (events : list event) :
  Sorted event_le events -> StronglySorted event_le events.
Proof.
  apply Sorted_StronglySorted. intros x y z Hxy Hyz.
  unfold event_le in *. lia.
Qed.

Lemma initial_state_sorted (events : list event) (ps : datetime)
    (target : string) :
  StronglySorted event_le events ->
  forall b,
    initial_state events ps target b =
    match most_recent_at_or_before events ps with
    | Some (_, status) => String.eqb status target
    | None => b
    end.
Proof.
  induction 1 as [|[dt status] rest Hs IH Hall]; intros b; [reflexivity|].
  rewrite most_recent_cons. simpl initial_state. simpl fst.
  unfold dt_leb. destruct (Z.leb_spec (instant dt) (instant ps)) as [Hle|Hgt].
  - rewrite IH.
    destruct (most_recent_at_or_before rest ps) as [[dt' status']|] eqn:Hm;
      [|reflexivity].
    apply most_recent_In in Hm. destruct Hm as [Hin _].
    rewrite Forall_forall in Hall. specialize (Hall _ Hin).
    unfold event_le, event_instant, dt_ltb in *. simpl in *.
    destruct (Z.ltb_spec (instant dt') (instant dt)); [lia|reflexivity].
  - simpl. rewrite most_recent_None; [reflexivity|].
    intros ev Hev. rewrite Forall_forall in Hall. specialize (Hall _ Hev).
    unfold event_le, event_instant in *. simpl in *. lia.
Qed.

(** C3. On a list sorted by timestamp, the state in effect at the period
    start is whether the most recent event at or before the period start
    carries the target status; when no event lies at or before the period
    start the state is not-in-target. *)
Theorem initial_state_is_most_recent (events : list event) (ps : datetime)
    (target : string) :
  Sorted event_le events ->
  initial_state events ps target false =
    match most_recent_at_or_before events ps with
    | Some (_, status) => String.eqb status target
    | None => false
    end
  /\ ((forall ev, In ev events -> instant ps < event_instant ev) ->
      initial_state events ps target false = false).
Proof.
  intros Hsorted. apply Sorted_event_le_strong in Hsorted.
  split.
  - apply initial_state_sorted, Hsorted.
  - intros Hnone. rewrite initial_state_sorted by exact Hsorted.
    rewrite most_recent_None by exact Hnone. reflexivity.
Qed.

(** ** The walk *)

Lemma walk_events_app (ps pe : datetime) (target : string)
    (l1 l2 : list event) (st : walk_state) :
  walk_events ps pe target (l1 ++ l2) st =
  match walk_events ps pe target l1 st with
  | Next st' => walk_events ps pe target l2 st'
  | Break st' => Break st'
  end.
Proof.
  revert st. induction l1 as [|ev l1 IH]; intros st; [reflexivity|].
  simpl. destruct (walk_body ps pe target st ev); [apply IH|reflexivity].
Qed.

(** With no event inside [(period_start, period_end]], a walk that starts in
    the target status counts the whole window once. *)
Lemma walk_no_event_inside (ps pe : datetime) (target : string)
    (events : list event) :
  (forall ev, In ev events ->
              ~ (instant ps < event_instant ev <= instant pe)) ->
  walk ps pe target events (mkWalk true ps 0) = add_working_time_segment ps pe.
Proof.
  unfold walk. induction events as [|[dt status] rest IH]; intros Hout.
  - simpl. unfold walk_else; simpl. unfold dt_ltb.
    destruct (Z.ltb_spec (instant ps) (instant pe)); simpl; [reflexivity|].
    rewrite add_working_time_segment_inverted by lia. reflexivity.
  - simpl. specialize (Hout (dt, status) (or_introl eq_refl)) as Hdt.
    unfold event_instant in Hdt; simpl in Hdt. unfold dt_leb, dt_ltb.
    destruct (Z.leb_spec (instant dt) (instant ps)).
    + apply IH. intros ev Hev. apply Hout. right; exact Hev.
    + destruct (Z.ltb_spec (instant pe) (instant dt)); [reflexivity|lia].
Qed.

(** With the period end before the period start, nothing is counted. *)
Lemma walk_inverted (ps pe : datetime) (target : string) (events : list event) :
  instant pe <= instant ps ->
  forall b, walk ps pe target events (mkWalk b ps 0) = 0.
Proof.
  intros Hinv b. unfold walk. induction events as [|[dt status] rest IH].
  - simpl. unfold walk_else; simpl. unfold dt_ltb.
    destruct (Z.ltb_spec (instant ps) (instant pe)); [lia|reflexivity].
  - simpl. unfold dt_leb, dt_ltb.
    destruct (Z.leb_spec (instant dt) (instant ps)); [exact IH|].
    destruct (Z.ltb_spec (instant pe) (instant dt)); [|lia].
    simpl. destruct b; simpl; [|reflexivity].
    apply add_working_time_segment_inverted, Hinv.
Qed.

Lemma date_attach_days (day : Z) : date (MOSCOW_TZ.attach (days day)) = day.
Proof.
  unfold date, MOSCOW_TZ.attach, days; simpl.
  apply Z.div_mul. rewrite US_PER_DAY_value; lia.
Qed.

Lemma period_start_of_eq (day : Z) :
  period_start_of day = mkDatetime (days day) MOSCOW_TZ.lmt_utcoffset.
Proof.
  unfold period_start_of, replace_time. rewrite date_attach_days.
  simpl. f_equal. unfold_units. lia.
Qed.

Lemma period_end_of_eq (day : Z) :
  period_end_of day =
  mkDatetime (days day + (hours 23 + minutes 59 + seconds 59))
    MOSCOW_TZ.lmt_utcoffset.
Proof.
  unfold period_end_of, replace_time. rewrite date_attach_days.
  simpl. f_equal. unfold_units. lia.
Qed.

Lemma period_bounds_inverted (start_day end_day : Z) :
  end_day < start_day ->
  instant (period_end_of end_day) < instant (period_start_of start_day).
Proof.
  intros H. rewrite period_end_of_eq, period_start_of_eq.
  unfold instant; simpl. unfold_units. lia.
Qed.

Lemma timedelta_minutes_zero : timedelta_minutes 0 = 0%Q.
Proof. reflexivity. Qed.

(** C5. When no valid event can be built from the history, the accumulator
    returns 0 minutes, for every period and every target status. *)
Theorem no_valid_events_zero_minutes (history : list history_entry)
    (start_day end_day : Z) (status_name : string) :
  build_events history = [] ->
  calculate_in_progress_time_for_period history start_day end_day status_name
  = 0%Q.
Proof.
  intros Hempty.
  unfold calculate_in_progress_time_for_period, in_progress_timedelta.
  rewrite Hempty. apply timedelta_minutes_zero.
Qed.

(** C6. A period whose end date precedes its start date yields zero minutes
    for every history and target status, and the overlap function returns
    zero whenever its end instant is at or before its start instant. *)
Theorem inverted_window_zero :
  (forall (history : list history_entry) (start_day end_day : Z)
          (status_name : string),
      end_day < start_day ->
      calculate_in_progress_time_for_period history start_day end_day
        status_name = 0%Q)
  /\ (forall start_dt end_dt : datetime,
         instant end_dt <= instant start_dt ->
         add_working_time_segment start_dt end_dt = 0).
Proof.
  split.
  - intros history start_day end_day status_name Hinv.
    unfold calculate_in_progress_time_for_period, in_progress_timedelta.
    destruct (build_events history) as [|ev evs]; [reflexivity|].
    rewrite walk_inverted; [reflexivity|].
    pose proof (period_bounds_inverted _ _ Hinv). lia.
  - exact add_working_time_segment_inverted.
Qed.

(** C1. When the most recent event at or before the period start carries the
    target status (statuses are compared in lower case) and no event falls
    inside [(period.start, period.end]], the accumulator returns the
    calendar-clipped duration of the whole window, in minutes. *)
Theorem target_throughout_counts_whole_window (history : list history_entry)
    (start_day end_day : Z) (status_name : string)
    (d : datetime) (status : string) :
  most_recent_at_or_before (build_events history) (period_start_of start_day)
    = Some (d, status) ->
  status = lower status_name ->
  (forall ev, In ev (build_events history) ->
      ~ (instant (period_start_of start_day) < event_instant ev
         <= instant (period_end_of end_day))) ->
  calculate_in_progress_time_for_period history start_day end_day status_name
  = timedelta_minutes
      (add_working_time_segment (period_start_of start_day)
         (period_end_of end_day)).
Proof.
  intros Hrecent Hstatus Hnone.
  unfold calculate_in_progress_time_for_period, in_progress_timedelta.
  destruct (build_events history) as [|ev evs] eqn:Hev; [discriminate|].
  f_equal.
  rewrite initial_state_sorted by apply sort_events_sorted.
  rewrite most_recent_sort, Hrecent, Hstatus, String.eqb_refl.
  apply walk_no_event_inside.
  intros ev' Hin. apply Hnone. apply sort_events_In, Hin.
Qed.

(** ** Events that share a timestamp *)

Lemma walk_events_no_break (ps pe : datetime) (target : string)
    (events : list event) :
  Forall (fun ev => event_instant ev <= instant pe) events ->
  forall st, exists st', walk_events ps pe target events st = Next st'.
Proof.
  induction 1 as [|[dt status] rest Hdt _ IH]; intros st; simpl.
  - eexists; reflexivity.
  - unfold event_instant in Hdt; simpl in Hdt. unfold dt_leb, dt_ltb.
    destruct (Z.leb_spec (instant dt) (instant ps)); [apply IH|].
    destruct (Z.ltb_spec (instant pe) (instant dt)); [lia|apply IH].
Qed.

Lemma walk_events_last (ps pe : datetime) (target : string)
    (events : list event) (d : datetime) (status : string) :
  Forall (fun ev => event_instant ev <= instant pe) events ->
  instant ps < instant d <= instant pe ->
  forall st, exists st',
    walk_events ps pe target (events ++ [(d, status)]) st = Next st'
    /\ in_target_status st' = String.eqb status target
    /\ last_ts st' = d.
Proof.
  intros Hall Hd st. rewrite walk_events_app.
  destruct (walk_events_no_break ps pe target events Hall st) as [st1 ->].
  simpl. unfold dt_leb, dt_ltb.
  destruct (Z.leb_spec (instant d) (instant ps)); [lia|].
  destruct (Z.ltb_spec (instant pe) (instant d)); [lia|].
  eexists; split; [reflexivity|split; reflexivity].
Qed.

Lemma initial_state_after (ps : datetime) (target : string)
    (events : list event) :
  Forall (fun ev => instant ps < event_instant ev) events ->
  forall b, initial_state events ps target b = b.
Proof.
  intros Hall b. destruct Hall as [|[dt status] rest Hdt _]; [reflexivity|].
  simpl. unfold event_instant in Hdt; simpl in Hdt. unfold dt_leb.
  destruct (Z.leb_spec (instant dt) (instant ps)); [lia|reflexivity].
Qed.

Lemma initial_state_last (ps : datetime) (target : string)
    (events after : list event) (d : datetime) (status : string) :
  Forall (fun ev => event_instant ev <= instant ps) events ->
  instant d <= instant ps ->
  Forall (fun ev => instant ps < event_instant ev) after ->
  forall b,
    initial_state (events ++ [(d, status)] ++ after) ps target b
    = String.eqb status target.
Proof.
  intros Hall Hd Hafter.
  induction Hall as [|[dt s] rest Hdt _ IH]; intros b; simpl.
  - unfold dt_leb. destruct (Z.leb_spec (instant d) (instant ps)); [|lia].
    apply initial_state_after, Hafter.
  - unfold event_instant in Hdt; simpl in Hdt. unfold dt_leb.
    destruct (Z.leb_spec (instant dt) (instant ps)); [|lia].
    apply IH.
Qed.

Lemma events_at_instant (t : Z) (events : list event) :
  Forall (fun ev => event_instant ev = t) (events_at t events).
Proof.
  apply Forall_forall. intros ev Hev. unfold events_at in Hev.
  apply filter_In in Hev. destruct Hev as [_ Hev]. apply Z.eqb_eq, Hev.
Qed.

(** The sorted list is: the events before [t], then the events at [t] in
    their original order, then the events after [t]. *)
Lemma sort_events_split (t : Z) (events : list event) :
  exists before after,
    sort_events events = before ++ events_at t events ++ after
    /\ Forall (fun ev => event_instant ev < t) before
    /\ Forall (fun ev => t < event_instant ev) after.
Proof.
  exists (filter (fun ev => event_instant ev <? t) (sort_events events)),
         (filter (fun ev => t <? event_instant ev) (sort_events events)).
  split; [|split].
  - rewrite <- sort_events_at.
    apply (sorted_split_at event_instant), sort_events_sorted.
  - apply Forall_forall. intros ev Hev. apply filter_In in Hev.
    destruct Hev as [_ Hev]. apply Z.ltb_lt, Hev.
  - apply Forall_forall. intros ev Hev. apply filter_In in Hev.
    destruct Hev as [_ Hev]. apply Z.ltb_lt, Hev.
Qed.

(** C7. Events with one and the same timestamp [t] stay in their original
    relative order when the events are sorted, and the status of the last of
    them is the state in effect from [t] on: after the walk has consumed
    them when [t] lies inside the period, and as the state at the period
    start when they are the latest events at or before it. *)
Theorem same_timestamp_last_wins (events : list event) (ps pe : datetime)
    (target : string) (t : Z) (earlier : list event) (d : datetime)
    (status : string) :
  events_at t events = earlier ++ [(d, status)] ->
  exists before after,
    sort_events events = before ++ events_at t events ++ after
    /\ Forall (fun ev => event_instant ev < t) before
    /\ Forall (fun ev => t < event_instant ev) after
    /\ (instant ps < t <= instant pe ->
        forall st, exists st',
          walk_events ps pe target (before ++ events_at t events) st = Next st'
          /\ in_target_status st' = String.eqb status target
          /\ last_ts st' = d
          /\ walk ps pe target (sort_events events) st
             = walk ps pe target after st')
    /\ (t <= instant ps ->
        Forall (fun ev => instant ps < event_instant ev) after ->
        forall b,
          initial_state (sort_events events) ps target b
          = String.eqb status target).
Proof.
  intros Hgroup.
  destruct (sort_events_split t events) as (before & after & Hsort & Hb & Ha).
  exists before, after. split; [exact Hsort|]. split; [exact Hb|].
  split; [exact Ha|].
  pose proof (events_at_instant t events) as Hat. rewrite Hgroup in Hat.
  apply Forall_app in Hat. destruct Hat as [Hearlier Hlast].
  apply Forall_inv in Hlast. unfold event_instant in Hlast; simpl in Hlast.
  split.
  - intros Ht st.
    destruct (walk_events_last ps pe target (before ++ earlier) d status)
      with (st := st) as (st' & Hwalk & Hstate & Hts).
    + apply Forall_app. split.
      * eapply Forall_impl; [|exact Hb]. simpl; intros; lia.
      * eapply Forall_impl; [|exact Hearlier]. simpl; intros; lia.
    + lia.
    + exists st'. rewrite Hgroup, app_assoc.
      split; [exact Hwalk|]. split; [exact Hstate|]. split; [exact Hts|].
      unfold walk. rewrite Hsort, Hgroup, app_assoc, app_assoc.
      rewrite walk_events_app, Hwalk. reflexivity.
  - intros Ht Hafter b. rewrite Hsort, Hgroup, app_assoc, app_assoc.
    rewrite <- app_assoc with (l := before ++ earlier).
    apply initial_state_last.
    + apply Forall_app. split.
      * eapply Forall_impl; [|exact Hb]. simpl; intros; lia.
      * eapply Forall_impl; [|exact Hearlier]. simpl; intros; lia.
    + lia.
    + exact Hafter.
Qed.

(** ** The Moscow zone *)

Lemma lookup_bounds (lo hi : Z) (table : list (Z * Z)) :
  forallb (fun e => (lo <=? seconds (snd e)) && (seconds (snd e) <=? hi)) table = true ->
  forall cur utc, lo <= cur <= hi -> lo <= MOSCOW_TZ.lookup table cur utc <= hi.
Proof.
  induction table as [|[t off] rest IH]; intros Hall cur utc Hcur; simpl; [exact Hcur|].
  simpl in Hall. apply andb_true_iff in Hall. destruct Hall as [Hoff Hrest].
  apply andb_true_iff in Hoff. destruct Hoff as [H1 H2].
  apply Z.leb_le in H1, H2.
  destruct (seconds t <=? utc); [apply IH; [exact Hrest|lia]|exact Hcur].
Qed.

Lemma utcoffset_at_bounds (utc : Z) :
  hours 2 <= MOSCOW_TZ.utcoffset_at utc <= hours 5.
Proof.
  apply lookup_bounds; [vm_compute; reflexivity|].
  unfold MOSCOW_TZ.lmt_utcoffset. unfold_units. lia.
Qed.

(** ** Stepping the day loop *)

Lemma weekday_of_day_succ (d w : Z) :
  weekday_of_day d = w -> weekday_of_day (d + 1) = (w + 1) mod 7.
Proof.
  unfold weekday_of_day. intros <-.
  replace (d + 1 + 3) with ((d + 3) + 1) by lia.
  rewrite Zplus_mod_idemp_l. reflexivity.
Qed.

Lemma day_loop_unfold (fuel : nat) (end_dt cur : datetime) (total : timedelta) :
  day_loop (S fuel) end_dt cur total =
  if date cur <=? date end_dt
  then day_loop fuel end_dt (fst (day_loop_body end_dt cur total))
         (snd (day_loop_body end_dt cur total))
  else Some total.
Proof.
  simpl. destruct (day_loop_body end_dt cur total); reflexivity.
Qed.

Lemma day_loop_body_weekend (end_dt cur : datetime) (total : timedelta) :
  weekday cur = 5 \/ weekday cur = 6 ->
  day_loop_body end_dt cur total = (next_day_start cur, total).
Proof.
  intros H. unfold day_loop_body, is_working_day.
  destruct H as [-> | ->]; reflexivity.
Qed.

(** On a working day the body adds the overlap of [cur, end_dt] with the
    day's window. *)
Lemma day_loop_body_working (end_dt cur : datetime) (total : timedelta) :
  0 <= weekday cur <= 4 ->
  day_loop_body end_dt cur total =
  (next_day_start cur,
   total + Z.max 0
     (Z.min (instant end_dt) (days (date cur) + hours WORK_END_HOUR - utcoffset cur)
      - Z.max (instant cur) (days (date cur) + hours WORK_START_HOUR - utcoffset cur))).
Proof.
  intros H. unfold day_loop_body, is_working_day.
  destruct (Z.eqb_spec (weekday cur) 5); [lia|].
  destruct (Z.eqb_spec (weekday cur) 6); [lia|].
  simpl. f_equal. rewrite !replace_time_eq.
  set (day_start := mkDatetime _ _). set (day_end := mkDatetime _ _).
  unfold dt_max, dt_min.
  destruct (dt_ltb cur day_start) eqn:E1;
    destruct (dt_ltb day_end end_dt) eqn:E2;
    match goal with
    | |- context [if dt_ltb ?a ?b then _ else _] => destruct (dt_ltb a b) eqn:E3
    end;
    unfold dt_ltb, dt_sub, day_start, day_end, instant in *; simpl in *;
    rewrite ?Z.ltb_lt, ?Z.ltb_ge in *;
    unfold WORK_START_HOUR, WORK_END_HOUR in *; unfold_units; lia.
Qed.


Lemma weekday_of_day_range (d : Z) : 0 <= weekday_of_day d < 7.
Proof. unfold weekday_of_day. apply Z.mod_pos_bound. lia. Qed.

Lemma day_loop_step (fuel : nat) (end_dt : datetime) (day x off : Z)
    (total : timedelta) :
  0 <= x < US_PER_DAY ->
  day <= date end_dt ->
  day_loop (S fuel) end_dt (mkDatetime (days day + x) off) total =
  day_loop fuel end_dt
    (mkDatetime (days (day + 1) + hours WORK_START_HOUR) off)
    (total + day_overlap end_dt day x off).
Proof.
  intros Hx Hday.
  assert (Hdate : date (mkDatetime (days day + x) off) = day)
    by (apply date_of_day_offset, Hx).
  rewrite day_loop_unfold, Hdate.
  destruct (Z.leb_spec day (date end_dt)); [|lia].
  unfold day_overlap.
  pose proof (weekday_of_day_range day) as Hrange.
  destruct (Z.eqb_spec (weekday_of_day day) 5) as [H5|H5];
    [|destruct (Z.eqb_spec (weekday_of_day day) 6) as [H6|H6]]; simpl orb; cbv iota.
  - rewrite day_loop_body_weekend by (unfold weekday; rewrite Hdate; tauto).
    cbn [fst snd]. rewrite next_day_start_eq, Hdate. cbn [utcoffset].
    f_equal. lia.
  - rewrite day_loop_body_weekend by (unfold weekday; rewrite Hdate; tauto).
    cbn [fst snd]. rewrite next_day_start_eq, Hdate. cbn [utcoffset].
    f_equal. lia.
  - rewrite day_loop_body_working by (unfold weekday; rewrite Hdate; lia).
    cbn [fst snd]. rewrite next_day_start_eq, Hdate. cbn [utcoffset].
    reflexivity.
Qed.

Lemma day_loop_done (fuel : nat) (end_dt cur : datetime) (total : timedelta) :
  date end_dt < date cur -> day_loop fuel end_dt cur total = Some total.
Proof.
  intros H. destruct fuel; simpl;
    destruct (Z.leb_spec (date cur) (date end_dt)); try lia; reflexivity.
Qed.

Lemma friday_to_monday (friday off : Z) :
  weekday_of_day friday = 4 ->
  hours 2 <= off <= hours 5 ->
  add_working_time_segment (mkDatetime (days friday + hours 16) off)
    (period_end_of (friday + 3)) = hours 10.
Proof.
  intros Hfri Hoff.
  pose proof (weekday_of_day_succ _ _ Hfri) as Hsat.
  pose proof (weekday_of_day_succ _ _ Hsat) as Hsun.
  pose proof (weekday_of_day_succ _ _ Hsun) as Hmon.
  change ((4 + 1) mod 7) with 5 in *. change ((5 + 1) mod 7) with 6 in *.
  change ((6 + 1) mod 7) with 0 in *.
  assert (Hend : date (period_end_of (friday + 3)) = friday + 3).
  { rewrite period_end_of_eq. apply date_of_day_offset. unfold_units. lia. }
  assert (Hstart : date (mkDatetime (days friday + hours 16) off) = friday).
  { apply date_of_day_offset. unfold_units. lia. }
  assert (Hpe : instant (period_end_of (friday + 3)) =
                days (friday + 3) + (hours 23 + minutes 59 + seconds 59)
                - MOSCOW_TZ.lmt_utcoffset).
  { rewrite period_end_of_eq. reflexivity. }
  unfold add_working_time_segment, days_spanned. rewrite Hend, Hstart.
  replace (Z.to_nat (friday + 3 - friday + 1)) with 4%nat by lia.
  unfold dt_leb.
  destruct (Z.leb_spec (instant (period_end_of (friday + 3)))
              (instant (mkDatetime (days friday + hours 16) off))) as [Hle|_].
  { rewrite Hpe in Hle. unfold instant in Hle; simpl in Hle.
    unfold MOSCOW_TZ.lmt_utcoffset in Hle. unfold_units. lia. }
  assert (H8 : 0 <= hours WORK_START_HOUR < US_PER_DAY) by apply work_start_in_day.
  rewrite day_loop_step by (rewrite ?Hend; unfold_units; lia).
  rewrite day_loop_step by (rewrite ?Hend; lia).
  rewrite day_loop_step by (rewrite ?Hend; lia).
  rewrite day_loop_step by (rewrite ?Hend; lia).
  rewrite day_loop_done
    by (rewrite Hend, date_of_day_offset by exact H8; lia).
  unfold day_overlap. rewrite Hfri, Hsat, Hsun, Hmon, Hpe. simpl.
  unfold MOSCOW_TZ.lmt_utcoffset, WORK_START_HOUR, WORK_END_HOUR.
  unfold_units. lia.
Qed.

(** C2. A single event (Friday 16:00, "in progress") with no later event, a
    period starting on or before that Friday and ending on the following
    Monday, target status "in progress": 600 minutes, one hour of Friday and
    the nine hours of Monday. *)
Theorem friday_16_to_monday_is_ten_hours (friday start_day utc : Z)
    (raw_status status_name : string) :
  weekday_of_day friday = 4 ->
  start_day <= friday ->
  naive (parse_iso_to_msk utc) = days friday + hours 16 ->
  lower raw_status = "in progress"%string ->
  lower status_name = "in progress"%string ->
  calculate_in_progress_time_for_period
    [mkEntry (IsoDate utc) (Some raw_status)] start_day (friday + 3) status_name
  = 600%Q.
Proof.
  intros Hfri Hstart Hnaive Hraw Htarget.
  pose proof (utcoffset_at_bounds utc) as Hoff.
  unfold calculate_in_progress_time_for_period, in_progress_timedelta.
  unfold build_events, event_of_entry. cbn [h_statusName h_date].
  rewrite Hraw, Htarget. cbn [String.eqb Ascii.eqb Bool.eqb].
  assert (Hdt : parse_iso_to_msk utc =
                mkDatetime (days friday + hours 16) (MOSCOW_TZ.utcoffset_at utc)).
  { unfold parse_iso_to_msk, MOSCOW_TZ.fromutc in *. simpl in Hnaive.
    rewrite Hnaive. reflexivity. }
  rewrite Hdt. set (off := MOSCOW_TZ.utcoffset_at utc) in *.
  unfold sort_events. cbn [stable_sort insert_stable].
  assert (Hps : instant (period_start_of start_day)
                < instant (mkDatetime (days friday + hours 16) off)).
  { rewrite period_start_of_eq. unfold instant; simpl.
    unfold MOSCOW_TZ.lmt_utcoffset. unfold_units. lia. }
  assert (Hpe : instant (mkDatetime (days friday + hours 16) off)
                < instant (period_end_of (friday + 3))).
  { rewrite period_end_of_eq. unfold instant; simpl.
    unfold MOSCOW_TZ.lmt_utcoffset. unfold_units. lia. }
  unfold walk. cbn [initial_state walk_events walk_body].
  unfold dt_leb, dt_ltb.
  destruct (Z.leb_spec (instant (mkDatetime (days friday + hours 16) off))
              (instant (period_start_of start_day))); [lia|].
  destruct (Z.ltb_spec (instant (period_end_of (friday + 3)))
              (instant (mkDatetime (days friday + hours 16) off))); [lia|].
  unfold walk_else. cbn [last_ts in_target_status total_td]. unfold dt_ltb.
  destruct (Z.ltb_spec (instant (mkDatetime (days friday + hours 16) off))
              (instant (period_end_of (friday + 3)))); [|lia].
  cbn [String.eqb Ascii.eqb Bool.eqb andb].
  rewrite friday_to_monday by assumption. reflexivity.
Qed.

(** ** Period bounds and the zone of the events *)

Lemma lookup_all_passed (table : list (Z * Z)) (utc : Z) :
  forallb (fun e => seconds (fst e) <=? utc) table = true ->
  forall cur,
    MOSCOW_TZ.lookup table cur utc
    = match table with
      | [] => cur
      | _ :: _ => seconds (snd (last table (0, 0)))
      end.
Proof.
  induction table as [|[t off] rest IH]; intros Hall cur; [reflexivity|].
  simpl in Hall. apply andb_true_iff in Hall. destruct Hall as [Ht Hrest].
  cbn [MOSCOW_TZ.lookup]. rewrite Ht, (IH Hrest).
  destruct rest; reflexivity.
Qed.

(** Since 2014-10-26 Moscow time is UTC+03:00. *)
Lemma utcoffset_at_modern (utc : Z) :
  seconds 1414274400 <= utc -> MOSCOW_TZ.utcoffset_at utc = hours 3.
Proof.
  intros H. unfold MOSCOW_TZ.utcoffset_at.
  rewrite lookup_all_passed; [reflexivity|].
  apply forallb_forall. intros [t off] Hin. apply Z.leb_le.
  assert (Ht : t <= 1414274400).
  { assert (Hall : forallb (fun e => fst e <=? 1414274400)
                     MOSCOW_TZ.transitions = true) by (vm_compute; reflexivity).
    rewrite forallb_forall in Hall. apply Z.leb_le. apply (Hall _ Hin). }
  simpl fst. unfold_units. lia.
Qed.

(** From 2014-10-27 on, the period start is the instant at which Moscow
    clocks show 00:30:00 of the start date, and the period end the instant
    at which they show 00:29:59 of the day after the end date. *)
Lemma period_bounds_in_msk (day : Z) :
  days_from_civil 2014 10 27 <= day ->
  parse_iso_to_msk (instant (period_start_of day))
  = mkDatetime (days day + minutes 30) (hours 3)
  /\ parse_iso_to_msk (instant (period_end_of day))
     = mkDatetime (days (day + 1) + (minutes 29 + seconds 59)) (hours 3).
Proof.
  intros Hday.
  change (days_from_civil 2014 10 27) with 16370 in Hday.
  rewrite period_start_of_eq, period_end_of_eq.
  unfold parse_iso_to_msk, MOSCOW_TZ.fromutc, instant; simpl.
  rewrite !utcoffset_at_modern
    by (unfold MOSCOW_TZ.lmt_utcoffset; unfold_units; lia).
  split; f_equal; unfold MOSCOW_TZ.lmt_utcoffset; unfold_units; lia.
Qed.

(** C4 (fails on the code). For the period 2024-01-01 .. 2024-01-01 the
    bounds carry the zone's local-mean-time offset +02:30, not the +03:00 of
    the events: read in Moscow time the period starts at 00:30:00 of the
    start date and ends at 00:29:59 of the next day.  The working window of
    a segment that starts at the period start is shifted with it: an item in
    the target status since Sunday and leaving it on Monday at 08:15 Moscow
    time is given 0 minutes, and one leaving it at 17:15 is given 525. *)
Theorem period_bounds_not_in_moscow_time :
  let day := days_from_civil 2024 1 1 in
  let msk (d h m : Z) := IsoDate (days d + hours h + minutes m - hours 3) in
  utcoffset (period_start_of day) = hours 2 + minutes 30
  /\ utcoffset (parse_iso_to_msk (instant (period_start_of day))) = hours 3
  /\ time_of_day (parse_iso_to_msk (instant (period_start_of day)))
     = minutes 30
  /\ parse_iso_to_msk (instant (period_end_of day))
     = mkDatetime (days (day + 1) + (minutes 29 + seconds 59)) (hours 3)
  /\ calculate_in_progress_time_for_period
       [mkEntry (msk (day - 1) 12 0) (Some "in progress"%string);
        mkEntry (msk day 8 15) (Some "done"%string)]
       day day "in progress" = 0%Q
  /\ calculate_in_progress_time_for_period
       [mkEntry (msk (day - 1) 12 0) (Some "in progress"%string);
        mkEntry (msk day 17 15) (Some "done"%string)]
       day day "in progress" = 525%Q.
Proof.
  cbv zeta. repeat split; vm_compute; reflexivity.
Qed.

(** ** Report builder *)

Lemma display_hours_min_display (t : task) :
  display_hours t = min_display (task_hours t).
Proof.
  unfold display_hours, min_display.
  destruct (Qlt_le_dec (task_hours t) 1) as [Hlt|Hle];
    destruct (Qle_bool 1 (task_hours t)) eqn:Hb; try reflexivity.
  - apply Qle_bool_iff in Hb. exfalso. exact (Qlt_not_le _ _ Hlt Hb).
  - apply Qle_bool_iff in Hle. congruence.
Qed.

Lemma Qpositive_iff (x : Q) : Qpositive x = true <-> (0 < x)%Q.
Proof.
  unfold Qpositive. rewrite negb_true_iff. split.
  - intros Hb. apply Qnot_le_lt. intros Hle. apply Qle_bool_iff in Hle. congruence.
  - intros Hlt. destruct (Qle_bool x 0) eqn:Hb; [|reflexivity].
    apply Qle_bool_iff in Hb. exfalso. exact (Qlt_not_le _ _ Hlt Hb).
Qed.

Lemma write_tasks_hours (tasks : list task) :
  forall (row r : nat) (v : cell),
    In (write r 3 v) (fst (write_tasks row tasks (map display_hours tasks)))
    <-> exists i t, nth_error tasks i = Some t /\ r = (row + i)%nat
                    /\ v = CellNum (display_hours t).
Proof.
  induction tasks as [|t tasks IH]; intros row r v; simpl.
  - split; [intros []|]. intros (i & t & H & _). destruct i; discriminate.
  - specialize (IH (S row) r v).
    destruct (write_tasks (S row) tasks (map display_hours tasks)) as [ops row'].
    simpl in *. split.
    + intros [H|[H|[H|H]]]; try discriminate.
      * injection H as <- <-. exists 0%nat, t. split; [reflexivity|]. split; [lia|reflexivity].
      * apply IH in H. destruct H as (i & t' & Hi & -> & ->).
        exists (S i), t'. split; [exact Hi|]. split; [lia|reflexivity].
    + intros (i & t' & Hi & Hr & Hv). destruct i as [|i]; simpl in Hi.
      * injection Hi as <-. right; right; left. subst. f_equal. lia.
      * right; right; right. apply IH. exists i, t'.
        split; [exact Hi|]. split; [lia|exact Hv].
Qed.

Lemma assignee_block_ops (round1 : Q -> Q) (row : nat) (name : string)
    (tasks : list task) :
  kept_tasks tasks <> [] ->
  let kept := sort_tasks (kept_tasks tasks) in
  let total_days := round1 (sum_hours (map display_hours kept) / 8)%Q in
  fst (assignee_block round1 row name tasks) =
  (if (1 <? List.length kept)%nat
   then [merge_range row 0 (row + List.length kept - 1) 0 (CellStr name);
         merge_range row 4 (row + List.length kept - 1) 4 (CellNum total_days);
         merge_range row 5 (row + List.length kept - 1) 5 (CellInt (List.length kept))]
   else [write row 0 (CellStr name); write row 4 (CellNum total_days);
         write row 5 (CellInt (List.length kept))])
  ++ fst (write_tasks row kept (map display_hours kept)).
Proof.
  intros Hne kept total_days. unfold assignee_block.
  destruct (kept_tasks tasks) as [|t ts] eqn:Hk; [congruence|].
  fold kept.
  destruct (write_tasks row kept (map display_hours kept)); reflexivity.
Qed.

(** C8. In the block of an assignee, the rows kept are those with positive
    hours; the hours cell of each kept row shows 1 when its hours are under
    1 and its hours unchanged otherwise, and the days cell is computed from
    the sum of exactly these displayed values.  0.4 hours show as 1 hour,
    1.4 hours as 1.4 hours. *)
Theorem minimum_display_rule (round1 : Q -> Q) (row : nat) (name : string)
    (tasks : list task) :
  let kept := sort_tasks (kept_tasks tasks) in
  let ops := fst (assignee_block round1 row name tasks) in
  let total_hours :=
    sum_hours (map (fun t => min_display (task_hours t)) kept) in
  let total_days := CellNum (round1 (total_hours / 8)%Q) in
  (forall t, In t kept <-> In t tasks /\ (0 < task_hours t)%Q)
  /\ (forall r v,
         In (write r 3 v) ops <->
         exists i t, nth_error kept i = Some t /\ r = (row + i)%nat
                     /\ v = CellNum (min_display (task_hours t)))
  /\ (kept <> [] ->
      In (if (1 <? List.length kept)%nat
          then merge_range row 4 (row + List.length kept - 1) 4 total_days
          else write row 4 total_days) ops)
  /\ (forall h, (h < 1)%Q -> min_display h = 1%Q)
  /\ (forall h, (1 <= h)%Q -> min_display h = h)
  /\ min_display (2 # 5) = 1%Q
  /\ min_display (7 # 5) = (7 # 5)%Q.
Proof.
  intros kept ops total_hours total_days.
  assert (Hmap : map display_hours kept
                 = map (fun t => min_display (task_hours t)) kept).
  { apply map_ext. intros t. apply display_hours_min_display. }
  assert (Hkept : forall t, In t kept <-> In t tasks /\ (0 < task_hours t)%Q).
  { intros t. unfold kept, sort_tasks. rewrite stable_sort_In.
    unfold kept_tasks. rewrite filter_In, Qpositive_iff. reflexivity. }
  assert (Hempty : kept_tasks tasks = [] -> kept = []).
  { intros E. unfold kept. rewrite E. reflexivity. }
  split; [exact Hkept|]. split; [|split].
  - intros r v.
    assert (Hcase : kept_tasks tasks = [] \/ kept_tasks tasks <> []).
    { destruct (kept_tasks tasks); [left; reflexivity|right; discriminate]. }
    destruct Hcase as [Hk|Hk].
    + unfold ops, assignee_block. rewrite Hk. simpl.
      rewrite (Hempty Hk). split; [intros []|].
      intros (i & t & Hi & _). destruct i; discriminate.
    + unfold ops. rewrite assignee_block_ops by exact Hk.
      fold kept. rewrite in_app_iff, write_tasks_hours.
      split.
      * intros [Hhead|(i & t & Hi & Hr & Hv)].
        -- destruct (1 <? List.length kept)%nat; simpl in Hhead;
             repeat (destruct Hhead as [Hhead|Hhead]; try discriminate);
             destruct Hhead.
        -- exists i, t. rewrite <- display_hours_min_display. tauto.
      * intros (i & t & Hi & Hr & Hv). right. exists i, t.
        rewrite display_hours_min_display. tauto.
  - intros Hne.
    assert (Hk : kept_tasks tasks <> []) by (intros E; apply Hne, Hempty, E).
    unfold ops. rewrite assignee_block_ops by exact Hk.
    fold kept. rewrite Hmap. fold total_hours. fold total_days.
    apply in_or_app. left.
    destruct (1 <? List.length kept)%nat; simpl; tauto.
  - split; [|split; [|split; reflexivity]].
    + intros h Hlt. unfold min_display.
      destruct (Qlt_le_dec h 1) as [_|Hle]; [reflexivity|].
      exfalso. exact (Qlt_not_le _ _ Hlt Hle).
    + intros h Hle. unfold min_display.
      destruct (Qlt_le_dec h 1) as [Hlt|_]; [|reflexivity].
      exfalso. exact (Qlt_not_le _ _ Hlt Hle).
Qed.


(** ** Aggregator *)

Section DictFacts.
Context {K V : Type} (eqb : K -> K -> bool).
Hypothesis eqb_spec : forall a b, eqb a b = true <-> a = b.

Lemma dict_get_set_same (d : list (K * V)) (k : K) (v : V) :
  dict_get eqb (dict_set eqb d k v) k = Some v.
Proof.
  induction d as [|[k' v'] rest IH]; simpl.
  - rewrite (proj2 (eqb_spec k k) eq_refl). reflexivity.
  - destruct (eqb k k') eqn:E; simpl; rewrite E; [reflexivity|exact IH].
Qed.

Lemma dict_get_set_other (d : list (K * V)) (k k' : K) (v : V) :
  k' <> k -> dict_get eqb (dict_set eqb d k v) k' = dict_get eqb d k'.
Proof.
  intros Hne. induction d as [|[k0 v0] rest IH]; simpl.
  - destruct (eqb k' k) eqn:E; [apply eqb_spec in E; contradiction|reflexivity].
  - destruct (eqb k k0) eqn:E; simpl.
    + destruct (eqb k' k0) eqn:E'; [|reflexivity].
      apply eqb_spec in E, E'. congruence.
    + destruct (eqb k' k0); [reflexivity|exact IH].
Qed.
End DictFacts.

Lemma period_key_eqb_spec (a b : period_key) :
  period_key_eqb a b = true <-> a = b.
Proof.
  destruct a as [a1 a2], b as [b1 b2]. unfold period_key_eqb; simpl.
  rewrite andb_true_iff, !Z.eqb_eq. split; [intros [-> ->]; reflexivity|].
  intros [= -> ->]. split; reflexivity.
Qed.

Lemma group_rows_append_same (g : group) (name : string) (row : task) :
  group_rows (group_append g name row) name = group_rows g name ++ [row].
Proof.
  unfold group_rows, group_append.
  destruct (dict_get String.eqb g name) as [rows|] eqn:E;
    rewrite (dict_get_set_same _ String.eqb_eq); reflexivity.
Qed.

Lemma group_rows_append_other (g : group) (name other : string) (row : task) :
  other <> name ->
  group_rows (group_append g name row) other = group_rows g other.
Proof.
  intros Hne. unfold group_rows, group_append.
  destruct (dict_get String.eqb g name) as [rows|] eqn:E;
    rewrite (dict_get_set_other _ String.eqb_eq) by exact Hne; reflexivity.
Qed.

(** C9. For an item and a period, the row [[key, name, hours]] is appended
    to the rows of that period and assignee exactly when the rounded hours
    are strictly positive, every other group staying as it was; with zero
    rounded hours the grouped structure is unchanged. *)
Theorem row_appended_iff_positive_hours (round1 : Q -> Q)
    (history : list history_entry) (key name display_name status : string)
    (grouped : report_group) (period : Period) (g : group) :
  dict_get period_key_eqb grouped (p_start period, p_end period) = Some g ->
  let hours := hours_of round1 history period status in
  let grouped' :=
    process_period round1 history key name display_name status grouped period in
  ((0 < hours)%Q ->
     rows_of grouped' (p_start period, p_end period) display_name
     = rows_of grouped (p_start period, p_end period) display_name
       ++ [(key, name, hours)]
     /\ forall key' name',
          (key', name') <> ((p_start period, p_end period), display_name) ->
          rows_of grouped' key' name' = rows_of grouped key' name')
  /\ (~ (0 < hours)%Q -> grouped' = grouped).
Proof.
  intros Hg hours grouped'. subst grouped'. unfold process_period. fold hours.
  split.
  - intros Hpos. rewrite (proj2 (Qpositive_iff hours) Hpos).
    unfold add_row, rows_of. rewrite Hg.
    split.
    + rewrite (dict_get_set_same _ period_key_eqb_spec).
      apply group_rows_append_same.
    + intros key' name' Hne.
      destruct (period_key_eqb key' (p_start period, p_end period)) eqn:E.
      * apply period_key_eqb_spec in E. subst key'.
        rewrite (dict_get_set_same _ period_key_eqb_spec), Hg.
        apply group_rows_append_other. congruence.
      * rewrite (dict_get_set_other _ period_key_eqb_spec); [reflexivity|].
        intros ->. rewrite (proj2 (period_key_eqb_spec _ _) eq_refl) in E.
        discriminate.
  - intros Hnpos. destruct (Qpositive hours) eqn:E; [|reflexivity].
    apply Qpositive_iff in E. contradiction.
Qed.

(** Every period of the request keeps its group throughout [process_data]. *)
Lemma dict_set_keeps_key {V : Type} (d : list (period_key * V))
    (k k' : period_key) (v : V) :
  dict_get period_key_eqb d k' <> None ->
  dict_get period_key_eqb (dict_set period_key_eqb d k v) k' <> None.
Proof.
  intros H. destruct (period_key_eqb k' k) eqn:E.
  - apply period_key_eqb_spec in E. subst k'.
    rewrite (dict_get_set_same _ period_key_eqb_spec). discriminate.
  - rewrite (dict_get_set_other _ period_key_eqb_spec); [exact H|].
    intros ->. rewrite (proj2 (period_key_eqb_spec _ _) eq_refl) in E.
    discriminate.
Qed.

Lemma init_groups_has_key (periods : list Period) (p : Period) :
  In p periods ->
  dict_get period_key_eqb (init_groups periods) (p_start p, p_end p) <> None.
Proof.
  unfold init_groups.
  assert (Hgen : forall d : report_group,
             In p periods
             \/ dict_get period_key_eqb d (p_start p, p_end p) <> None ->
             dict_get period_key_eqb
               (fold_left
                  (fun d q => dict_set period_key_eqb d (p_start q, p_end q) [])
                  periods d)
               (p_start p, p_end p) <> None).
  { induction periods as [|q rest IH]; intros d [Hin|Hd]; simpl.
    - destruct Hin.
    - exact Hd.
    - destruct Hin as [->|Hin].
      + apply IH. right.
        rewrite (dict_get_set_same _ period_key_eqb_spec). discriminate.
      + apply IH. left; exact Hin.
    - apply IH. right. apply dict_set_keeps_key, Hd. }
  intros Hin. apply Hgen. left; exact Hin.
Qed.

Lemma process_period_keeps_key (round1 : Q -> Q)
    (history : list history_entry) (key name display_name status : string)
    (grouped : report_group) (period : Period) (k : period_key) :
  dict_get period_key_eqb grouped k <> None ->
  dict_get period_key_eqb
    (process_period round1 history key name display_name status grouped period)
    k <> None.
Proof.
  intros H. unfold process_period.
  destruct (Qpositive _); [|exact H].
  unfold add_row.
  destruct (dict_get period_key_eqb grouped (p_start period, p_end period));
    [|exact H].
  apply dict_set_keeps_key, H.
Qed.

Lemma process_item_keeps_key (round1 : Q -> Q)
    (fetch_history : item -> option (list (string * history_entry)))
    (periods : list Period) (status_name : option string)
    (grouped : report_group) (it : item) (k : period_key) :
  dict_get period_key_eqb grouped k <> None ->
  dict_get period_key_eqb
    (process_item round1 fetch_history periods status_name grouped it) k
  <> None.
Proof.
  intros H. unfold process_item.
  destruct (falsy (i_key it) || falsy (i_workspaceId it)
            || falsy (i_workitemId it)); [exact H|].
  destruct (fetch_history it) as [history_data|]; [|exact H].
  revert grouped H. induction periods as [|p rest IH]; intros grouped H; simpl.
  - exact H.
  - apply IH, process_period_keeps_key, H.
Qed.

(** ** The scenarios of the report, run on the code

    2024-01-01 is day 19723, a Monday. *)

Example monday_is_day_19723 :
  days_from_civil 2024 1 1 = 19723 /\ weekday_of_day 19723 = 0.
Proof. split; reflexivity. Qed.

Example three_hours_on_monday :
  calculate_in_progress_time_for_period
    [mkEntry (IsoDate (days 19723 + hours 4)) (Some "todo"%string);
     mkEntry (IsoDate (days 19723 + hours 6)) (Some "In Progress"%string);
     mkEntry (IsoDate (days 19723 + hours 9)) (Some "done"%string)]
    19723 19723 "in progress" = 180%Q.
Proof. reflexivity. Qed.

Example nothing_on_the_weekend :
  calculate_in_progress_time_for_period
    [mkEntry (IsoDate (days 19723 + hours 4)) (Some "todo"%string);
     mkEntry (IsoDate (days 19723 + hours 6)) (Some "In Progress"%string);
     mkEntry (IsoDate (days 19723 + hours 9)) (Some "done"%string)]
    19728 19729 "in progress" = 0%Q.
Proof. reflexivity. Qed.

Example full_working_week :
  add_working_time_segment (period_start_of 19723) (period_end_of 19729)
  = hours 45.
Proof. reflexivity. Qed.

(** ** Instances on concrete data *)

Lemma target_throughout_counts_whole_window_witness :
  most_recent_at_or_before
    (build_events [mkEntry (IsoDate (days 19722 + hours 9)) (Some "In Progress"%string)])
    (period_start_of 19723)
  = Some (parse_iso_to_msk (days 19722 + hours 9), "in progress"%string)
  /\ calculate_in_progress_time_for_period
       [mkEntry (IsoDate (days 19722 + hours 9)) (Some "In Progress"%string)]
       19723 19723 "IN PROGRESS"
     = timedelta_minutes
         (add_working_time_segment (period_start_of 19723) (period_end_of 19723)).
Proof.
  split; [reflexivity|].
  apply (target_throughout_counts_whole_window
           [mkEntry (IsoDate (days 19722 + hours 9)) (Some "In Progress"%string)]
           19723 19723 "IN PROGRESS"
           (parse_iso_to_msk (days 19722 + hours 9)) "in progress").
  - reflexivity.
  - reflexivity.
  - intros ev [<-|[]] [H _]. vm_compute in H. discriminate.
Defined.

Lemma friday_16_to_monday_is_ten_hours_witness :
  weekday_of_day 19727 = 4
  /\ naive (parse_iso_to_msk (days 19727 + hours 13)) = days 19727 + hours 16
  /\ calculate_in_progress_time_for_period
       [mkEntry (IsoDate (days 19727 + hours 13)) (Some "In Progress"%string)]
       19723 (19727 + 3) "in progress" = 600%Q.
Proof.
  split; [reflexivity|]. split; [reflexivity|].
  apply (friday_16_to_monday_is_ten_hours 19727 19723 (days 19727 + hours 13)
           "In Progress" "in progress").
  - reflexivity.
  - lia.
  - reflexivity.
  - reflexivity.
  - reflexivity.
Defined.

Lemma initial_state_is_most_recent_witness :
  let events :=
    [(mkDatetime (days 19722 + hours 12) (hours 3), "in progress"%string);
     (mkDatetime (days 19723 + hours 9) (hours 3), "done"%string)] in
  Sorted event_le events
  /\ initial_state events (period_start_of 19723) "in progress" false = true.
Proof.
  cbv zeta.
  assert (Hsorted : Sorted event_le
            [(mkDatetime (days 19722 + hours 12) (hours 3), "in progress"%string);
             (mkDatetime (days 19723 + hours 9) (hours 3), "done"%string)]).
  { repeat constructor. vm_compute. discriminate. }
  split; [exact Hsorted|].
  rewrite (proj1 (initial_state_is_most_recent _ (period_start_of 19723)
                    "in progress" Hsorted)).
  reflexivity.
Defined.

Lemma no_valid_events_zero_minutes_witness :
  calculate_in_progress_time_for_period
    [mkEntry NoDate (Some "done"%string); mkEntry (IsoDate 0) None;
     mkEntry BadDate (Some "todo"%string);
     mkEntry (IsoDate 0) (Some EmptyString)]
    19723 19729 "in progress" = 0%Q.
Proof.
  apply (no_valid_events_zero_minutes
           [mkEntry NoDate (Some "done"%string); mkEntry (IsoDate 0) None;
            mkEntry BadDate (Some "todo"%string);
            mkEntry (IsoDate 0) (Some EmptyString)]
           19723 19729 "in progress").
  reflexivity.
Defined.

Lemma inverted_window_zero_witness :
  calculate_in_progress_time_for_period
    [mkEntry (IsoDate (days 19722 + hours 9)) (Some "in progress"%string)]
    19724 19723 "in progress" = 0%Q
  /\ add_working_time_segment (mkDatetime (days 19723 + hours 12) (hours 3))
       (mkDatetime (days 19723 + hours 9) (hours 3)) = 0.
Proof.
  split.
  - apply (proj1 inverted_window_zero). lia.
  - apply (proj2 inverted_window_zero). vm_compute. discriminate.
Defined.

Lemma same_timestamp_last_wins_witness :
  let nine := mkDatetime (days 19723 + hours 9) (hours 3) in
  let events :=
    [(nine, "in progress"%string);
     (mkDatetime (days 19723 + hours 7) (hours 3), "todo"%string);
     (nine, "done"%string);
     (mkDatetime (days 19723 + hours 12) (hours 3), "in progress"%string)] in
  events_at (instant nine) events
  = [(nine, "in progress"%string)] ++ [(nine, "done"%string)]
  /\ exists before after,
      sort_events events = before ++ events_at (instant nine) events ++ after
      /\ forall st, exists st',
           walk_events (period_start_of 19723) (period_end_of 19723)
             "in progress" (before ++ events_at (instant nine) events) st
           = Next st'
           /\ in_target_status st' = false.
Proof.
  cbv zeta. split; [reflexivity|].
  destruct (same_timestamp_last_wins
              [(mkDatetime (days 19723 + hours 9) (hours 3), "in progress"%string);
               (mkDatetime (days 19723 + hours 7) (hours 3), "todo"%string);
               (mkDatetime (days 19723 + hours 9) (hours 3), "done"%string);
               (mkDatetime (days 19723 + hours 12) (hours 3), "in progress"%string)]
              (period_start_of 19723) (period_end_of 19723) "in progress"
              (instant (mkDatetime (days 19723 + hours 9) (hours 3)))
              [(mkDatetime (days 19723 + hours 9) (hours 3), "in progress"%string)]
              (mkDatetime (days 19723 + hours 9) (hours 3)) "done" eq_refl)
    as (before & after & Hsort & _ & _ & Hwalk & _).
  exists before, after. split; [exact Hsort|].
  intros st. destruct (Hwalk ltac:(vm_compute; split; [reflexivity|discriminate]) st)
    as (st' & H1 & H2 & _).
  exists st'. split; [exact H1|exact H2].
Defined.

Lemma minimum_display_rule_witness :
  In (write 1 3 (CellNum 1%Q))
    (fst (assignee_block round_tenths 1 "Ann"
            [("T-2"%string, "b"%string, (7 # 5)%Q);
             ("T-1"%string, "a"%string, (2 # 5)%Q);
             ("T-3"%string, "c"%string, 0%Q)]))
  /\ In (write 2 3 (CellNum (7 # 5)%Q))
    (fst (assignee_block round_tenths 1 "Ann"
            [("T-2"%string, "b"%string, (7 # 5)%Q);
             ("T-1"%string, "a"%string, (2 # 5)%Q);
             ("T-3"%string, "c"%string, 0%Q)])).
Proof.
  pose proof (minimum_display_rule round_tenths 1 "Ann"
            [("T-2"%string, "b"%string, (7 # 5)%Q);
             ("T-1"%string, "a"%string, (2 # 5)%Q);
             ("T-3"%string, "c"%string, 0%Q)]) as H.
  cbv zeta in H. destruct H as (_ & Hcells & _).
  split; apply Hcells.
  - exists 0%nat, ("T-1"%string, "a"%string, (2 # 5)%Q). repeat split.
  - exists 1%nat, ("T-2"%string, "b"%string, (7 # 5)%Q). repeat split.
Defined.

Lemma row_appended_iff_positive_hours_witness :
  let history :=
    [mkEntry (IsoDate (days 19723 + hours 6)) (Some "In Progress"%string);
     mkEntry (IsoDate (days 19723 + hours 9)) (Some "Done"%string)] in
  let period := mkPeriod 19723 19723 in
  dict_get period_key_eqb (init_groups [period]) (19723, 19723) = Some []
  /\ rows_of
       (process_period round_tenths history "T-1" "Task" "Ann" "in progress"
          (init_groups [period]) period)
       (19723, 19723) "Ann"
     = [("T-1"%string, "Task"%string, 3%Q)].
Proof.
  cbv zeta. split; [reflexivity|].
  pose proof (row_appended_iff_positive_hours round_tenths
    [mkEntry (IsoDate (days 19723 + hours 6)) (Some "In Progress"%string);
     mkEntry (IsoDate (days 19723 + hours 9)) (Some "Done"%string)]
    "T-1" "Task" "Ann" "in progress" (init_groups [mkPeriod 19723 19723])
    (mkPeriod 19723 19723) [] eq_refl) as H.
  cbv zeta in H. destruct H as [H _].
  destruct (H ltac:(vm_compute; reflexivity)) as [Hrows _].
  etransitivity; [exact Hrows|]. vm_compute. reflexivity.
Defined.

(** * Further properties *)

Lemma naive_decompose (dt : datetime) :
  naive dt = days (date dt) + time_of_day dt
  /\ 0 <= time_of_day dt < US_PER_DAY.
Proof.
  unfold date, time_of_day, days. split.
  - rewrite Z.mul_comm. apply Z.div_mod. rewrite US_PER_DAY_value; lia.
  - apply Z.mod_pos_bound. rewrite US_PER_DAY_value; lia.
Qed.

Lemma is_working_day_weekday (cur : datetime) :
  is_working_day cur = true <-> 0 <= weekday cur <= 4.
Proof.
  unfold is_working_day. pose proof (weekday_of_day_range (date cur)) as H.
  fold (weekday cur) in H.
  destruct (Z.eqb_spec (weekday cur) 5); destruct (Z.eqb_spec (weekday cur) 6);
    simpl; split; intros; try discriminate; try lia; reflexivity.
Qed.

Lemma day_loop_body_eq (end_dt cur : datetime) (total : timedelta) :
  day_loop_body end_dt cur total
  = (next_day_start cur, total + cursor_overlap end_dt cur).
Proof.
  unfold cursor_overlap.
  destruct (is_working_day cur) eqn:E.
  - apply day_loop_body_working, is_working_day_weekday, E.
  - rewrite Z.add_0_r. apply day_loop_body_weekend.
    pose proof (weekday_of_day_range (date cur)) as H. fold (weekday cur) in H.
    destruct (Z.eq_dec (weekday cur) 5); [tauto|].
    destruct (Z.eq_dec (weekday cur) 6); [tauto|].
    assert (is_working_day cur = true) by (apply is_working_day_weekday; lia).
    congruence.
Qed.

Lemma instant_next_day_start (cur : datetime) :
  instant (next_day_start cur)
  = days (date cur + 1) + hours WORK_START_HOUR - utcoffset cur.
Proof. rewrite next_day_start_eq. reflexivity. Qed.

(** The next cursor is after the end of the current day's window. *)
Lemma next_day_start_later (cur : datetime) :
  instant cur < instant (next_day_start cur)
  /\ days (date cur) + hours WORK_END_HOUR - utcoffset cur
     < instant (next_day_start cur).
Proof.
  rewrite instant_next_day_start. destruct (naive_decompose cur) as [Hn Ht].
  unfold instant. rewrite Hn. unfold WORK_START_HOUR, WORK_END_HOUR.
  unfold_units. lia.
Qed.

Lemma cursor_overlap_bounds (end_dt cur : datetime) :
  0 <= cursor_overlap end_dt cur
  /\ cursor_overlap end_dt cur
     <= Z.max 0 (Z.min (instant end_dt) (instant (next_day_start cur))
                 - instant cur).
Proof.
  pose proof (next_day_start_later cur) as [H1 H2].
  unfold cursor_overlap. destruct (is_working_day cur); lia.
Qed.

Lemma day_loop_bounds (fuel : nat) :
  forall (start_dt end_dt cur : datetime) (total result : timedelta),
    instant start_dt <= instant cur ->
    0 <= total
         <= Z.max 0 (Z.min (instant end_dt) (instant cur) - instant start_dt) ->
    day_loop fuel end_dt cur total = Some result ->
    0 <= result <= Z.max 0 (instant end_dt - instant start_dt).
Proof.
  induction fuel as [|fuel IH]; intros start_dt end_dt cur total result Hcur Htot;
    simpl; destruct (date cur <=? date end_dt).
  - discriminate.
  - intros [= <-]. lia.
  - rewrite day_loop_body_eq.
    pose proof (cursor_overlap_bounds end_dt cur) as [Hlo Hhi].
    pose proof (next_day_start_later cur) as [Hlater _].
    apply IH; lia.
  - intros [= <-]. lia.
Qed.

Lemma add_working_time_segment_range (start_dt end_dt : datetime) :
  0 <= add_working_time_segment start_dt end_dt
    <= Z.max 0 (instant end_dt - instant start_dt).
Proof.
  unfold add_working_time_segment, dt_leb.
  destruct (Z.leb_spec (instant end_dt) (instant start_dt)); [lia|].
  destruct (day_loop _ end_dt start_dt 0) as [result|] eqn:E; [|lia].
  eapply day_loop_bounds in E; [exact E|lia|lia].
Qed.

(** ** The overlap as a sum over calendar days *)

Lemma datetime_decompose (dt : datetime) :
  dt = mkDatetime (days (date dt) + time_of_day dt) (utcoffset dt).
Proof.
  destruct (naive_decompose dt) as [H _]. destruct dt as [n o].
  simpl in *. rewrite <- H. reflexivity.
Qed.

Lemma day_loop_window_sum (n : nat) :
  forall (end_dt : datetime) (day x off : Z) (total : timedelta),
    0 <= x < US_PER_DAY ->
    n = Z.to_nat (date end_dt - day + 1) ->
    day_loop n end_dt (mkDatetime (days day + x) off) total
    = Some (total + window_sum n end_dt day x off).
Proof.
  induction n as [|n IH]; intros end_dt day x off total Hx Hn.
  - rewrite day_loop_done; [simpl; f_equal; lia|].
    rewrite date_of_day_offset by exact Hx. lia.
  - rewrite day_loop_step by (try exact Hx; lia).
    rewrite IH by (try apply work_start_in_day; lia).
    simpl. f_equal. lia.
Qed.

Lemma add_working_time_segment_window_sum (start_dt end_dt : datetime) :
  add_working_time_segment start_dt end_dt
  = if dt_leb end_dt start_dt then 0
    else window_sum (days_spanned start_dt end_dt) end_dt (date start_dt)
           (time_of_day start_dt) (utcoffset start_dt).
Proof.
  unfold add_working_time_segment.
  destruct (dt_leb end_dt start_dt); [reflexivity|].
  rewrite (datetime_decompose start_dt) at 2.
  rewrite day_loop_window_sum; [reflexivity| |reflexivity].
  apply naive_decompose.
Qed.

Lemma day_overlap_bounds (end_dt : datetime) (day x off : Z) :
  0 <= day_overlap end_dt day x off
    <= hours (WORK_END_HOUR - WORK_START_HOUR).
Proof.
  unfold day_overlap, WORK_END_HOUR, WORK_START_HOUR.
  destruct ((weekday_of_day day =? 5) || (weekday_of_day day =? 6));
    unfold_units; lia.
Qed.

Lemma window_sum_bounds (n : nat) :
  forall (end_dt : datetime) (day x off : Z),
    0 <= window_sum n end_dt day x off
      <= Z.of_nat n * hours (WORK_END_HOUR - WORK_START_HOUR).
Proof.
  induction n as [|n IH]; intros end_dt day x off; cbn [window_sum]; [lia|].
  pose proof (day_overlap_bounds end_dt day x off).
  specialize (IH end_dt (day + 1) (hours WORK_START_HOUR) off).
  rewrite Nat2Z.inj_succ. lia.
Qed.

Lemma add_working_time_segment_per_day (start_dt end_dt : datetime) :
  add_working_time_segment start_dt end_dt
  <= Z.of_nat (days_spanned start_dt end_dt) * hours 9.
Proof.
  rewrite add_working_time_segment_window_sum.
  destruct (dt_leb end_dt start_dt); [unfold_units; lia|].
  apply window_sum_bounds.
Qed.

(** X1. The working time between two instants is never negative, never
    more than the time elapsed between them, and never more than nine hours
    for each calendar day from the start's date to the end's date. *)
Theorem add_working_time_segment_bounds (start_dt end_dt : datetime) :
  0 <= add_working_time_segment start_dt end_dt
    <= Z.max 0 (instant end_dt - instant start_dt)
  /\ add_working_time_segment start_dt end_dt
     <= Z.of_nat (days_spanned start_dt end_dt) * hours 9.
Proof.
  split.
  - apply add_working_time_segment_range.
  - apply add_working_time_segment_per_day.
Qed.

(** X2. For an end after the start, the overlap function returns the sum
    over the calendar days from the start's date to the end's date of the
    day's overlap with the window 08:00-17:00 in the start's zone, counted
    from the start's time on the first day and from 08:00 on the others; a
    day adds between 0 and 9 hours, and nothing on Saturday and Sunday. *)
Theorem add_working_time_segment_sum (start_dt end_dt : datetime) :
  add_working_time_segment start_dt end_dt
  = (if dt_leb end_dt start_dt then 0
     else window_sum (days_spanned start_dt end_dt) end_dt (date start_dt)
            (time_of_day start_dt) (utcoffset start_dt))
  /\ (forall day x off,
        0 <= day_overlap end_dt day x off <= hours 9
        /\ (weekday_of_day day = 5 \/ weekday_of_day day = 6 ->
            day_overlap end_dt day x off = 0)).
Proof.
  split; [apply add_working_time_segment_window_sum|].
  intros day x off. split; [apply day_overlap_bounds|].
  intros Hwe. unfold day_overlap. destruct Hwe as [-> | ->]; reflexivity.
Qed.

Lemma window_sum_weekend (n : nat) :
  forall (end_dt : datetime) (day x off : Z),
    (forall d, day <= d < day + Z.of_nat n ->
               weekday_of_day d = 5 \/ weekday_of_day d = 6) ->
    window_sum n end_dt day x off = 0.
Proof.
  induction n as [|n IH]; intros end_dt day x off Hwe; [reflexivity|].
  cbn [window_sum]. rewrite IH by (intros d Hd; apply Hwe; lia).
  unfold day_overlap.
  destruct (Hwe day ltac:(lia)) as [-> | ->]; reflexivity.
Qed.

(** X3. A span whose calendar days, from the start's date to the end's
    date, are all Saturdays and Sundays holds no working time. *)
Theorem add_working_time_segment_weekend (start_dt end_dt : datetime) :
  (forall d, date start_dt <= d <= date end_dt ->
             weekday_of_day d = 5 \/ weekday_of_day d = 6) ->
  add_working_time_segment start_dt end_dt = 0.
Proof.
  intros Hwe. rewrite add_working_time_segment_window_sum.
  destruct (dt_leb end_dt start_dt); [reflexivity|].
  apply window_sum_weekend. intros d Hd. apply Hwe.
  unfold days_spanned in Hd. lia.
Qed.

Lemma day_overlap_past_end (end_dt : datetime) (day x off : Z) :
  instant end_dt <= days day + x - off ->
  day_overlap end_dt day x off = 0.
Proof.
  intros H. unfold day_overlap.
  destruct ((weekday_of_day day =? 5) || (weekday_of_day day =? 6)); lia.
Qed.

Lemma window_sum_past_end (n : nat) :
  forall (end_dt : datetime) (day x off : Z),
    0 <= x < US_PER_DAY ->
    instant end_dt <= days day + x - off ->
    window_sum n end_dt day x off = 0.
Proof.
  induction n as [|n IH]; intros end_dt day x off Hx Hpast; [reflexivity|].
  cbn [window_sum]. rewrite day_overlap_past_end by exact Hpast.
  rewrite IH; [reflexivity|apply work_start_in_day|].
  unfold WORK_START_HOUR in *. unfold_units. lia.
Qed.

(** X4. A span that starts on a working day at or after 08:00 and ends by
    17:00 of that day (in the start's zone) counts in full. *)
Theorem add_working_time_segment_inside_window (start_dt end_dt : datetime) :
  is_working_day start_dt = true ->
  hours WORK_START_HOUR <= time_of_day start_dt ->
  instant start_dt < instant end_dt ->
  instant end_dt
  <= days (date start_dt) + hours WORK_END_HOUR - utcoffset start_dt ->
  date start_dt <= date end_dt ->
  add_working_time_segment start_dt end_dt = instant end_dt - instant start_dt.
Proof.
  intros Hwork Hfrom Hlt Hto Hdate.
  rewrite add_working_time_segment_window_sum. unfold dt_leb.
  destruct (Z.leb_spec (instant end_dt) (instant start_dt)); [lia|].
  unfold days_spanned.
  replace (Z.to_nat (date end_dt - date start_dt + 1))
    with (S (Z.to_nat (date end_dt - date start_dt))) by lia.
  cbn [window_sum].
  rewrite window_sum_past_end;
    [|apply work_start_in_day
     |unfold WORK_START_HOUR, WORK_END_HOUR in *; unfold_units; lia].
  apply is_working_day_weekday in Hwork. unfold weekday in Hwork.
  unfold day_overlap.
  destruct (Z.eqb_spec (weekday_of_day (date start_dt)) 5); [lia|].
  destruct (Z.eqb_spec (weekday_of_day (date start_dt)) 6); [lia|].
  cbn [orb]. destruct (naive_decompose start_dt) as [Hn Ht].
  unfold instant in *. rewrite Hn in *. lia.
Qed.

Lemma day_overlap_full_day (end_dt : datetime) (day x off : Z) :
  0 <= x <= hours WORK_START_HOUR ->
  days day + hours WORK_END_HOUR - off <= instant end_dt ->
  day_overlap end_dt day x off
  = if (weekday_of_day day =? 5) || (weekday_of_day day =? 6) then 0
    else hours 9.
Proof.
  intros Hx Hend. unfold day_overlap.
  destruct ((weekday_of_day day =? 5) || (weekday_of_day day =? 6));
    [reflexivity|].
  unfold WORK_START_HOUR, WORK_END_HOUR in *. unfold_units. lia.
Qed.

Lemma window_sum_full_days (n : nat) :
  forall (end_dt : datetime) (day x off : Z),
    0 <= x <= hours WORK_START_HOUR ->
    days (day + Z.of_nat n - 1) + hours WORK_END_HOUR - off <= instant end_dt ->
    window_sum n end_dt day x off = hours 9 * working_days_count day n.
Proof.
  induction n as [|n IH]; intros end_dt day x off Hx Hend; [reflexivity|].
  cbn [window_sum working_days_count].
  rewrite day_overlap_full_day;
    [|exact Hx|unfold WORK_END_HOUR in *; unfold_units; lia].
  rewrite IH;
    [|unfold WORK_START_HOUR; unfold_units; lia
     |unfold WORK_END_HOUR in *; unfold_units; lia].
  destruct ((weekday_of_day day =? 5) || (weekday_of_day day =? 6));
    unfold_units; lia.
Qed.

Lemma date_period_start_of (day : Z) : date (period_start_of day) = day.
Proof.
  rewrite period_start_of_eq. replace (days day) with (days day + 0) by lia.
  apply date_of_day_offset. rewrite US_PER_DAY_value. lia.
Qed.

Lemma date_period_end_of (day : Z) : date (period_end_of day) = day.
Proof.
  rewrite period_end_of_eq. apply date_of_day_offset. unfold_units. lia.
Qed.

Lemma working_days_count_week (day : Z) : working_days_count day 7 = 5.
Proof.
  pose proof (weekday_of_day_range day) as Hr.
  assert (Hs : forall d, weekday_of_day (d + 1) = (weekday_of_day d + 1) mod 7)
    by (intros d; apply weekday_of_day_succ; reflexivity).
  cbn [working_days_count].
  rewrite !Hs.
  assert (Hcases : weekday_of_day day = 0 \/ weekday_of_day day = 1
                   \/ weekday_of_day day = 2 \/ weekday_of_day day = 3
                   \/ weekday_of_day day = 4 \/ weekday_of_day day = 5
                   \/ weekday_of_day day = 6) by lia.
  destruct Hcases as [-> | [-> | [-> | [-> | [-> | [-> | ->]]]]]]; reflexivity.
Qed.

(** X5. The whole window of a period of [n + 1] days holds nine hours for
    each of its working days; every period of seven days holds 45 hours. *)
Theorem whole_period_working_time (start_day : Z) (n : nat) :
  add_working_time_segment (period_start_of start_day)
    (period_end_of (start_day + Z.of_nat n))
  = hours 9 * working_days_count start_day (S n)
  /\ add_working_time_segment (period_start_of start_day)
       (period_end_of (start_day + 6)) = hours 45.
Proof.
  assert (Hgen : forall m : nat,
    add_working_time_segment (period_start_of start_day)
      (period_end_of (start_day + Z.of_nat m))
    = hours 9 * working_days_count start_day (S m)).
  { intros m.
    rewrite add_working_time_segment_window_sum. unfold dt_leb, days_spanned.
    rewrite date_period_start_of, date_period_end_of.
    assert (Hlt : instant (period_start_of start_day)
                  < instant (period_end_of (start_day + Z.of_nat m))).
    { rewrite period_start_of_eq, period_end_of_eq. unfold instant; simpl.
      unfold_units. lia. }
    destruct (Z.leb_spec (instant (period_end_of (start_day + Z.of_nat m)))
                (instant (period_start_of start_day))); [lia|].
    replace (Z.to_nat (start_day + Z.of_nat m - start_day + 1)) with (S m)
      by lia.
    apply window_sum_full_days.
    - rewrite period_start_of_eq. unfold time_of_day; simpl.
      unfold days. rewrite Z.mod_mul by (rewrite US_PER_DAY_value; lia).
      unfold WORK_START_HOUR; unfold_units; lia.
    - rewrite period_end_of_eq, period_start_of_eq. unfold instant; simpl.
      unfold WORK_END_HOUR. unfold_units. lia. }
  split; [apply Hgen|].
  pose proof (Hgen 6%nat) as H. change (Z.of_nat 6) with 6 in H.
  rewrite H, working_days_count_week. reflexivity.
Qed.

(** ** [clamp_to_workday_window] *)

(** X6. Clamping keeps the date and the zone, puts the time of day at the
    nearest point of 08:00-17:00, and clamping again changes nothing. *)
Theorem clamp_to_workday_window_spec (dt : datetime) :
  let clamped := clamp_to_workday_window dt in
  date clamped = date dt
  /\ utcoffset clamped = utcoffset dt
  /\ hours WORK_START_HOUR <= time_of_day clamped <= hours WORK_END_HOUR
  /\ time_of_day clamped
     = Z.max (hours WORK_START_HOUR)
         (Z.min (hours WORK_END_HOUR) (time_of_day dt))
  /\ clamp_to_workday_window clamped = clamped.
Proof.
  assert (Hspec : forall d : datetime,
    date (clamp_to_workday_window d) = date d
    /\ utcoffset (clamp_to_workday_window d) = utcoffset d
    /\ time_of_day (clamp_to_workday_window d)
       = Z.max (hours WORK_START_HOUR)
           (Z.min (hours WORK_END_HOUR) (time_of_day d))).
  { intros d. unfold clamp_to_workday_window. rewrite !replace_time_eq.
    destruct (naive_decompose d) as [Hn Ht].
    assert (H8 : 0 <= hours WORK_START_HOUR < US_PER_DAY)
      by apply work_start_in_day.
    assert (H17 : 0 <= hours WORK_END_HOUR < US_PER_DAY)
      by (unfold WORK_END_HOUR; unfold_units; lia).
    unfold dt_ltb, instant; cbn [naive utcoffset].
    destruct (Z.ltb_spec (naive d - utcoffset d)
                (days (date d) + hours WORK_START_HOUR - utcoffset d)).
    - rewrite date_of_day_offset, time_of_day_offset by exact H8.
      cbn [utcoffset]. unfold WORK_START_HOUR, WORK_END_HOUR in *. unfold_units. lia.
    - destruct (Z.ltb_spec
                  (days (date d) + hours WORK_END_HOUR - utcoffset d)
                  (naive d - utcoffset d)).
      + rewrite date_of_day_offset, time_of_day_offset by exact H17.
        cbn [utcoffset]. unfold WORK_START_HOUR, WORK_END_HOUR in *. unfold_units. lia.
      + unfold WORK_START_HOUR, WORK_END_HOUR in *. unfold_units. lia. }
  intros clamped. subst clamped.
  destruct (Hspec dt) as (Hd & Ho & Ht).
  split; [exact Hd|]. split; [exact Ho|]. split; [|split; [exact Ht|]].
  - rewrite Ht. unfold WORK_START_HOUR, WORK_END_HOUR. unfold_units. lia.
  - destruct (Hspec (clamp_to_workday_window dt)) as (Hd' & Ho' & Ht').
    rewrite (datetime_decompose (clamp_to_workday_window (clamp_to_workday_window dt))).
    rewrite (datetime_decompose (clamp_to_workday_window dt)) at 4.
    rewrite Hd', Ho', Ht', Ht.
    f_equal. unfold WORK_START_HOUR, WORK_END_HOUR. unfold_units. lia.
Qed.

(** ** Splitting a span *)

Lemma day_overlap_split (b c : datetime) (d x off : Z) :
  date b = d -> utcoffset b = off ->
  instant b <= instant c ->
  days d + x - off <= instant b \/ x = hours WORK_START_HOUR ->
  day_overlap c d x off
  = day_overlap b d x off + day_overlap c d (time_of_day b) off.
Proof.
  intros Hd Ho Hbc Hx. unfold day_overlap.
  destruct ((weekday_of_day d =? 5) || (weekday_of_day d =? 6)); [reflexivity|].
  destruct (naive_decompose b) as [Hn Ht].
  assert (Hb : instant b = days d + time_of_day b - off)
    by (unfold instant; rewrite Hn, Hd, Ho; reflexivity).
  rewrite Hb in *. unfold WORK_START_HOUR, WORK_END_HOUR in *.
  unfold_units. lia.
Qed.

Lemma day_overlap_later_end (b c : datetime) (d x off : Z) :
  d < date b -> utcoffset b = off -> instant b <= instant c ->
  day_overlap c d x off = day_overlap b d x off.
Proof.
  intros Hd Ho Hbc. unfold day_overlap.
  destruct ((weekday_of_day d =? 5) || (weekday_of_day d =? 6)); [reflexivity|].
  destruct (naive_decompose b) as [Hn Ht].
  assert (Hb : instant b = days (date b) + time_of_day b - off)
    by (unfold instant; rewrite Hn, Ho; reflexivity).
  assert (Hday : days (d + 1) <= days (date b)) by (unfold_units; lia).
  rewrite Hb in *. unfold WORK_START_HOUR, WORK_END_HOUR in *.
  unfold_units. lia.
Qed.

Lemma window_sum_split (m : nat) :
  forall (b c : datetime) (d x off : Z) (k : nat),
    date b = d + Z.of_nat m -> utcoffset b = off ->
    instant b <= instant c ->
    days d + x - off <= instant b \/ x = hours WORK_START_HOUR ->
    window_sum (S m + k) c d x off
    = window_sum (S m) b d x off
      + window_sum (S k) c (d + Z.of_nat m) (time_of_day b) off.
Proof.
  induction m as [|m IH]; intros b c d x off k Hd Ho Hbc Hx.
  - replace (d + Z.of_nat 0) with d in * by lia.
    cbn [window_sum Nat.add].
    rewrite (day_overlap_split b c d x off Hd Ho Hbc Hx). lia.
  - change (S (S m) + k)%nat with (S (S m + k)).
    cbn [window_sum].
    rewrite (day_overlap_later_end b c d x off) by (try assumption; lia).
    rewrite (IH b c (d + 1) (hours WORK_START_HOUR) off k)
      by (try assumption; try (right; reflexivity); lia).
    cbn [window_sum].
    replace (d + 1 + Z.of_nat m) with (d + Z.of_nat (S m)) by lia.
    lia.
Qed.

Lemma same_zone_date_le (a b : datetime) :
  utcoffset a = utcoffset b -> instant a <= instant b -> date a <= date b.
Proof.
  intros Ho Hab. unfold instant in Hab. unfold date.
  apply Z.div_le_mono; [rewrite US_PER_DAY_value; lia|lia].
Qed.

Lemma same_zone_same_instant (a b : datetime) :
  utcoffset a = utcoffset b -> instant a = instant b -> a = b.
Proof.
  destruct a, b; unfold instant; simpl. intros -> H. f_equal. lia.
Qed.

Lemma add_working_time_segment_split (a b c : datetime) :
  utcoffset b = utcoffset a -> utcoffset c = utcoffset a ->
  instant a <= instant b <= instant c ->
  add_working_time_segment a c
  = add_working_time_segment a b + add_working_time_segment b c.
Proof.
  intros Hob Hoc [Hab Hbc].
  destruct (Z.eq_dec (instant a) (instant b)) as [Eab|Nab].
  { rewrite (same_zone_same_instant a b) by congruence.
    rewrite (add_working_time_segment_inverted b b) by lia. lia. }
  destruct (Z.eq_dec (instant b) (instant c)) as [Ebc|Nbc].
  { rewrite (same_zone_same_instant b c) by congruence.
    rewrite (add_working_time_segment_inverted c c) by lia. lia. }
  rewrite !add_working_time_segment_window_sum. unfold dt_leb.
  destruct (Z.leb_spec (instant c) (instant a)); [lia|].
  destruct (Z.leb_spec (instant b) (instant a)); [lia|].
  destruct (Z.leb_spec (instant c) (instant b)); [lia|].
  pose proof (same_zone_date_le a b ltac:(congruence) Hab) as Hdab.
  pose proof (same_zone_date_le b c ltac:(congruence) Hbc) as Hdbc.
  unfold days_spanned.
  set (m := Z.to_nat (date b - date a)).
  set (k := Z.to_nat (date c - date b)).
  replace (Z.to_nat (date c - date a + 1)) with (S m + k)%nat by lia.
  replace (Z.to_nat (date b - date a + 1)) with (S m) by lia.
  replace (Z.to_nat (date c - date b + 1)) with (S k) by lia.
  rewrite (window_sum_split m b c (date a) (time_of_day a) (utcoffset a) k).
  - replace (date a + Z.of_nat m) with (date b) by lia.
    rewrite Hob. reflexivity.
  - lia.
  - exact Hob.
  - exact Hbc.
  - left. destruct (naive_decompose a) as [Hn _]. unfold instant in *.
    rewrite Hn in Hab. lia.
Qed.

(** X7. For three instants in one zone, in order, the working time of the
    whole span is the sum of the working times of its two parts; so it grows
    with the span. *)
Theorem add_working_time_segment_additive (a b c : datetime) :
  utcoffset b = utcoffset a -> utcoffset c = utcoffset a ->
  instant a <= instant b <= instant c ->
  add_working_time_segment a c
  = add_working_time_segment a b + add_working_time_segment b c
  /\ add_working_time_segment a b <= add_working_time_segment a c
  /\ add_working_time_segment b c <= add_working_time_segment a c.
Proof.
  intros Hob Hoc Horder.
  pose proof (add_working_time_segment_split a b c Hob Hoc Horder) as Hsplit.
  pose proof (add_working_time_segment_range a b).
  pose proof (add_working_time_segment_range b c).
  split; [exact Hsplit|]. lia.
Qed.

(** ** The accumulator: bounds *)

Lemma walk_bounds (ps pe : datetime) (target : string) (events : list event) :
  StronglySorted event_le events ->
  forall st,
    Forall (fun ev => instant (last_ts st) <= event_instant ev
                      \/ event_instant ev <= instant ps) events ->
    instant ps <= instant (last_ts st) ->
    0 <= total_td st
      <= Z.max 0 (Z.min (instant pe) (instant (last_ts st)) - instant ps) ->
    0 <= walk ps pe target events st <= Z.max 0 (instant pe - instant ps).
Proof.
  unfold walk.
  induction 1 as [|[dt status] rest Hs IH Hall]; intros st Hord Hps Htot.
  - simpl. unfold walk_else.
    pose proof (add_working_time_segment_range (last_ts st) pe).
    destruct (dt_ltb (last_ts st) pe && in_target_status st); lia.
  - simpl. unfold dt_leb, dt_ltb.
    apply Forall_cons_iff in Hord. destruct Hord as [Hdt Hord].
    unfold event_instant in Hdt; simpl in Hdt.
    destruct (Z.leb_spec (instant dt) (instant ps)) as [Hle|Hgt].
    + apply IH; assumption.
    + destruct (Z.ltb_spec (instant pe) (instant dt)) as [Hafter|Hin].
      * pose proof (add_working_time_segment_range (last_ts st) pe).
        destruct (in_target_status st); simpl; lia.
      * pose proof (add_working_time_segment_range (last_ts st) dt).
        apply IH; simpl.
        -- rewrite Forall_forall in *. intros ev Hev. left.
           specialize (Hall ev Hev). unfold event_le, event_instant in *.
           simpl in *. lia.
        -- lia.
        -- destruct (in_target_status st); lia.
Qed.

(** X8. The time in the target status is never negative and never more
    than the time elapsed between the period start and the period end. *)
Theorem in_progress_time_bounds (history : list history_entry)
    (start_day end_day : Z) (status_name : string) :
  0 <= in_progress_timedelta history start_day end_day status_name
    <= Z.max 0 (instant (period_end_of end_day)
                - instant (period_start_of start_day))
  /\ (0 <= calculate_in_progress_time_for_period history start_day end_day
             status_name)%Q.
Proof.
  assert (Hb : 0 <= in_progress_timedelta history start_day end_day status_name
                 <= Z.max 0 (instant (period_end_of end_day)
                             - instant (period_start_of start_day))).
  { unfold in_progress_timedelta.
    destruct (build_events history) as [|ev evs]; [lia|].
    apply walk_bounds.
    - apply sort_events_sorted.
    - apply Forall_forall. intros e _. simpl.
      destruct (Z.le_gt_cases (instant (period_start_of start_day))
                  (event_instant e)); [left|right]; lia.
    - simpl; lia.
    - simpl; lia. }
  split; [exact Hb|].
  unfold calculate_in_progress_time_for_period, timedelta_minutes.
  rewrite Qred_correct. unfold Qle; simpl. lia.
Qed.

(** ** The accumulator: a status that never occurs *)




(** ** Building the events *)

Lemma lower_empty (s : string) : lower s = EmptyString <-> s = EmptyString.
Proof. destruct s; simpl; split; intros H; try reflexivity; discriminate. Qed.

Lemma lower_ascii_idempotent (c : ascii) :
  lower_ascii (lower_ascii c) = lower_ascii c.
Proof.
  unfold lower_ascii.
  destruct ((65 <=? nat_of_ascii c)%nat && (nat_of_ascii c <=? 90)%nat) eqn:E.
  - apply andb_true_iff in E. destruct E as [E1 E2].
    apply Nat.leb_le in E1, E2.
    rewrite nat_ascii_embedding by lia.
    destruct ((65 <=? nat_of_ascii c + 32)%nat
              && (nat_of_ascii c + 32 <=? 90)%nat) eqn:E'; [|reflexivity].
    apply andb_true_iff in E'. destruct E' as [_ E'].
    apply Nat.leb_le in E'. lia.
  - rewrite E. reflexivity.
Qed.

Lemma lower_idempotent (s : string) : lower (lower s) = lower s.
Proof.
  induction s as [|c s IH]; [reflexivity|].
  simpl. rewrite lower_ascii_idempotent, IH. reflexivity.
Qed.

Lemma build_events_app (h1 h2 : list history_entry) :
  build_events (h1 ++ h2) = build_events h1 ++ build_events h2.
Proof.
  induction h1 as [|e h1 IH]; [reflexivity|].
  simpl. destruct (event_of_entry e); rewrite IH; reflexivity.
Qed.

Lemma event_of_entry_None (e : history_entry) :
  event_of_entry e = None <->
  (forall utc, h_date e <> IsoDate utc)
  \/ h_statusName e = None \/ h_statusName e = Some EmptyString.
Proof.
  unfold event_of_entry. destruct e as [d [s|]]; cbn [h_date h_statusName].
  - destruct d as [| |utc].
    + split; [left; intros utc; discriminate|reflexivity].
    + split; [left; intros utc; discriminate|reflexivity].
    + destruct (String.eqb_spec (lower s) EmptyString) as [E|E].
      * apply (proj1 (lower_empty s)) in E. subst s.
        split; [right; right; reflexivity|reflexivity].
      * split; [discriminate|].
        intros [H|[H|H]].
        -- exfalso. apply (H utc). reflexivity.
        -- discriminate.
        -- injection H as ->. exfalso. apply E. reflexivity.
  - split; [right; left; reflexivity|].
    intros _. destruct d; reflexivity.
Qed.

(** X10. An entry without a parsable date, or without a non-empty status
    name, is ignored wherever it stands in the history. *)
Theorem malformed_entries_are_ignored (h1 h2 : list history_entry)
    (bad : history_entry) (start_day end_day : Z) (status_name : string) :
  (forall utc, h_date bad <> IsoDate utc)
  \/ h_statusName bad = None \/ h_statusName bad = Some EmptyString ->
  calculate_in_progress_time_for_period (h1 ++ bad :: h2) start_day end_day
    status_name
  = calculate_in_progress_time_for_period (h1 ++ h2) start_day end_day
      status_name.
Proof.
  intros Hbad. apply event_of_entry_None in Hbad.
  unfold calculate_in_progress_time_for_period, in_progress_timedelta.
  rewrite !build_events_app. simpl. rewrite Hbad. reflexivity.
Qed.

(** Statuses of built events are in lower case and not empty. *)
Lemma build_events_status (history : list history_entry) (ev : event) :
  In ev (build_events history) ->
  lower (snd ev) = snd ev /\ snd ev <> EmptyString.
Proof.
  induction history as [|e rest IH]; [intros []|].
  simpl. destruct (event_of_entry e) as [ev'|] eqn:E; [|exact IH].
  intros [<-|Hin]; [|apply IH, Hin].
  unfold event_of_entry in E.
  destruct (h_date e); try discriminate.
  destruct (String.eqb_spec
              (lower match h_statusName e with Some s => s | None => EmptyString end)
              EmptyString) as [Hs|Hs]; [discriminate|].
  injection E as <-. simpl. split; [apply lower_idempotent|exact Hs].
Qed.



(** ** The order of the history *)

Lemma build_events_perm (h h' : list history_entry) :
  Permutation h h' -> Permutation (build_events h) (build_events h').
Proof.
  induction 1 as [|e h h' _ IH|e1 e2 h|h1 h2 h3 _ IH1 _ IH2].
  - apply perm_nil.
  - simpl. destruct (event_of_entry e); [apply perm_skip|]; exact IH.
  - simpl. destruct (event_of_entry e1), (event_of_entry e2);
      try apply Permutation_refl. apply perm_swap.
  - eapply perm_trans; eassumption.
Qed.

(** Two sorted lists with the same elements and pairwise distinct keys are
    the same list. *)
Lemma sorted_perm_unique (l : list event) :
  forall l',
    StronglySorted event_le l -> StronglySorted event_le l' ->
    Permutation l l' -> NoDup (map event_instant l) -> l = l'.
Proof.
  induction l as [|x xs IH]; intros l' Hs Hs' Hperm Hnd.
  - apply Permutation_nil in Hperm. subst; reflexivity.
  - destruct l' as [|y ys].
    { apply Permutation_sym, Permutation_nil in Hperm. discriminate. }
    inversion Hs as [|? ? Hsx Hallx]; subst.
    inversion Hs' as [|? ? Hsy Hally]; subst.
    inversion Hnd as [|? ? Hnotin Hndx]; subst.
    rewrite Forall_forall in Hallx, Hally.
    assert (Hxy : x = y).
    { assert (Hx : In x (y :: ys))
        by (apply (Permutation_in _ Hperm); left; reflexivity).
      assert (Hy : In y (x :: xs))
        by (apply (Permutation_in _ (Permutation_sym Hperm)); left; reflexivity).
      destruct Hx as [->|Hx]; [reflexivity|].
      destruct Hy as [->|Hy]; [reflexivity|].
      exfalso. apply Hnotin.
      specialize (Hally x Hx). specialize (Hallx y Hy).
      unfold event_le in *.
      replace (event_instant x) with (event_instant y) by lia.
      apply in_map, Hy. }
    subst y. f_equal. apply IH; try assumption.
    apply Permutation_cons_inv with (a := x). exact Hperm.
Qed.

Lemma sort_events_perm (events : list event) :
  Permutation events (sort_events events).
Proof. apply (stable_sort_perm event_ltb). Qed.

(** X12. When no two events of the history share a timestamp, the order
    of the history entries does not matter. *)
Theorem history_order_is_irrelevant (h h' : list history_entry)
    (start_day end_day : Z) (status_name : string) :
  Permutation h h' ->
  NoDup (map event_instant (build_events h)) ->
  calculate_in_progress_time_for_period h start_day end_day status_name
  = calculate_in_progress_time_for_period h' start_day end_day status_name.
Proof.
  intros Hperm Hnd.
  pose proof (build_events_perm h h' Hperm) as Hev.
  assert (Hsort : sort_events (build_events h) = sort_events (build_events h')).
  { apply sorted_perm_unique; try apply sort_events_sorted.
    - eapply perm_trans; [apply Permutation_sym, sort_events_perm|].
      eapply perm_trans; [exact Hev|apply sort_events_perm].
    - eapply Permutation_NoDup; [|exact Hnd].
      apply Permutation_map, sort_events_perm. }
  unfold calculate_in_progress_time_for_period, in_progress_timedelta.
  destruct (build_events h) as [|ev evs] eqn:E;
    destruct (build_events h') as [|ev' evs'] eqn:E'.
  - reflexivity.
  - apply Permutation_nil in Hev. discriminate.
  - apply Permutation_sym, Permutation_nil in Hev. discriminate.
  - rewrite Hsort. reflexivity.
Qed.

(** ** Events after the period end *)

Lemma event_ltb_lt (x y : event) :
  event_ltb x y = true <-> event_instant x < event_instant y.
Proof. unfold event_ltb, dt_ltb, event_instant. apply Z.ltb_lt. Qed.

Section FilterSorted.

Variable keep : event -> bool.

Lemma insert_stable_all_ge (x : event) (l : list event) :
  Forall (fun y => event_instant x <= event_instant y) l ->
  insert_stable event_ltb x l = x :: l.
Proof.
  intros Hall. destruct l as [|y l]; [reflexivity|].
  simpl. apply Forall_inv in Hall.
  destruct (event_ltb y x) eqn:E; [|reflexivity].
  apply event_ltb_lt in E. lia.
Qed.

Lemma filter_insert_stable (x : event) (l : list event) :
  StronglySorted event_le l ->
  filter keep (insert_stable event_ltb x l)
  = if keep x then insert_stable event_ltb x (filter keep l)
    else filter keep l.
Proof.
  induction 1 as [|y l Hs IH Hall].
  - simpl. destruct (keep x); reflexivity.
  - cbn [insert_stable]. destruct (event_ltb y x) eqn:E.
    + cbn [filter]. rewrite IH.
      destruct (keep x), (keep y); try reflexivity.
      cbn [insert_stable]. rewrite E. reflexivity.
    + cbn [filter]. destruct (keep x) eqn:Kx; [|reflexivity].
      symmetry. apply insert_stable_all_ge.
      assert (Hxy : event_instant x <= event_instant y).
      { destruct (Z.le_gt_cases (event_instant x) (event_instant y)) as [H|H];
          [exact H|].
        apply event_ltb_lt in H. congruence. }
      apply Forall_forall. intros z Hz.
      assert (Hz' : In z (y :: l)).
      { destruct (keep y); [|right; apply filter_In in Hz; tauto].
        destruct Hz as [<-|Hz]; [left; reflexivity|].
        right; apply filter_In in Hz; tauto. }
      destruct Hz' as [<-|Hz']; [exact Hxy|].
      rewrite Forall_forall in Hall. specialize (Hall z Hz').
      unfold event_le in Hall. lia.
Qed.

Lemma sort_events_filter (l : list event) :
  sort_events (filter keep l) = filter keep (sort_events l).
Proof.
  induction l as [|x l IH]; [reflexivity|].
  unfold sort_events in *. simpl stable_sort.
  rewrite filter_insert_stable by apply (stable_sort_sorted event_instant).
  simpl filter. destruct (keep x); [simpl stable_sort|]; rewrite IH; reflexivity.
Qed.

End FilterSorted.

Lemma build_events_filter_after (pe : datetime) (h : list history_entry) :
  build_events (filter (fun e => negb (entry_after pe e)) h)
  = filter (fun ev => negb (dt_ltb pe (fst ev))) (build_events h).
Proof.
  induction h as [|e h IH]; [reflexivity|].
  simpl. unfold entry_after at 1.
  destruct (event_of_entry e) as [ev|] eqn:E; simpl.
  - destruct (dt_ltb pe (fst ev)); simpl; [exact IH|].
    rewrite E, IH. reflexivity.
  - rewrite E. exact IH.
Qed.

(** In a sorted list the events up to [pe] come first. *)
Lemma sorted_split_after (pe : datetime) (l : list event) :
  StronglySorted event_le l ->
  l = filter (fun ev => negb (dt_ltb pe (fst ev))) l
      ++ filter (fun ev => dt_ltb pe (fst ev)) l.
Proof.
  induction 1 as [|x l Hs IH Hall]; [reflexivity|].
  simpl. destruct (dt_ltb pe (fst x)) eqn:E; simpl.
  - rewrite filter_none.
    + simpl. f_equal. symmetry.
      assert (Hid : forall l' : list event,
                 (forall z, In z l' -> dt_ltb pe (fst z) = true)
                               -> filter (fun ev => dt_ltb pe (fst ev)) l' = l').
      { induction l' as [|z l' IH']; intros Hz; [reflexivity|].
        simpl. rewrite (Hz z (or_introl eq_refl)).
        apply (f_equal (cons z)).
        apply IH'. intros w Hw. apply Hz. right; exact Hw. }
      idtac.
      apply Hid. intros z Hz. rewrite Forall_forall in Hall.
      specialize (Hall z Hz). unfold event_le, event_instant, dt_ltb in *.
      apply Z.ltb_lt in E. apply Z.ltb_lt. lia.
    + intros z Hz. rewrite Forall_forall in Hall. specialize (Hall z Hz).
      unfold event_le, event_instant, dt_ltb in *.
      apply Z.ltb_lt in E. apply negb_false_iff, Z.ltb_lt. lia.
  - f_equal. exact IH.
Qed.

Lemma initial_state_app_after (ps : datetime) (target : string)
    (before after : list event) :
  Forall (fun ev => instant ps < event_instant ev) after ->
  forall b, initial_state (before ++ after) ps target b
            = initial_state before ps target b.
Proof.
  intros Hafter. induction before as [|[dt status] rest IH]; intros b.
  - simpl. apply initial_state_after, Hafter.
  - simpl. destruct (dt_leb dt ps); [apply IH|reflexivity].
Qed.

Lemma walk_app_after (ps pe : datetime) (target : string)
    (before after : list event) :
  Forall (fun ev => instant ps < event_instant ev
                    /\ instant pe < event_instant ev) after ->
  forall st, walk ps pe target (before ++ after) st
             = walk ps pe target before st.
Proof.
  intros Hafter st. unfold walk. rewrite walk_events_app.
  destruct (walk_events ps pe target before st) as [st'|st']; [|reflexivity].
  destruct Hafter as [|[dt status] rest [H1 H2] _]; [reflexivity|].
  unfold event_instant in H1, H2; simpl in H1, H2.
  simpl. unfold dt_leb, dt_ltb.
  destruct (Z.leb_spec (instant dt) (instant ps)); [lia|].
  destruct (Z.ltb_spec (instant pe) (instant dt)); [|lia].
  unfold walk_else, dt_ltb.
  destruct (in_target_status st'); [|rewrite andb_false_r; reflexivity].
  destruct (Z.ltb_spec (instant (last_ts st')) (instant pe)); simpl;
    [reflexivity|].
  rewrite add_working_time_segment_inverted by lia. lia.
Qed.

Lemma period_bounds_ordered (start_day end_day : Z) :
  start_day <= end_day ->
  instant (period_start_of start_day) < instant (period_end_of end_day).
Proof.
  intros H. rewrite period_start_of_eq, period_end_of_eq.
  unfold instant; simpl. unfold_units. lia.
Qed.

Lemma in_progress_timedelta_events (history : list history_entry)
    (start_day end_day : Z) (status_name : string) :
  in_progress_timedelta history start_day end_day status_name
  = events_timedelta (build_events history) (period_start_of start_day)
      (period_end_of end_day) (lower status_name).
Proof.
  unfold in_progress_timedelta, events_timedelta.
  destruct (build_events history); reflexivity.
Qed.

Lemma events_timedelta_without_later (events : list event)
    (ps pe : datetime) (target : string) :
  instant ps < instant pe ->
  events_timedelta (filter (fun ev => negb (dt_ltb pe (fst ev))) events)
    ps pe target
  = events_timedelta events ps pe target.
Proof.
  intros Hlt.
  pose proof (sorted_split_after pe (sort_events events)
                (sort_events_sorted events)) as Hsplit.
  remember (filter (fun ev => dt_ltb pe (fst ev)) (sort_events events))
    as after eqn:Hafter_def.
  assert (Hafter : Forall (fun ev => instant ps < event_instant ev
                                     /\ instant pe < event_instant ev) after).
  { subst after. apply Forall_forall. intros ev Hev. apply filter_In in Hev.
    destruct Hev as [_ Hev]. unfold dt_ltb in Hev. apply Z.ltb_lt in Hev.
    unfold event_instant. lia. }
  assert (Hafter' : Forall (fun ev => instant ps < event_instant ev) after).
  { eapply Forall_impl; [|exact Hafter]. simpl; tauto. }
  unfold events_timedelta.
  match goal with
  | |- context [filter ?f events] =>
      remember (filter f events) as kept eqn:Hkept
  end.
  assert (Hcomm : sort_events kept
                  = filter (fun ev => negb (dt_ltb pe (fst ev)))
                      (sort_events events))
    by (subst kept; apply sort_events_filter).
  assert (Hfull :
    walk ps pe target (sort_events events)
      (mkWalk (initial_state (sort_events events) ps target false) ps 0)
    = walk ps pe target (sort_events kept)
        (mkWalk (initial_state (sort_events kept) ps target false) ps 0)).
  { rewrite Hcomm. rewrite Hsplit at 1 2.
    rewrite initial_state_app_after by exact Hafter'.
    apply walk_app_after, Hafter. }
  destruct kept as [|ev evs].
  - destruct events as [|ev0 evs0]; [reflexivity|].
    rewrite Hfull. unfold walk; simpl. unfold walk_else; simpl.
    rewrite andb_false_r. reflexivity.
  - destruct events as [|ev0 evs0]; [discriminate|].
    symmetry. exact Hfull.
Qed.

Lemma calculate_without_later_entries (history : list history_entry)
    (start_day end_day : Z) (status_name : string) :
  calculate_in_progress_time_for_period
    (filter (fun e => negb (entry_after (period_end_of end_day) e)) history)
    start_day end_day status_name
  = calculate_in_progress_time_for_period history start_day end_day
      status_name.
Proof.
  unfold calculate_in_progress_time_for_period. f_equal.
  destruct (Z.lt_ge_cases end_day start_day) as [Hinv|Hord].
  - pose proof (period_bounds_inverted _ _ Hinv) as Hlt.
    unfold in_progress_timedelta.
    destruct (build_events (filter _ history));
      destruct (build_events history);
      rewrite ?walk_inverted by lia; reflexivity.
  - rewrite !in_progress_timedelta_events, build_events_filter_after.
    apply events_timedelta_without_later, period_bounds_ordered, Hord.
Qed.

(** X13. Entries later than the period end do not change the result,
    wherever they stand in the history. *)
Theorem later_events_are_irrelevant (h1 later h2 : list history_entry)
    (start_day end_day : Z) (status_name : string) :
  Forall (fun e => entry_after (period_end_of end_day) e = true) later ->
  calculate_in_progress_time_for_period (h1 ++ later ++ h2) start_day end_day
    status_name
  = calculate_in_progress_time_for_period (h1 ++ h2) start_day end_day
      status_name.
Proof.
  intros Hlater.
  rewrite <- (calculate_without_later_entries (h1 ++ later ++ h2)).
  rewrite <- (calculate_without_later_entries (h1 ++ h2)).
  rewrite !filter_app. rewrite (filter_none _ later); [reflexivity|].
  intros e He. rewrite Forall_forall in Hlater. rewrite (Hlater e He).
  reflexivity.
Qed.

(** ** Order on strings *)

Lemma ascii_compare_refl (a : ascii) : Ascii.compare a a = Eq.
Proof. unfold Ascii.compare. apply N.compare_refl. Qed.

Lemma ascii_compare_lt_trans (a b c : ascii) :
  Ascii.compare a b = Lt -> Ascii.compare b c = Lt -> Ascii.compare a c = Lt.
Proof.
  unfold Ascii.compare. rewrite !N.compare_lt_iff. apply N.lt_trans.
Qed.

Lemma string_leb_trans (a : string) :
  forall b c, String.leb a b = true -> String.leb b c = true ->
              String.leb a c = true.
Proof.
  unfold String.leb.
  induction a as [|x a IH]; intros [|y b] [|z c]; simpl; try congruence.
  destruct (Ascii.compare x y) eqn:Hxy; try congruence;
    destruct (Ascii.compare y z) eqn:Hyz; try congruence.
  - apply Ascii.compare_eq_iff in Hxy, Hyz. subst.
    rewrite ascii_compare_refl. apply IH.
  - apply Ascii.compare_eq_iff in Hxy. subst. rewrite Hyz. reflexivity.
  - apply Ascii.compare_eq_iff in Hyz. subst. rewrite Hxy. reflexivity.
  - rewrite (ascii_compare_lt_trans _ _ _ Hxy Hyz). reflexivity.
Qed.

Lemma string_ltb_leb (a b : string) :
  String.ltb a b = true -> String.leb a b = true.
Proof.
  unfold String.ltb, String.leb. destruct (String.compare a b); congruence.
Qed.

Lemma string_ltb_false_leb (a b : string) :
  String.ltb a b = false -> String.leb b a = true.
Proof.
  unfold String.ltb, String.leb. rewrite (String.compare_antisym a b).
  destruct (String.compare b a); simpl; congruence.
Qed.

Lemma string_leb_refl (a : string) : String.leb a a = true.
Proof. destruct (String.leb_total a a); assumption. Qed.

(** ** Sorting the rows of an assignee *)

Lemma task_key_le_trans (x y z : task) :
  task_key_le x y -> task_key_le y z -> task_key_le x z.
Proof. unfold task_key_le. apply string_leb_trans. Qed.

Lemma insert_task_sorted (x : task) (l : list task) :
  StronglySorted task_key_le l ->
  StronglySorted task_key_le
    (insert_stable (fun a b => String.ltb (task_key a) (task_key b)) x l).
Proof.
  induction 1 as [|y l Hs IH Hall]; simpl.
  - constructor; constructor.
  - destruct (String.ltb (task_key y) (task_key x)) eqn:E.
    + constructor; [exact IH|].
      rewrite Forall_forall in *. intros z Hz.
      apply (Permutation_in _ (Permutation_sym (insert_stable_perm _ x l))) in Hz.
      destruct Hz as [<-|Hz]; [apply string_ltb_leb, E|apply Hall, Hz].
    + apply string_ltb_false_leb in E.
      constructor; [constructor; assumption|].
      constructor; [exact E|].
      rewrite Forall_forall in *. intros z Hz.
      eapply task_key_le_trans; [exact E|apply Hall, Hz].
Qed.

Lemma sort_tasks_sorted (tasks : list task) :
  StronglySorted task_key_le (sort_tasks tasks).
Proof.
  unfold sort_tasks. induction tasks as [|x l IH]; simpl.
  - constructor.
  - apply insert_task_sorted, IH.
Qed.

Lemma sort_tasks_perm (tasks : list task) :
  Permutation tasks (sort_tasks tasks).
Proof. apply stable_sort_perm. Qed.

Lemma StronglySorted_nth_error {A : Type} (R : A -> A -> Prop) (l : list A) :
  StronglySorted R l ->
  forall i j x y, (i < j)%nat -> nth_error l i = Some x ->
                  nth_error l j = Some y -> R x y.
Proof.
  induction 1 as [|a l Hs IH Hall]; intros i j x y Hij Hi Hj.
  - destruct i; discriminate.
  - destruct j as [|j]; [lia|]. simpl in Hj.
    destruct i as [|i]; simpl in Hi.
    + injection Hi as <-. rewrite Forall_forall in Hall.
      apply Hall. eapply nth_error_In, Hj.
    + apply (IH i j); [lia|assumption|assumption].
Qed.

(** ** The cells of an assignee *)

Lemma write_tasks_keys (tasks : list task) :
  forall (hs : list Q) (row r : nat) (v : cell),
    List.length hs = List.length tasks ->
    (In (write r 1 v) (fst (write_tasks row tasks hs))
     <-> exists i t, nth_error tasks i = Some t /\ r = (row + i)%nat
                     /\ v = CellStr (task_key t)).
Proof.
  induction tasks as [|t tasks IH]; intros hs row r v Hlen; simpl.
  - split; [intros []|]. intros (i & t & H & _). destruct i; discriminate.
  - destruct hs as [|h hs]; [discriminate|]. simpl in Hlen.
    specialize (IH hs (S row) r v ltac:(lia)).
    destruct (write_tasks (S row) tasks hs) as [ops row'].
    simpl in *. split.
    + intros [H|[H|[H|H]]]; try discriminate.
      * injection H as <- <-. exists 0%nat, t.
        split; [reflexivity|]. split; [lia|reflexivity].
      * apply IH in H. destruct H as (i & t' & Hi & -> & ->).
        exists (S i), t'. split; [exact Hi|]. split; [lia|reflexivity].
    + intros (i & t' & Hi & Hr & Hv). destruct i as [|i]; simpl in Hi.
      * injection Hi as <-. left. subst. f_equal. lia.
      * right; right; right. apply IH. exists i, t'.
        split; [exact Hi|]. split; [lia|exact Hv].
Qed.

Lemma write_tasks_rows (tasks : list task) :
  forall (hs : list Q) (row : nat),
    List.length hs = List.length tasks ->
    snd (write_tasks row tasks hs) = (row + List.length tasks)%nat
    /\ Forall (fun op => is_merge op = false
                         /\ (row <= op_first_row op)%nat
                         /\ (op_last_row op < row + List.length tasks)%nat)
         (fst (write_tasks row tasks hs)).
Proof.
  induction tasks as [|t tasks IH]; intros hs row Hlen; simpl.
  - split; [lia|constructor].
  - destruct hs as [|h hs]; [discriminate|]. simpl in Hlen.
    specialize (IH hs (S row) ltac:(lia)).
    destruct (write_tasks (S row) tasks hs) as [ops row'].
    simpl in *. destruct IH as [Hrow Hops]. split; [lia|].
    repeat (constructor; [simpl; repeat split; lia|]).
    eapply Forall_impl; [|exact Hops]. simpl. intros op (Hm & H1 & H2).
    repeat split; [exact Hm|lia|lia].
Qed.

Lemma kept_nonempty (tasks : list task) :
  kept_tasks tasks <> [] -> sort_tasks (kept_tasks tasks) <> [].
Proof.
  intros H E. apply H.
  apply Permutation_nil. rewrite <- E. apply Permutation_sym, sort_tasks_perm.
Qed.

Lemma sort_tasks_length (tasks : list task) :
  List.length (sort_tasks tasks) = List.length tasks.
Proof. apply stable_sort_length. Qed.

Lemma assignee_block_layout (round1 : Q -> Q) (row : nat) (name : string)
    (tasks : list task) :
  let n := List.length (kept_tasks tasks) in
  snd (assignee_block round1 row name tasks) = (row + n)%nat
  /\ (n = 0%nat -> fst (assignee_block round1 row name tasks) = [])
  /\ Forall (fun op => (row <= op_first_row op)%nat
                       /\ (op_first_row op <= op_last_row op)%nat
                       /\ (op_last_row op < row + n)%nat)
       (fst (assignee_block round1 row name tasks)).
Proof.
  intros n. subst n.
  assert (Hcase : kept_tasks tasks = [] \/ kept_tasks tasks <> []).
  { destruct (kept_tasks tasks); [left; reflexivity|right; discriminate]. }
  destruct Hcase as [Hk|Hne].
  - unfold assignee_block. rewrite Hk. simpl.
    split; [lia|]. split; [reflexivity|constructor].
  - pose proof (assignee_block_ops round1 row name tasks Hne) as Hops.
    cbv zeta in Hops.
    assert (Hsnd : snd (assignee_block round1 row name tasks)
                   = snd (write_tasks row (sort_tasks (kept_tasks tasks))
                            (map display_hours (sort_tasks (kept_tasks tasks))))).
    { unfold assignee_block.
      destruct (kept_tasks tasks) as [|t0 ts]; [congruence|].
      destruct (write_tasks row (sort_tasks (t0 :: ts))
                  (map display_hours (sort_tasks (t0 :: ts)))); reflexivity. }
    destruct (write_tasks_rows (sort_tasks (kept_tasks tasks))
                (map display_hours (sort_tasks (kept_tasks tasks))) row
                (length_map _ _)) as [Hrow Hcells].
    rewrite sort_tasks_length in Hrow, Hcells.
    assert (Hpos : (0 < List.length (kept_tasks tasks))%nat).
    { destruct (kept_tasks tasks); [congruence|simpl; lia]. }
    split; [rewrite Hsnd; exact Hrow|].
    split; [lia|].
    rewrite Hops. apply Forall_app. split.
    + rewrite sort_tasks_length.
      destruct (1 <? List.length (kept_tasks tasks))%nat;
        repeat (constructor; [simpl; lia|]); constructor.
    + eapply Forall_impl; [|exact Hcells]. simpl.
      intros op (Hm & H1 & H2). destruct op; simpl in *; [lia|discriminate].
Qed.

(** X16. The block of an assignee takes as many rows as the assignee has
    rows with positive hours, all its cells lie in these rows, and the next
    block starts right below; an assignee without such rows gets no cell
    and no row. *)
Theorem assignee_block_rows (round1 : Q -> Q) (row : nat) (name : string)
    (tasks : list task) :
  let n := List.length (kept_tasks tasks) in
  snd (assignee_block round1 row name tasks) = (row + n)%nat
  /\ Forall (fun op => (row <= op_first_row op)%nat
                       /\ (op_first_row op <= op_last_row op)%nat
                       /\ (op_last_row op < row + n)%nat)
       (fst (assignee_block round1 row name tasks))
  /\ (fst (assignee_block round1 row name tasks) = [] <-> n = 0%nat).
Proof.
  intros n. destruct (assignee_block_layout round1 row name tasks)
    as (Hsnd & Hnone & Hops).
  fold n in Hsnd, Hnone, Hops.
  split; [exact Hsnd|]. split; [exact Hops|].
  split; [|exact Hnone].
  intros Hempty. destruct (Nat.eq_dec n 0) as [Hz|Hnz]; [exact Hz|].
  exfalso.
  assert (Hne : kept_tasks tasks <> []).
  { intros E. apply Hnz. unfold n. rewrite E. reflexivity. }
  rewrite (assignee_block_ops round1 row name tasks Hne) in Hempty.
  destruct (1 <? _)%nat in Hempty; discriminate.
Qed.

Lemma write_tasks_cols (tasks : list task) :
  forall (hs : list Q) (row r c : nat) (v : cell),
    In (write r c v) (fst (write_tasks row tasks hs)) ->
    c = 1%nat \/ c = 2%nat \/ c = 3%nat.
Proof.
  induction tasks as [|t tasks IH]; intros hs row r c v; simpl; [intros []|].
  destruct hs as [|h hs]; [intros []|].
  specialize (IH hs (S row) r c v).
  destruct (write_tasks (S row) tasks hs) as [ops row']. simpl in *.
  intros [H|[H|[H|H]]]; try (injection H as _ <- _; tauto).
  apply IH, H.
Qed.

(** X17. An assignee with more than one row gets the name, the days and
    the task count as merged ranges over all the rows and no plain cell in
    these columns; an assignee with one row gets plain cells and no merged
    range. *)
Theorem assignee_merge_rule (round1 : Q -> Q) (row : nat) (name : string)
    (tasks : list task) :
  let n := List.length (kept_tasks tasks) in
  let ops := fst (assignee_block round1 row name tasks) in
  ((1 < n)%nat ->
     In (merge_range row 0 (row + n - 1) 0 (CellStr name)) ops
     /\ In (merge_range row 5 (row + n - 1) 5 (CellInt n)) ops
     /\ (exists d, In (merge_range row 4 (row + n - 1) 4 (CellNum d)) ops)
     /\ (forall r c v, In (write r c v) ops ->
                       c = 1%nat \/ c = 2%nat \/ c = 3%nat))
  /\ (n = 1%nat ->
      In (write row 0 (CellStr name)) ops
      /\ In (write row 5 (CellInt 1)) ops
      /\ (exists d, In (write row 4 (CellNum d)) ops)
      /\ (forall op, In op ops -> is_merge op = false)).
Proof.
  intros n ops.
  assert (Hgen : (0 < n)%nat ->
    ops = (if (1 <? n)%nat
           then [merge_range row 0 (row + n - 1) 0 (CellStr name);
                 merge_range row 4 (row + n - 1) 4
                   (CellNum (round1 (sum_hours (map display_hours
                      (sort_tasks (kept_tasks tasks))) / 8)%Q));
                 merge_range row 5 (row + n - 1) 5 (CellInt n)]
           else [write row 0 (CellStr name);
                 write row 4
                   (CellNum (round1 (sum_hours (map display_hours
                      (sort_tasks (kept_tasks tasks))) / 8)%Q));
                 write row 5 (CellInt n)])
          ++ fst (write_tasks row (sort_tasks (kept_tasks tasks))
                    (map display_hours (sort_tasks (kept_tasks tasks))))).
  { intros Hpos. unfold ops.
    rewrite assignee_block_ops
      by (intros E; unfold n in Hpos; rewrite E in Hpos; simpl in Hpos; lia).
    rewrite sort_tasks_length. reflexivity. }
  split.
  - intros Hn. rewrite Hgen by lia.
    destruct (Nat.ltb_spec 1 n) as [_|Hle]; [|lia].
    split; [apply in_or_app; left; simpl; tauto|].
    split; [apply in_or_app; left; simpl; tauto|].
    split; [eexists; apply in_or_app; left; simpl; right; left; reflexivity|].
    intros r c v Hin. apply in_app_or in Hin. destruct Hin as [Hin|Hin].
    + simpl in Hin.
      repeat (destruct Hin as [Hin|Hin]; try discriminate). destruct Hin.
    + eapply write_tasks_cols, Hin.
  - intros Hn. rewrite Hgen by lia. rewrite Hn.
    simpl Nat.ltb. cbv iota.
    split; [apply in_or_app; left; simpl; tauto|].
    split; [apply in_or_app; left; simpl; tauto|].
    split; [eexists; apply in_or_app; left; simpl; right; left; reflexivity|].
    intros op Hin. apply in_app_or in Hin. destruct Hin as [Hin|Hin].
    + simpl in Hin.
      repeat (destruct Hin as [<-|Hin]; [reflexivity|]). destruct Hin.
    + destruct (write_tasks_rows (sort_tasks (kept_tasks tasks))
                  (map display_hours (sort_tasks (kept_tasks tasks))) row
                  (length_map _ _)) as [_ Hcells].
      rewrite Forall_forall in Hcells. apply (Hcells op Hin).
Qed.

(** X18. The rows of an assignee are written by ascending task key. *)
Theorem assignee_rows_sorted_by_key (round1 : Q -> Q) (row : nat)
    (name : string) (tasks : list task) (r r' : nat) (k k' : string) :
  In (write r 1 (CellStr k)) (fst (assignee_block round1 row name tasks)) ->
  In (write r' 1 (CellStr k')) (fst (assignee_block round1 row name tasks)) ->
  (r < r')%nat ->
  String.leb k k' = true.
Proof.
  intros Hk Hk' Hlt.
  assert (Hcase : kept_tasks tasks = [] \/ kept_tasks tasks <> []).
  { destruct (kept_tasks tasks); [left; reflexivity|right; discriminate]. }
  destruct Hcase as [He|Hne].
  { unfold assignee_block in Hk. rewrite He in Hk. destruct Hk. }
  rewrite assignee_block_ops in Hk, Hk' by exact Hne.
  assert (Hcell : forall q key,
    In (write q 1 (CellStr key))
      ((if (1 <? List.length (sort_tasks (kept_tasks tasks)))%nat
        then [merge_range row 0
                (row + List.length (sort_tasks (kept_tasks tasks)) - 1) 0
                (CellStr name);
              merge_range row 4
                (row + List.length (sort_tasks (kept_tasks tasks)) - 1) 4
                (CellNum (round1 (sum_hours (map display_hours
                   (sort_tasks (kept_tasks tasks))) / 8)%Q));
              merge_range row 5
                (row + List.length (sort_tasks (kept_tasks tasks)) - 1) 5
                (CellInt (List.length (sort_tasks (kept_tasks tasks))))]
        else [write row 0 (CellStr name);
              write row 4
                (CellNum (round1 (sum_hours (map display_hours
                   (sort_tasks (kept_tasks tasks))) / 8)%Q));
              write row 5
                (CellInt (List.length (sort_tasks (kept_tasks tasks))))])
       ++ fst (write_tasks row (sort_tasks (kept_tasks tasks))
                 (map display_hours (sort_tasks (kept_tasks tasks))))) ->
    exists i t, nth_error (sort_tasks (kept_tasks tasks)) i = Some t
                /\ q = (row + i)%nat /\ key = task_key t).
  { intros q key Hin. apply in_app_or in Hin. destruct Hin as [Hin|Hin].
    - destruct (1 <? List.length (sort_tasks (kept_tasks tasks)))%nat;
        simpl in Hin;
        repeat (destruct Hin as [Hin|Hin]; try discriminate); destruct Hin.
    - apply write_tasks_keys in Hin; [|apply length_map].
      destruct Hin as (i & t & Hi & Hq & Hv). injection Hv as ->.
      exists i, t. tauto. }
  destruct (Hcell _ _ Hk) as (i & t & Hi & -> & ->).
  destruct (Hcell _ _ Hk') as (j & t' & Hj & -> & ->).
  apply (StronglySorted_nth_error task_key_le _
           (sort_tasks_sorted (kept_tasks tasks)) i j);
    [lia|assumption|assumption].
Qed.

(** ** Displayed hours *)

Lemma display_hours_ge_1 (t : task) : (1 <= display_hours t)%Q.
Proof.
  unfold display_hours. destruct (Qle_bool 1 (task_hours t)) eqn:E.
  - apply Qle_bool_iff, E.
  - apply Qle_refl.
Qed.

Lemma fold_left_Qplus_ge (l : list Q) :
  Forall (fun h => 1 <= h)%Q l ->
  forall a, (a + inject_Z (Z.of_nat (List.length l)) <= fold_left Qplus l a)%Q.
Proof.
  induction 1 as [|h l Hh _ IH]; intros a; simpl List.length.
  - simpl. rewrite Qplus_0_r. apply Qle_refl.
  - cbn [fold_left]. eapply Qle_trans; [|apply IH].
    rewrite Nat2Z.inj_succ. unfold Z.succ. rewrite inject_Z_plus.
    rewrite (Qplus_comm (inject_Z (Z.of_nat (List.length l))) (inject_Z 1)).
    rewrite Qplus_assoc. apply Qplus_le_compat; [|apply Qle_refl].
    apply Qplus_le_compat; [apply Qle_refl|exact Hh].
Qed.

(** X19. Every displayed hours value is at least 1, so the summed hours of
    an assignee are at least the number of its rows. *)
Theorem total_hours_at_least_task_count (tasks : list task) :
  let kept := sort_tasks (kept_tasks tasks) in
  Forall (fun h => 1 <= h)%Q (map display_hours kept)
  /\ (inject_Z (Z.of_nat (List.length kept))
      <= sum_hours (map display_hours kept))%Q.
Proof.
  intros kept.
  assert (Hall : Forall (fun h => 1 <= h)%Q (map display_hours kept)).
  { apply Forall_forall. intros h Hh. apply in_map_iff in Hh.
    destruct Hh as (t & <- & _). apply display_hours_ge_1. }
  split; [exact Hall|].
  pose proof (fold_left_Qplus_ge _ Hall 0%Q) as H.
  rewrite Qplus_0_l, length_map in H. exact H.
Qed.

(** ** A sheet *)

Lemma sheet_blocks_app (round1 : Q -> Q) (g1 g2 : group) :
  forall row,
    sheet_blocks round1 row (g1 ++ g2)
    = sheet_blocks round1 row g1
      ++ sheet_blocks round1 (row + kept_count g1) g2.
Proof.
  induction g1 as [|[name tasks] g1 IH]; intros row; simpl.
  - rewrite Nat.add_0_r. reflexivity.
  - pose proof (assignee_block_layout round1 row name tasks) as Hrows.
    cbv zeta in Hrows. destruct Hrows as [Hsnd _].
    destruct (assignee_block round1 row name tasks) as [ops row'].
    simpl in Hsnd. subst row'. rewrite IH, <- app_assoc.
    rewrite Nat.add_assoc. reflexivity.
Qed.

Lemma sheet_blocks_rows (round1 : Q -> Q) (g : group) :
  forall row,
    Forall (fun op => (row <= op_first_row op)%nat
                      /\ (op_last_row op < row + kept_count g)%nat)
      (sheet_blocks round1 row g).
Proof.
  induction g as [|[name tasks] g IH]; intros row; simpl; [constructor|].
  pose proof (assignee_block_layout round1 row name tasks) as Hrows.
  cbv zeta in Hrows. destruct Hrows as (Hsnd & _ & Hops).
  destruct (assignee_block round1 row name tasks) as [ops row'].
  simpl in Hsnd, Hops. subst row'. apply Forall_app. split.
  - eapply Forall_impl; [|exact Hops]. simpl. intros op H. lia.
  - eapply Forall_impl; [|apply IH]. simpl. intros op H. lia.
Qed.

(** X20. The blocks of a sheet follow each other without overlap: the
    cells of the first assignees stay within their rows and those of the
    later ones start below. *)
Theorem assignee_blocks_do_not_overlap (round1 : Q -> Q) (row : nat)
    (g1 g2 : group) :
  sheet_blocks round1 row (g1 ++ g2)
  = sheet_blocks round1 row g1 ++ sheet_blocks round1 (row + kept_count g1) g2
  /\ Forall (fun op => (row <= op_first_row op)%nat
                       /\ (op_last_row op < row + kept_count g1)%nat)
       (sheet_blocks round1 row g1)
  /\ Forall (fun op => (row + kept_count g1 <= op_first_row op)%nat)
       (sheet_blocks round1 (row + kept_count g1) g2).
Proof.
  split; [apply sheet_blocks_app|]. split; [apply sheet_blocks_rows|].
  eapply Forall_impl; [|apply sheet_blocks_rows]. simpl. tauto.
Qed.

(** X21. There is one sheet per group, in the order of the groups; every
    sheet starts with the six header cells in row 0 and writes its data from
    row 1 on. *)
Theorem sheets_follow_the_periods (round1 : Q -> Q)
    (grouped_by_period : report_group) :
  map fst (save_to_excel_multi round1 grouped_by_period)
  = map fst grouped_by_period
  /\ Forall (fun sheet =>
        exists data,
          snd sheet
          = [write 0 0 (CellStr "Display Name"); write 0 1 (CellStr "Task Key");
             write 0 2 (CellStr "Task Name");
             write 0 3 (CellStr "In Progress Hours");
             write 0 4 (CellStr "Days"); write 0 5 (CellStr "Tasks Count")]
            ++ data
          /\ Forall (fun op => (1 <= op_first_row op)%nat) data)
       (save_to_excel_multi round1 grouped_by_period).
Proof.
  unfold save_to_excel_multi. split.
  - rewrite map_map. apply map_ext. intros [key g]. reflexivity.
  - apply Forall_forall. intros sheet Hin. apply in_map_iff in Hin.
    destruct Hin as ([key g] & <- & _). simpl.
    exists (sheet_blocks round1 1 g). split; [reflexivity|].
    eapply Forall_impl; [|apply sheet_blocks_rows]. simpl. tauto.
Qed.

(** ** The aggregator *)

Lemma process_item_skipped (round1 : Q -> Q)
    (fetch_history : item -> option (list (string * history_entry)))
    (periods : list Period) (status_name : option string)
    (grouped : report_group) (it : item) :
  item_skipped fetch_history it ->
  process_item round1 fetch_history periods status_name grouped it = grouped.
Proof.
  unfold item_skipped, process_item. intros [H|[H|[H|H]]].
  - rewrite H. reflexivity.
  - rewrite H, orb_true_r. reflexivity.
  - rewrite H, orb_true_r. reflexivity.
  - destruct (falsy (i_key it) || falsy (i_workspaceId it)
              || falsy (i_workitemId it)); [reflexivity|].
    rewrite H. reflexivity.
Qed.

(** X22. An item without key, workspace id or work item id, or whose
    history cannot be fetched, changes nothing in the grouped rows. *)
Theorem skipped_items_leave_no_trace (round1 : Q -> Q)
    (fetch_history : item -> option (list (string * history_entry)))
    (items1 items2 : list item) (bad : item) (periods : list Period)
    (status_name : option string) :
  item_skipped fetch_history bad ->
  process_data round1 fetch_history (items1 ++ bad :: items2) periods
    status_name
  = process_data round1 fetch_history (items1 ++ items2) periods status_name.
Proof.
  intros Hbad. unfold process_data. rewrite !fold_left_app. simpl.
  rewrite process_item_skipped by exact Hbad. reflexivity.
Qed.

Lemma dict_set_keys {V : Type} (d : list (period_key * V)) (k : period_key)
    (v : V) :
  dict_get period_key_eqb d k <> None ->
  map fst (dict_set period_key_eqb d k v) = map fst d.
Proof.
  induction d as [|[k' v'] rest IH]; simpl; [congruence|].
  destruct (period_key_eqb k k') eqn:E; [reflexivity|].
  intros H. simpl. f_equal. apply IH, H.
Qed.

Lemma dict_set_keys_new {V : Type} (d : list (period_key * V))
    (k : period_key) (v : V) :
  dict_get period_key_eqb d k = None ->
  map fst (dict_set period_key_eqb d k v) = map fst d ++ [k].
Proof.
  induction d as [|[k' v'] rest IH]; simpl; [reflexivity|].
  destruct (period_key_eqb k k') eqn:E; [discriminate|].
  intros H. simpl. f_equal. apply IH, H.
Qed.

Lemma dict_get_In_keys {V : Type} (d : list (period_key * V)) (k : period_key) :
  dict_get period_key_eqb d k <> None <-> In k (map fst d).
Proof.
  induction d as [|[k' v'] rest IH]; simpl; [split; [congruence|tauto]|].
  destruct (period_key_eqb k k') eqn:E.
  - apply period_key_eqb_spec in E. subst. split; [tauto|discriminate].
  - rewrite IH. split; [tauto|]. intros [->|H]; [|exact H].
    rewrite (proj2 (period_key_eqb_spec _ _) eq_refl) in E. discriminate.
Qed.

Lemma process_period_keys (round1 : Q -> Q)
    (history : list history_entry) (key name display_name status : string)
    (grouped : report_group) (period : Period) :
  map fst (process_period round1 history key name display_name status grouped
             period) = map fst grouped.
Proof.
  unfold process_period. destruct (Qpositive _); [|reflexivity].
  unfold add_row.
  destruct (dict_get period_key_eqb grouped (p_start period, p_end period))
    eqn:E; [|reflexivity].
  apply dict_set_keys. congruence.
Qed.

Lemma process_item_keys (round1 : Q -> Q)
    (fetch_history : item -> option (list (string * history_entry)))
    (periods : list Period) (status_name : option string)
    (grouped : report_group) (it : item) :
  map fst (process_item round1 fetch_history periods status_name grouped it)
  = map fst grouped.
Proof.
  unfold process_item.
  destruct (falsy (i_key it) || falsy (i_workspaceId it)
            || falsy (i_workitemId it)); [reflexivity|].
  destruct (fetch_history it) as [history_data|]; [|reflexivity].
  revert grouped. induction periods as [|p rest IH]; intros grouped; simpl.
  - reflexivity.
  - rewrite IH. apply process_period_keys.
Qed.

Lemma init_groups_keys (periods : list Period) :
  NoDup (map fst (init_groups periods))
  /\ forall k, In k (map fst (init_groups periods))
               <-> exists p, In p periods /\ k = (p_start p, p_end p).
Proof.
  unfold init_groups.
  assert (Hgen : forall d : report_group,
    NoDup (map fst d) ->
    NoDup (map fst (fold_left
                      (fun d q => dict_set period_key_eqb d (p_start q, p_end q) [])
                      periods d))
    /\ forall k,
         In k (map fst (fold_left
                 (fun d q => dict_set period_key_eqb d (p_start q, p_end q) [])
                 periods d))
         <-> In k (map fst d)
             \/ exists p, In p periods /\ k = (p_start p, p_end p)).
  { induction periods as [|q rest IH]; intros d Hnd; simpl.
    - split; [exact Hnd|]. intros k. split; [tauto|].
      intros [H|(p & [] & _)]; exact H.
    - destruct (dict_get period_key_eqb d (p_start q, p_end q)) eqn:E.
      + assert (Hk : map fst (dict_set period_key_eqb d (p_start q, p_end q) [])
                     = map fst d) by (apply dict_set_keys; congruence).
        destruct (IH (dict_set period_key_eqb d (p_start q, p_end q) []))
          as [Hnd' Hin]; [rewrite Hk; exact Hnd|].
        split; [exact Hnd'|]. intros k. rewrite Hin, Hk.
        split.
        * intros [H|(p & Hp & ->)]; [left; exact H|].
          right. exists p. split; [right; exact Hp|reflexivity].
        * intros [H|(p & [<-|Hp] & ->)]; [left; exact H| |].
          -- left. apply dict_get_In_keys. congruence.
          -- right. exists p. split; [exact Hp|reflexivity].
      + assert (Hk : map fst (dict_set period_key_eqb d (p_start q, p_end q) [])
                     = map fst d ++ [(p_start q, p_end q)])
          by (apply dict_set_keys_new, E).
        destruct (IH (dict_set period_key_eqb d (p_start q, p_end q) []))
          as [Hnd' Hin].
        { rewrite Hk. apply NoDup_app; [exact Hnd|repeat constructor; intros []|].
          intros k Hk1 [<-|[]]. apply dict_get_In_keys in Hk1. congruence. }
        split; [exact Hnd'|]. intros k. rewrite Hin, Hk, in_app_iff.
        split.
        * intros [[H|[<-|[]]]|(p & Hp & ->)].
          -- left; exact H.
          -- right. exists q. split; [left; reflexivity|reflexivity].
          -- right. exists p. split; [right; exact Hp|reflexivity].
        * intros [H|(p & [<-|Hp] & ->)].
          -- left; left; exact H.
          -- left; right; left; reflexivity.
          -- right. exists p. split; [exact Hp|reflexivity]. }
  destruct (Hgen [] (NoDup_nil _)) as [Hnd Hin].
  split; [exact Hnd|]. intros k. rewrite Hin. simpl. tauto.
Qed.

(** X23. The result has exactly one group per distinct period of the
    request. *)
Theorem one_group_per_distinct_period (round1 : Q -> Q)
    (fetch_history : item -> option (list (string * history_entry)))
    (items : list item) (periods : list Period) (status_name : option string) :
  let result := process_data round1 fetch_history items periods status_name in
  NoDup (map fst result)
  /\ (forall k, In k (map fst result)
                <-> exists p, In p periods /\ k = (p_start p, p_end p)).
Proof.
  intros result.
  assert (Hkeys : map fst result = map fst (init_groups periods)).
  { unfold result, process_data. generalize (init_groups periods) as d.
    induction items as [|it rest IH]; intros d; simpl; [reflexivity|].
    rewrite IH. apply process_item_keys. }
  rewrite Hkeys. apply init_groups_keys.
Qed.

Lemma init_groups_empty (periods : list Period) (k : period_key)
    (name : string) :
  rows_of (init_groups periods) k name = [].
Proof.
  unfold rows_of, init_groups.
  assert (Hgen : forall d : report_group,
    (forall k g, dict_get period_key_eqb d k = Some g -> g = []) ->
    forall k g,
      dict_get period_key_eqb
        (fold_left (fun d q => dict_set period_key_eqb d (p_start q, p_end q) [])
           periods d) k = Some g -> g = []).
  { induction periods as [|q rest IH]; intros d Hd; simpl; [exact Hd|].
    apply IH. intros k' g'.
    destruct (period_key_eqb k' (p_start q, p_end q)) eqn:E.
    - apply period_key_eqb_spec in E. subst k'.
      rewrite (dict_get_set_same _ period_key_eqb_spec). congruence.
    - rewrite (dict_get_set_other _ period_key_eqb_spec); [apply Hd|].
      intros ->. rewrite (proj2 (period_key_eqb_spec _ _) eq_refl) in E.
      discriminate. }
  destruct (dict_get period_key_eqb _ k) as [g|] eqn:E; [|reflexivity].
  rewrite (Hgen [] ltac:(intros ? ? H; discriminate H) k g E). reflexivity.
Qed.

Lemma rows_of_add_row (grouped : report_group) (k : period_key) (n : string)
    (r : task) (k' : period_key) (n' : string) (r' : task) :
  dict_get period_key_eqb grouped k <> None ->
  In r' (rows_of (add_row grouped k n r) k' n')
  <-> In r' (rows_of grouped k' n') \/ (k' = k /\ n' = n /\ r' = r).
Proof.
  intros Hk. unfold add_row, rows_of.
  destruct (dict_get period_key_eqb grouped k) as [g|] eqn:Eg; [|congruence].
  destruct (period_key_eqb k' k) eqn:E.
  - apply period_key_eqb_spec in E. subst k'.
    rewrite (dict_get_set_same _ period_key_eqb_spec), Eg.
    destruct (String.eqb_spec n' n) as [->|Hn].
    + rewrite group_rows_append_same, in_app_iff. simpl.
      split; [intros [H|[<-|[]]]; tauto|].
      intros [H|(_ & _ & ->)]; tauto.
    + rewrite group_rows_append_other by exact Hn.
      split; [tauto|]. intros [H|(_ & Hn' & _)]; [exact H|contradiction].
  - rewrite (dict_get_set_other _ period_key_eqb_spec).
    + split; [tauto|]. intros [H|(-> & _)]; [exact H|].
      rewrite (proj2 (period_key_eqb_spec _ _) eq_refl) in E. discriminate.
    + intros ->. rewrite (proj2 (period_key_eqb_spec _ _) eq_refl) in E.
      discriminate.
Qed.

Lemma rows_of_process_periods (round1 : Q -> Q)
    (history : list history_entry) (key name display_name status : string)
    (periods : list Period) :
  forall (grouped : report_group) (k : period_key) (n : string) (r : task),
    (forall p, In p periods ->
               dict_get period_key_eqb grouped (p_start p, p_end p) <> None) ->
    (In r (rows_of
             (fold_left
                (process_period round1 history key name display_name status)
                periods grouped) k n)
     <-> In r (rows_of grouped k n)
         \/ exists p, In p periods /\ k = (p_start p, p_end p)
                      /\ n = display_name
                      /\ r = (key, name, hours_of round1 history p status)
                      /\ (0 < hours_of round1 history p status)%Q).
Proof.
  induction periods as [|q rest IH]; intros grouped k n r Hkeys; simpl.
  - split; [tauto|]. intros [H|(p & [] & _)]; exact H.
  - rewrite IH.
    + unfold process_period at 1.
      destruct (Qpositive (hours_of round1 history q status)) eqn:E.
      * rewrite rows_of_add_row by (apply Hkeys; left; reflexivity).
        apply Qpositive_iff in E.
        split.
        -- intros [[H|(-> & -> & ->)]|(p & Hp & H)].
           ++ left; exact H.
           ++ right. exists q. repeat split; [left; reflexivity|exact E].
           ++ right. exists p. split; [right; exact Hp|exact H].
        -- intros [H|(p & [<-|Hp] & -> & -> & -> & Hpos)].
           ++ left; left; exact H.
           ++ left; right. repeat split.
           ++ right. exists p. repeat split; assumption.
      * split.
        -- intros [H|(p & Hp & H)]; [left; exact H|].
           right. exists p. split; [right; exact Hp|exact H].
        -- intros [H|(p & [<-|Hp] & Hk & Hn & Hr & Hpos)].
           ++ left; exact H.
           ++ apply Qpositive_iff in Hpos. congruence.
           ++ right. exists p. repeat split; assumption.
    + intros p Hp. apply process_period_keeps_key, Hkeys. right; exact Hp.
Qed.

(** X24. A row is reported for a period and an assignee exactly when it
    is the row computed for some item of the request that is not skipped,
    has that assignee and has positive rounded hours in that period. *)
Theorem reported_rows_characterized (round1 : Q -> Q)
    (fetch_history : item -> option (list (string * history_entry)))
    (items : list item) (periods : list Period) (status_name : option string)
    (k : period_key) (n : string) (r : task) :
  In r (rows_of (process_data round1 fetch_history items periods status_name)
          k n)
  <-> exists it history_data p,
        In it items /\ In p periods
        /\ falsy (i_key it) = false /\ falsy (i_workspaceId it) = false
        /\ falsy (i_workitemId it) = false
        /\ fetch_history it = Some history_data
        /\ k = (p_start p, p_end p)
        /\ n = get_default (i_assignee_displayName it) "Не указано"
        /\ r = item_row round1 history_data status_name it p
        /\ (0 < task_hours r)%Q.
Proof.
  unfold process_data.
  assert (Hgen : forall grouped : report_group,
    (forall p, In p periods ->
               dict_get period_key_eqb grouped (p_start p, p_end p) <> None) ->
    (In r (rows_of
             (fold_left (process_item round1 fetch_history periods status_name)
                items grouped) k n)
     <-> In r (rows_of grouped k n)
         \/ exists it history_data p,
              In it items /\ In p periods
              /\ falsy (i_key it) = false /\ falsy (i_workspaceId it) = false
              /\ falsy (i_workitemId it) = false
              /\ fetch_history it = Some history_data
              /\ k = (p_start p, p_end p)
              /\ n = get_default (i_assignee_displayName it) "Не указано"
              /\ r = item_row round1 history_data status_name it p
              /\ (0 < task_hours r)%Q)).
  { induction items as [|it rest IH]; intros grouped Hkeys; simpl.
    - split; [tauto|]. intros [H|(it & hd & p & [] & _)]; exact H.
    - rewrite IH
        by (intros p Hp; apply process_item_keeps_key, Hkeys, Hp).
      unfold process_item at 1.
      destruct (falsy (i_key it)) eqn:E1; simpl orb.
      { split.
        - intros [H|(it' & hd & p & Hin & H)]; [left; exact H|].
          right. exists it', hd, p. split; [right; exact Hin|exact H].
        - intros [H|(it' & hd & p & [<-|Hin] & Hp & F1 & H)].
          + left; exact H.
          + congruence.
          + right. exists it', hd, p. tauto. }
      destruct (falsy (i_workspaceId it)) eqn:E2; simpl orb.
      { split.
        - intros [H|(it' & hd & p & Hin & H)]; [left; exact H|].
          right. exists it', hd, p. split; [right; exact Hin|exact H].
        - intros [H|(it' & hd & p & [<-|Hin] & Hp & F1 & F2 & H)].
          + left; exact H.
          + congruence.
          + right. exists it', hd, p. tauto. }
      destruct (falsy (i_workitemId it)) eqn:E3; simpl orb.
      { split.
        - intros [H|(it' & hd & p & Hin & H)]; [left; exact H|].
          right. exists it', hd, p. split; [right; exact Hin|exact H].
        - intros [H|(it' & hd & p & [<-|Hin] & Hp & F1 & F2 & F3 & H)].
          + left; exact H.
          + congruence.
          + right. exists it', hd, p. tauto. }
      destruct (fetch_history it) as [history_data|] eqn:E4.
      2:{ split.
        - intros [H|(it' & hd & p & Hin & H)]; [left; exact H|].
          right. exists it', hd, p. split; [right; exact Hin|exact H].
        - intros [H|(it' & hd & p & [<-|Hin] & Hp & F1 & F2 & F3 & F4 & H)].
          + left; exact H.
          + congruence.
          + right. exists it', hd, p. tauto. }
      rewrite rows_of_process_periods by exact Hkeys.
      split.
      + intros [[H|(p & Hp & -> & -> & -> & Hpos)]|(it' & hd & p & Hin & H)].
        * left; exact H.
        * right. exists it, history_data, p.
          split; [left; reflexivity|]. repeat split; try assumption.
        * right. exists it', hd, p. split; [right; exact Hin|exact H].
      + intros [H|(it' & hd & p & [<-|Hin] & Hp & F1 & F2 & F3 & F4 & -> & ->
                   & -> & Hpos)].
        * left; left; exact H.
        * left; right. exists p. rewrite E4 in F4. injection F4 as <-.
          repeat split; try assumption.
        * right. exists it', hd, p. repeat split; assumption. }
  rewrite Hgen by (intros p Hp; apply init_groups_has_key, Hp).
  rewrite init_groups_empty. simpl. tauto.
Qed.

Section DictIn.

Context {K V : Type} (eqb : K -> K -> bool).

Lemma dict_get_In (d : list (K * V)) (k : K) (v : V) :
  dict_get eqb d k = Some v -> exists k', In (k', v) d.
Proof.
  induction d as [|[k0 v0] rest IH]; simpl; [discriminate|].
  destruct (eqb k k0).
  - intros [= ->]. exists k0. left; reflexivity.
  - intros H. destruct (IH H) as [k' Hk']. exists k'. right; exact Hk'.
Qed.

Lemma dict_set_In (d : list (K * V)) (k : K) (v : V) (k' : K) (v' : V) :
  In (k', v') (dict_set eqb d k v) -> In (k', v') d \/ v' = v.
Proof.
  induction d as [|[k0 v0] rest IH]; simpl.
  - intros [[= _ <-]|[]]. right; reflexivity.
  - destruct (eqb k k0); simpl.
    + intros [[= <- <-]|H]; [right; reflexivity|left; right; exact H].
    + intros [H|H]; [left; left; exact H|].
      destruct (IH H) as [H'|H']; [left; right; exact H'|right; exact H'].
Qed.

End DictIn.

Lemma kept_tasks_id (rows : list task) :
  Forall (fun t => (0 < task_hours t)%Q) rows -> kept_tasks rows = rows.
Proof.
  induction 1 as [|t rows Ht _ IH]; [reflexivity|].
  unfold kept_tasks in *. simpl.
  rewrite (proj2 (Qpositive_iff _) Ht), IH. reflexivity.
Qed.

Lemma add_row_positive (grouped : report_group) (k : period_key) (n : string)
    (r : task) :
  (0 < task_hours r)%Q -> rows_all_positive grouped ->
  rows_all_positive (add_row grouped k n r).
Proof.
  intros Hr Hinv. unfold add_row.
  destruct (dict_get period_key_eqb grouped k) as [g|] eqn:Eg; [|exact Hinv].
  destruct (dict_get_In _ _ _ _ Eg) as [k0 Hg].
  intros key g' name rows Hin Hrows.
  apply dict_set_In in Hin. destruct Hin as [Hin | ->].
  - apply (Hinv key g' name rows Hin Hrows).
  - unfold group_append in Hrows.
    destruct (dict_get String.eqb g n) as [old|] eqn:En.
    + destruct (dict_get_In _ _ _ _ En) as [n0 Hold].
      apply dict_set_In in Hrows. destruct Hrows as [Hrows | ->].
      * apply (Hinv k0 g name rows Hg Hrows).
      * destruct (Hinv k0 g n0 old Hg Hold) as [_ Hpos].
        split; [destruct old; discriminate|].
        apply Forall_app. split; [exact Hpos|]. constructor; [exact Hr|constructor].
    + apply dict_set_In in Hrows. destruct Hrows as [Hrows | ->].
      * apply (Hinv k0 g name rows Hg Hrows).
      * split; [discriminate|]. constructor; [exact Hr|constructor].
Qed.

Lemma init_groups_positive (periods : list Period) :
  rows_all_positive (init_groups periods).
Proof.
  unfold init_groups.
  assert (Hgen : forall d : report_group,
    rows_all_positive d ->
    rows_all_positive
      (fold_left (fun d q => dict_set period_key_eqb d (p_start q, p_end q) [])
         periods d)).
  { induction periods as [|q rest IH]; intros d Hd; simpl; [exact Hd|].
    apply IH. intros key g name rows Hin Hrows.
    apply dict_set_In in Hin. destruct Hin as [Hin | ->].
    - apply (Hd key g name rows Hin Hrows).
    - destruct Hrows. }
  apply Hgen. intros key g name rows [].
Qed.

Lemma process_item_positive (round1 : Q -> Q)
    (fetch_history : item -> option (list (string * history_entry)))
    (periods : list Period) (status_name : option string)
    (grouped : report_group) (it : item) :
  rows_all_positive grouped ->
  rows_all_positive
    (process_item round1 fetch_history periods status_name grouped it).
Proof.
  intros Hinv. unfold process_item.
  destruct (falsy (i_key it) || falsy (i_workspaceId it)
            || falsy (i_workitemId it)); [exact Hinv|].
  destruct (fetch_history it) as [history_data|]; [|exact Hinv].
  revert grouped Hinv.
  induction periods as [|p rest IH]; intros grouped Hinv; simpl; [exact Hinv|].
  apply IH. unfold process_period.
  destruct (Qpositive _) eqn:E; [|exact Hinv].
  apply add_row_positive; [|exact Hinv]. apply Qpositive_iff, E.
Qed.

Lemma kept_count_positive (g : group) :
  (forall name rows, In (name, rows) g ->
                     Forall (fun t => (0 < task_hours t)%Q) rows) ->
  kept_count g = List.length (List.concat (map snd g)).
Proof.
  induction g as [|[name rows] g IH]; intros H; [reflexivity|].
  simpl. rewrite length_app, IH.
  - rewrite kept_tasks_id; [reflexivity|].
    apply (H name rows). left; reflexivity.
  - intros n r Hin. apply (H n r). right; exact Hin.
Qed.

(** X25. In the output of the aggregator every assignee has rows and all
    hours are positive: the filters of the report builder keep every row,
    and a sheet has as many data rows as the group has rows. *)
Theorem report_filters_keep_every_aggregated_row (round1 : Q -> Q)
    (fetch_history : item -> option (list (string * history_entry)))
    (items : list item) (periods : list Period) (status_name : option string)
    (key : period_key) (g : group) :
  In (key, g)
    (process_data round1 fetch_history items periods status_name) ->
  (forall name rows, In (name, rows) g ->
                     rows <> [] /\ kept_tasks rows = rows)
  /\ kept_count g = List.length (List.concat (map snd g)).
Proof.
  assert (Hinv : rows_all_positive
            (process_data round1 fetch_history items periods status_name)).
  { unfold process_data.
    generalize (init_groups_positive periods).
    generalize (init_groups periods) as d.
    induction items as [|it rest IH]; intros d Hd; simpl; [exact Hd|].
    apply IH, process_item_positive, Hd. }
  intros Hin. split.
  - intros name rows Hrows. destruct (Hinv key g name rows Hin Hrows) as [Hne Hpos].
    split; [exact Hne|apply kept_tasks_id, Hpos].
  - apply kept_count_positive. intros name rows Hrows.
    apply (Hinv key g name rows Hin Hrows).
Qed.

(** ** Stays inside the period *)


(** X15. An item that enters the target status inside the period, with no
    other event, is counted the working time from that event to the period
    end. *)
Theorem stay_open_at_the_period_end (history : list history_entry)
    (start_day end_day : Z) (status_name : string)
    (entered : datetime) (status : string) :
  build_events history = [(entered, status)] ->
  status = lower status_name ->
  instant (period_start_of start_day) < instant entered ->
  instant entered <= instant (period_end_of end_day) ->
  calculate_in_progress_time_for_period history start_day end_day status_name
  = timedelta_minutes
      (add_working_time_segment entered (period_end_of end_day)).
Proof.
  intros Hev Hs H1 H2.
  unfold calculate_in_progress_time_for_period, in_progress_timedelta.
  rewrite Hev. f_equal.
  unfold sort_events. cbn [stable_sort insert_stable].
  unfold walk. cbn [initial_state walk_events walk_body]. unfold dt_leb, dt_ltb.
  destruct (Z.leb_spec (instant entered) (instant (period_start_of start_day)));
    [lia|].
  destruct (Z.ltb_spec (instant (period_end_of end_day)) (instant entered));
    [lia|].
  unfold walk_else. cbn [in_target_status last_ts total_td].
  rewrite Hs, String.eqb_refl. unfold dt_ltb.
  destruct (Z.ltb_spec (instant entered) (instant (period_end_of end_day)));
    simpl; [lia|].
  rewrite add_working_time_segment_inverted by lia. reflexivity.
Qed.

(** ** The tracker endpoints *)

Section EndpointFacts.

Variable requests_get : string -> string -> response.
Variable session_cookie : string.
Variable workspace_id : string.

Lemma workspaces_loop_first (endpoints : list string) :
  match workspaces_loop requests_get session_cookie endpoints with
  | Some result =>
      result <> []
      /\ exists before endpoint after,
           endpoints = before ++ endpoint :: after
           /\ Forall (fun e => workspaces_from requests_get session_cookie e = [])
                before
           /\ result = workspaces_from requests_get session_cookie endpoint
  | None =>
      Forall (fun e => workspaces_from requests_get session_cookie e = [])
        endpoints
  end.
Proof.
  induction endpoints as [|ep rest IH]; cbn [workspaces_loop]; [constructor|].
  assert (Hskip : workspaces_from requests_get session_cookie ep = [] ->
    match workspaces_loop requests_get session_cookie rest with
    | Some result =>
        result <> []
        /\ exists before endpoint after,
             ep :: rest = before ++ endpoint :: after
             /\ Forall
                  (fun e => workspaces_from requests_get session_cookie e = [])
                  before
             /\ result = workspaces_from requests_get session_cookie endpoint
    | None =>
        Forall (fun e => workspaces_from requests_get session_cookie e = [])
          (ep :: rest)
    end).
  { intros Hnone.
    destruct (workspaces_loop requests_get session_cookie rest) as [result|].
    - destruct IH as (Hne & before & endpoint & after & -> & Hbefore & ->).
      split; [exact Hne|].
      exists (ep :: before), endpoint, after.
      split; [reflexivity|]. split; [constructor; assumption|reflexivity].
    - constructor; assumption. }
  unfold workspaces_from in Hskip at 1.
  destruct (requests_get (TEAMSTORM_BASE_URL ++ ep) session_cookie)
    as [|code body] eqn:Ereq; [apply Hskip; reflexivity|].
  destruct (code =? 200) eqn:Ecode; [|apply Hskip; reflexivity].
  destruct body as [data|]; [|apply Hskip; reflexivity].
  destruct (map format_workspace
              (dicts_of (select_list ["workspaces"; "items"; "data"]%string data)))
    as [|w ws] eqn:Eres; [apply Hskip; reflexivity|].
  split; [discriminate|].
  exists [], ep, rest. split; [reflexivity|]. split; [constructor|].
  unfold workspaces_from. rewrite Ereq, Ecode, Eres. reflexivity.
Qed.

(** X26. [get_workspaces] returns the workspaces of the first endpoint, in
    the fixed order, that answers 200 with at least one JSON object; when no
    endpoint does, it fails with status 500 (the 404 raised inside is turned
    into 500 by the outer handler). *)
Theorem get_workspaces_outcome :
  match get_workspaces requests_get session_cookie with
  | ApiOk result =>
      result <> []
      /\ exists before endpoint after,
           workspace_endpoints = before ++ endpoint :: after
           /\ Forall (fun e => workspaces_from requests_get session_cookie e = [])
                before
           /\ result = workspaces_from requests_get session_cookie endpoint
  | HTTPException status_code =>
      status_code = 500
      /\ Forall (fun e => workspaces_from requests_get session_cookie e = [])
           workspace_endpoints
  end.
Proof.
  unfold get_workspaces.
  pose proof (workspaces_loop_first workspace_endpoints) as H.
  destruct (workspaces_loop requests_get session_cookie workspace_endpoints);
    [exact H|]. split; [reflexivity|exact H].
Qed.

Lemma workitems_loop_first (endpoints : list string) :
  match workitems_loop requests_get session_cookie workspace_id endpoints []
  with
  | inl all_items =>
      all_items <> []
      /\ exists before endpoint after,
           endpoints = before ++ endpoint :: after
           /\ Forall
                (fun e => workitems_from requests_get session_cookie
                            workspace_id e = []) before
           /\ all_items
              = workitems_from requests_get session_cookie workspace_id endpoint
  | inr all_items =>
      all_items = []
      /\ Forall
           (fun e => workitems_from requests_get session_cookie workspace_id e
                     = []) endpoints
  end.
Proof.
  induction endpoints as [|ep rest IH]; cbn [workitems_loop];
    [split; [reflexivity|constructor]|].
  assert (Hskip :
    workitems_from requests_get session_cookie workspace_id ep = [] ->
    match workitems_loop requests_get session_cookie workspace_id rest [] with
    | inl all_items =>
        all_items <> []
        /\ exists before endpoint after,
             ep :: rest = before ++ endpoint :: after
             /\ Forall
                  (fun e => workitems_from requests_get session_cookie
                              workspace_id e = []) before
             /\ all_items
                = workitems_from requests_get session_cookie workspace_id
                    endpoint
    | inr all_items =>
        all_items = []
        /\ Forall
             (fun e => workitems_from requests_get session_cookie workspace_id
                         e = []) (ep :: rest)
    end).
  { intros Hnone.
    destruct (workitems_loop requests_get session_cookie workspace_id rest [])
      as [all_items|all_items].
    - destruct IH as (Hne & before & endpoint & after & -> & Hbefore & ->).
      split; [exact Hne|].
      exists (ep :: before), endpoint, after.
      split; [reflexivity|]. split; [constructor; assumption|reflexivity].
    - destruct IH as [-> Hall]. split; [reflexivity|].
      constructor; assumption. }
  unfold workitems_from in Hskip at 1.
  destruct (requests_get (TEAMSTORM_BASE_URL ++ ep) session_cookie)
    as [|code body] eqn:Ereq; [apply Hskip; reflexivity|].
  destruct (code =? 200) eqn:Ecode; [|apply Hskip; reflexivity].
  destruct body as [data|]; [|apply Hskip; reflexivity].
  cbn [app]. cbv zeta.
  destruct (filter item_complete
              (map (format_item workspace_id)
                 (dicts_of
                    (select_list
                       ["items"; "workItems"; "data"; "results"]%string data))))
    as [|f fs] eqn:Eres; [apply Hskip; reflexivity|].
  split; [discriminate|].
  exists [], ep, rest. split; [reflexivity|]. split; [constructor|].
  unfold workitems_from. rewrite Ereq, Ecode, Eres. reflexivity.
Qed.

Lemma workitems_from_complete (endpoint : string) :
  Forall (fun f => truthy (f_key f) = true /\ truthy (f_workitemId f) = true
                   /\ f_workspaceId f = workspace_id)
    (workitems_from requests_get session_cookie workspace_id endpoint).
Proof.
  unfold workitems_from.
  destruct (requests_get (TEAMSTORM_BASE_URL ++ endpoint) session_cookie)
    as [|code body]; [constructor|].
  destruct (code =? 200); [|constructor].
  destruct body as [data|]; [|constructor].
  apply Forall_forall. intros f Hf. apply filter_In in Hf.
  destruct Hf as [Hin Hc]. unfold item_complete in Hc.
  apply andb_true_iff in Hc. destruct Hc as [Hk Hw].
  split; [exact Hk|]. split; [exact Hw|].
  apply in_map_iff in Hin. destruct Hin as (d & <- & _). reflexivity.
Qed.

(** X27. [get_workitems] returns the complete items of the first endpoint
    that yields any, with their count; every returned item has a key and a
    work item id and carries the requested workspace id.  When no endpoint
    yields an item it fails with status 404. *)
Theorem get_workitems_outcome :
  match get_workitems requests_get session_cookie workspace_id with
  | ApiOk (all_items, count) =>
      all_items <> [] /\ count = List.length all_items
      /\ Forall (fun f => truthy (f_key f) = true
                          /\ truthy (f_workitemId f) = true
                          /\ f_workspaceId f = workspace_id) all_items
      /\ exists before endpoint after,
           workitem_endpoints workspace_id = before ++ endpoint :: after
           /\ Forall
                (fun e => workitems_from requests_get session_cookie
                            workspace_id e = []) before
           /\ all_items
              = workitems_from requests_get session_cookie workspace_id endpoint
  | HTTPException status_code =>
      status_code = 404
      /\ Forall
           (fun e => workitems_from requests_get session_cookie workspace_id e
                     = []) (workitem_endpoints workspace_id)
  end.
Proof.
  unfold get_workitems.
  pose proof (workitems_loop_first (workitem_endpoints workspace_id)) as H.
  destruct (workitems_loop requests_get session_cookie workspace_id
              (workitem_endpoints workspace_id) []) as [all_items|all_items].
  - destruct H as (Hne & before & endpoint & after & Heq & Hbefore & Hitems).
    split; [exact Hne|]. split; [reflexivity|].
    split; [rewrite Hitems; apply workitems_from_complete|].
    exists before, endpoint, after. tauto.
  - destruct H as [-> Hall]. split; [reflexivity|exact Hall].
Qed.

End EndpointFacts.

(** ** The timestamp normaliser and the working days *)

(** X28. Converting a timestamp to Moscow time keeps its instant, so parsed
    timestamps are ordered as their instants are; the offset is between
    +02:00 and +05:00, and +03:00 from 2014-10-26 on. *)
Theorem parse_iso_to_msk_keeps_instant (utc : Z) :
  instant (parse_iso_to_msk utc) = utc
  /\ (forall other,
        dt_ltb (parse_iso_to_msk utc) (parse_iso_to_msk other) = (utc <? other))
  /\ hours 2 <= utcoffset (parse_iso_to_msk utc) <= hours 5
  /\ (seconds 1414274400 <= utc ->
      parse_iso_to_msk utc = mkDatetime (utc + hours 3) (hours 3)).
Proof.
  assert (Hinst : forall t, instant (parse_iso_to_msk t) = t).
  { intros t. unfold parse_iso_to_msk, MOSCOW_TZ.fromutc, instant; simpl. lia. }
  split; [apply Hinst|]. split; [|split].
  - intros other. unfold dt_ltb. rewrite !Hinst. reflexivity.
  - apply utcoffset_at_bounds.
  - intros Hmodern. unfold parse_iso_to_msk, MOSCOW_TZ.fromutc.
    rewrite utcoffset_at_modern by exact Hmodern. reflexivity.
Qed.

Lemma weekday_of_day_week (d : Z) : weekday_of_day (d + 7) = weekday_of_day d.
Proof.
  unfold weekday_of_day. replace (d + 7 + 3) with (d + 3 + 1 * 7) by lia.
  apply Z.mod_add. lia.
Qed.

(** X29. Whether a day is a working day depends on its date only, repeats
    every seven days, and holds for exactly five of any seven consecutive
    days. *)
Theorem is_working_day_weekly (d : datetime) :
  (forall d', date d' = date d -> is_working_day d' = is_working_day d)
  /\ is_working_day (add_days d 7) = is_working_day d
  /\ List.length
       (filter (fun k => is_working_day (add_days d (Z.of_nat k))) (seq 0 7))
     = 5%nat.
Proof.
  split; [|split].
  - intros d' Hd. unfold is_working_day, weekday. rewrite Hd. reflexivity.
  - unfold is_working_day, weekday. rewrite date_add_days, weekday_of_day_week.
    reflexivity.
  - unfold is_working_day, weekday. cbn [seq filter].
    rewrite !date_add_days. cbn [Z.of_nat Pos.of_succ_nat Pos.succ].
    assert (Hs : forall k, weekday_of_day (k + 1) = (weekday_of_day k + 1) mod 7)
      by (intros k; apply weekday_of_day_succ; reflexivity).
    replace (date d + 1) with (date d + 0 + 1) by lia.
    replace (date d + 2) with (date d + 0 + 1 + 1) by lia.
    replace (date d + 3) with (date d + 0 + 1 + 1 + 1) by lia.
    replace (date d + 4) with (date d + 0 + 1 + 1 + 1 + 1) by lia.
    replace (date d + 5) with (date d + 0 + 1 + 1 + 1 + 1 + 1) by lia.
    replace (date d + 6) with (date d + 0 + 1 + 1 + 1 + 1 + 1 + 1) by lia.
    rewrite !Hs.
    pose proof (weekday_of_day_range (date d + 0)) as Hr.
    assert (Hcases : weekday_of_day (date d + 0) = 0
                     \/ weekday_of_day (date d + 0) = 1
                     \/ weekday_of_day (date d + 0) = 2
                     \/ weekday_of_day (date d + 0) = 3
                     \/ weekday_of_day (date d + 0) = 4
                     \/ weekday_of_day (date d + 0) = 5
                     \/ weekday_of_day (date d + 0) = 6) by lia.
    destruct Hcases as [-> | [-> | [-> | [-> | [-> | [-> | ->]]]]]]; reflexivity.
Qed.

(** ** The processing endpoint *)



(** ** Further instances on concrete data *)

Lemma add_working_time_segment_weekend_witness :
  add_working_time_segment (mkDatetime (days 19728 + hours 10) (hours 3))
    (mkDatetime (days 19729 + hours 20) (hours 3)) = 0.
Proof.
  apply (add_working_time_segment_weekend
           (mkDatetime (days 19728 + hours 10) (hours 3))
           (mkDatetime (days 19729 + hours 20) (hours 3))).
  intros d Hd.
  change (date (mkDatetime (days 19728 + hours 10) (hours 3))) with 19728 in Hd.
  change (date (mkDatetime (days 19729 + hours 20) (hours 3))) with 19729 in Hd.
  assert (Hcases : d = 19728 \/ d = 19729) by lia.
  destruct Hcases as [-> | ->]; [left|right]; reflexivity.
Defined.

Lemma add_working_time_segment_inside_window_witness :
  add_working_time_segment (mkDatetime (days 19723 + hours 9) (hours 3))
    (mkDatetime (days 19723 + hours 12) (hours 3))
  = instant (mkDatetime (days 19723 + hours 12) (hours 3))
    - instant (mkDatetime (days 19723 + hours 9) (hours 3)).
Proof.
  apply (add_working_time_segment_inside_window
           (mkDatetime (days 19723 + hours 9) (hours 3))
           (mkDatetime (days 19723 + hours 12) (hours 3))).
  - reflexivity.
  - vm_compute. discriminate.
  - vm_compute. reflexivity.
  - vm_compute. discriminate.
  - vm_compute. discriminate.
Defined.

Lemma add_working_time_segment_additive_witness :
  add_working_time_segment (mkDatetime (days 19723 + hours 7) (hours 3))
    (mkDatetime (days 19724 + hours 10) (hours 3))
  = add_working_time_segment (mkDatetime (days 19723 + hours 7) (hours 3))
      (mkDatetime (days 19723 + hours 12) (hours 3))
    + add_working_time_segment (mkDatetime (days 19723 + hours 12) (hours 3))
        (mkDatetime (days 19724 + hours 10) (hours 3)).
Proof.
  apply (add_working_time_segment_additive
           (mkDatetime (days 19723 + hours 7) (hours 3))
           (mkDatetime (days 19723 + hours 12) (hours 3))
           (mkDatetime (days 19724 + hours 10) (hours 3))).
  - reflexivity.
  - reflexivity.
  - vm_compute. split; discriminate.
Defined.


Lemma malformed_entries_are_ignored_witness :
  calculate_in_progress_time_for_period
    ([mkEntry (IsoDate (days 19723 + hours 6)) (Some "in progress"%string)]
     ++ mkEntry BadDate (Some "done"%string)
        :: [mkEntry (IsoDate (days 19723 + hours 9)) (Some "done"%string)])
    19723 19723 "in progress"
  = calculate_in_progress_time_for_period
      ([mkEntry (IsoDate (days 19723 + hours 6)) (Some "in progress"%string)]
       ++ [mkEntry (IsoDate (days 19723 + hours 9)) (Some "done"%string)])
      19723 19723 "in progress".
Proof.
  apply (malformed_entries_are_ignored
           [mkEntry (IsoDate (days 19723 + hours 6)) (Some "in progress"%string)]
           [mkEntry (IsoDate (days 19723 + hours 9)) (Some "done"%string)]
           (mkEntry BadDate (Some "done"%string)) 19723 19723 "in progress").
  left. intros utc. simpl. discriminate.
Defined.


Lemma history_order_is_irrelevant_witness :
  calculate_in_progress_time_for_period
    [mkEntry (IsoDate (days 19723 + hours 9)) (Some "done"%string);
     mkEntry (IsoDate (days 19723 + hours 6)) (Some "in progress"%string)]
    19723 19723 "in progress"
  = calculate_in_progress_time_for_period
      [mkEntry (IsoDate (days 19723 + hours 6)) (Some "in progress"%string);
       mkEntry (IsoDate (days 19723 + hours 9)) (Some "done"%string)]
      19723 19723 "in progress".
Proof.
  apply (history_order_is_irrelevant
           [mkEntry (IsoDate (days 19723 + hours 9)) (Some "done"%string);
            mkEntry (IsoDate (days 19723 + hours 6)) (Some "in progress"%string)]
           [mkEntry (IsoDate (days 19723 + hours 6)) (Some "in progress"%string);
            mkEntry (IsoDate (days 19723 + hours 9)) (Some "done"%string)]
           19723 19723 "in progress").
  - apply perm_swap.
  - constructor.
    + intros [H|[]]. vm_compute in H. discriminate.
    + constructor; [intros []|constructor].
Defined.

Lemma later_events_are_irrelevant_witness :
  calculate_in_progress_time_for_period
    ([mkEntry (IsoDate (days 19723 + hours 6)) (Some "in progress"%string)]
     ++ [mkEntry (IsoDate (days 19725 + hours 6)) (Some "done"%string)] ++ [])
    19723 19723 "in progress"
  = calculate_in_progress_time_for_period
      ([mkEntry (IsoDate (days 19723 + hours 6)) (Some "in progress"%string)]
       ++ [])
      19723 19723 "in progress".
Proof.
  apply (later_events_are_irrelevant
           [mkEntry (IsoDate (days 19723 + hours 6)) (Some "in progress"%string)]
           [mkEntry (IsoDate (days 19725 + hours 6)) (Some "done"%string)]
           [] 19723 19723 "in progress").
  constructor; [reflexivity|constructor].
Defined.


Lemma stay_open_at_the_period_end_witness :
  calculate_in_progress_time_for_period
    [mkEntry (IsoDate (days 19723 + hours 6)) (Some "In Progress"%string)]
    19723 19724 "in progress"
  = timedelta_minutes
      (add_working_time_segment (parse_iso_to_msk (days 19723 + hours 6))
         (period_end_of 19724)).
Proof.
  apply (stay_open_at_the_period_end
           [mkEntry (IsoDate (days 19723 + hours 6)) (Some "In Progress"%string)]
           19723 19724 "in progress"
           (parse_iso_to_msk (days 19723 + hours 6)) "in progress").
  - reflexivity.
  - reflexivity.
  - vm_compute. reflexivity.
  - vm_compute. discriminate.
Defined.

Lemma assignee_rows_sorted_by_key_witness :
  (1 < 2)%nat /\ String.leb "T-1" "T-2" = true.
Proof.
  split; [lia|].
  apply (assignee_rows_sorted_by_key round_tenths 1 "Ann"
           [("T-2"%string, "b"%string, (7 # 5)%Q);
            ("T-1"%string, "a"%string, (2 # 5)%Q)] 1 2 "T-1" "T-2").
  - vm_compute. do 3 right. left. reflexivity.
  - vm_compute. do 6 right. left. reflexivity.
  - lia.
Defined.

Lemma skipped_items_leave_no_trace_witness :
  process_data round_tenths (fun _ => Some [])
    ([] ++ mkItem None (Some "ws"%string) (Some "42"%string) None None :: [])
    [mkPeriod 19723 19723] None
  = process_data round_tenths (fun _ => Some []) ([] ++ [])
      [mkPeriod 19723 19723] None.
Proof.
  apply (skipped_items_leave_no_trace round_tenths (fun _ => Some []) [] []
           (mkItem None (Some "ws"%string) (Some "42"%string) None None)
           [mkPeriod 19723 19723] None).
  left. reflexivity.
Defined.

Lemma report_filters_keep_every_aggregated_row_witness :
  let g := [("Ann"%string, [("T-1"%string, "Task"%string, 3%Q)])] in
  kept_count g = List.length (List.concat (map snd g)).
Proof.
  cbv zeta.
  apply (report_filters_keep_every_aggregated_row round_tenths
           (fun _ => Some
              [("StatusUpdated"%string,
                mkEntry (IsoDate (days 19723 + hours 6))
                  (Some "In Progress"%string));
               ("Commented"%string,
                mkEntry (IsoDate (days 19723 + hours 7)) None);
               ("StatusUpdated"%string,
                mkEntry (IsoDate (days 19723 + hours 9)) (Some "Done"%string))])
           [mkItem (Some "T-1"%string) (Some "ws"%string) (Some "42"%string)
              (Some "Ann"%string) (Some "Task"%string)]
           [mkPeriod 19723 19723] None (19723, 19723)
           [("Ann"%string, [("T-1"%string, "Task"%string, 3%Q)])]).
  vm_compute. left. reflexivity.
Defined.
